(** * Nutify: the sampling cache and the event notifier

    A shallow embedding of the UPS reader ([core/db/ups/utils.py],
    [core/db/ups/data.py]), of the sample cache ([core/db/ups/cache.py]) and
    of the event notifier ([core/events/ups_notifier.py]), followed by the
    properties of the specification that concern them.  The handlers of the
    websocket, the configuration singleton of the reader, the entry of the
    notifier ([parse_input_args], [main]), the ntfy model
    ([core/db/orm/orm_ups_opt_ntfy.py]), the settings file
    ([core/settings.py]) and the runtime texts of the mailer
    ([core/mail/mail.py]) are embedded after them, with further properties
    of the code.

    Conventions.  A time is a number of microseconds; in the cache, where
    every [datetime] is aware, it is an instant, and in the event store,
    where the columns are naive, it is the reading of the wall clock, a
    [datetime] of the notifier being tagged naive or aware.  A Python [float]
    is an exact rational: the arithmetic of the code ([*], [/], [mean],
    [round]) is carried out without binary rounding, and [nan] is a separate
    value.  A Python [dict] is an association list in insertion order with
    unique keys.  A call that can raise takes the behaviour of its
    environment (a statement of the database that raises, the outcome of a
    send) as an argument, and an exception that the code catches is a branch
    of the function. *)

From Stdlib Require Import ZArith QArith Qround Bool List Lia.
From Stdlib Require Import Strings.String Strings.Ascii Numbers.DecimalString.
From Stdlib Require Import Qabs DecimalN DecimalPos.
Import ListNotations.

Local Open Scope string_scope.
Local Open Scope list_scope.
Local Open Scope Z_scope.

(** ** Python helpers *)

Module Py.

(** [str(n)] for an [int]. *)
Definition str_of_int (n : Z) : string :=
  NilZero.string_of_int (Z.to_int n).

(** [c.upper()] and [c.lower()] on one character: only the ASCII letters
    move. *)
Definition upper_ascii (c : ascii) : ascii :=
  let n := nat_of_ascii c in
  if ((97 <=? n) && (n <=? 122))%nat then ascii_of_nat (n - 32) else c.

Definition lower_ascii (c : ascii) : ascii :=
  let n := nat_of_ascii c in
  if ((65 <=? n) && (n <=? 90))%nat then ascii_of_nat (n + 32) else c.

Fixpoint map_string (f : ascii -> ascii) (s : string) : string :=
  match s with
  | EmptyString => EmptyString
  | String c r => String (f c) (map_string f r)
  end.

Definition upper : string -> string := map_string upper_ascii.
Definition lower : string -> string := map_string lower_ascii.

(** [int(x / y)] for integers: true division, then truncation toward
    zero. *)
Definition int_div (x y : Z) : Z := Z.quot x y.

(** *** Values and dictionaries *)

(** The values that travel in a sample: a finite [float], [nan], an [int],
    a [str], a [datetime]. *)
Inductive value :=
| VFloat (q : Q)
| VNaN
| VInt (n : Z)
| VStr (s : string)
| VTime (t : Z).

Definition dict (A : Type) := list (string * A).

Section Dict.
Context {A : Type}.

(** [d.get(k)] *)
Fixpoint dict_get (k : string) (d : dict A) : option A :=
  match d with
  | [] => None
  | (k', v) :: r => if String.eqb k' k then Some v else dict_get k r
  end.

(** [k in d] *)
Definition dict_mem (k : string) (d : dict A) : bool :=
  match dict_get k d with Some _ => true | None => false end.

(** [d[k] = v]: an existing key keeps its place, a new key goes last. *)
Fixpoint dict_set (k : string) (v : A) (d : dict A) : dict A :=
  match d with
  | [] => [(k, v)]
  | (k', v') :: r =>
      if String.eqb k' k then (k, v) :: r else (k', v') :: dict_set k v r
  end.

Definition dict_keys (d : dict A) : list string := map fst d.

(** A dictionary built by assigning the items of [l] from left to
    right. *)
Definition dict_of_items (l : list (string * A)) : dict A :=
  fold_left (fun d kv => dict_set (fst kv) (snd kv) d) l [].
End Dict.

(** *** Strings *)

(** [c.isspace()] on the ASCII range. *)
Definition is_space (c : ascii) : bool :=
  let n := nat_of_ascii c in
  (((9 <=? n) && (n <=? 13)) || ((28 <=? n) && (n <=? 32)))%nat.

Fixpoint lstrip (s : string) : string :=
  match s with
  | String c r => if is_space c then lstrip r else s
  | EmptyString => EmptyString
  end.

Fixpoint rstrip (s : string) : string :=
  match s with
  | EmptyString => EmptyString
  | String c r =>
      match rstrip r with
      | EmptyString => if is_space c then EmptyString
                       else String c EmptyString
      | r' => String c r'
      end
  end.

(** [s.strip()] *)
Definition strip (s : string) : string := rstrip (lstrip s).

(** [s.split(sep, 1)] at the first occurrence of the character [sep];
    [None] when [sep] is not in [s]. *)
Fixpoint split_once (sep : ascii) (s : string) : option (string * string) :=
  match s with
  | EmptyString => None
  | String c r =>
      if Ascii.eqb c sep then Some (EmptyString, r)
      else match split_once sep r with
           | Some (a, b) => Some (String c a, b)
           | None => None
           end
  end.

(** Every character of [s] satisfies [p]. *)
Fixpoint forall_chars (p : ascii -> bool) (s : string) : bool :=
  match s with
  | EmptyString => true
  | String c r => p c && forall_chars p r
  end.

(** [s.replace('.', '_')] *)
Definition dots_to_underscores : string -> string :=
  map_string (fun c => if Ascii.eqb c "." then "_"%char else c).

(** *** Floats *)

(** A [float]: finite, or [nan]. *)
Inductive float := Finite (q : Q) | NaN.

Definition is_digit (c : ascii) : bool :=
  let n := nat_of_ascii c in ((48 <=? n) && (n <=? 57))%nat.

Fixpoint all_digits (s : string) : bool :=
  match s with
  | EmptyString => true
  | String c r => is_digit c && all_digits r
  end.

(** The number written by a string of digits (0 for the empty string). *)
Definition digits_value (s : string) : Z :=
  match NilEmpty.uint_of_string s with
  | Some d => Z.of_N (N.of_uint d)
  | None => 0
  end.

(** A sign, if any, and the rest. *)
Definition split_sign (s : string) : bool * string :=
  match s with
  | String "-" r => (true, r)
  | String "+" r => (false, r)
  | _ => (false, s)
  end.

(** The exponent part, [e] or [E] excluded: an optional sign and at least
    one digit. *)
Definition parse_exponent (s : string) : option Z :=
  let '(neg, r) := split_sign s in
  match r with
  | EmptyString => None
  | _ => if all_digits r
         then Some (if neg then - digits_value r else digits_value r)
         else None
  end.

(** The mantissa [digits], [digits.], [digits.digits] or [.digits]. *)
Definition parse_mantissa (s : string) : option Q :=
  let '(ip, fp) := match split_once "." s with
                   | Some (a, b) => (a, b)
                   | None => (s, EmptyString)
                   end in
  match ip, fp with
  | EmptyString, EmptyString => None
  | _, _ =>
      if all_digits ip && all_digits fp then
        let scale := 10 ^ Z.of_nat (String.length fp) in
        Some (Qmake (digits_value ip * scale + digits_value fp)
                    (Z.to_pos scale))
      else None
  end.

Definition split_exponent (s : string) : string * option string :=
  match split_once "e" s, split_once "E" s with
  | Some (a, b), Some (a', b') =>
      if (String.length a <=? String.length a')%nat
      then (a, Some b) else (a', Some b')
  | Some (a, b), None => (a, Some b)
  | None, Some (a, b) => (a, Some b)
  | None, None => (s, None)
  end.

(** [float(s)] for a [str]: surrounding blanks are dropped, then an
    optional sign, a decimal mantissa and an optional exponent are read;
    the result is in lowest terms.  [None] is the [ValueError].  The
    spellings [inf], [nan] and digit groups with [_], which the status
    command does not print, are read as errors. *)
Definition float_of_string (s : string) : option Q :=
  let '(neg, r) := split_sign (strip s) in
  let '(m, e) := split_exponent r in
  match parse_mantissa m with
  | None => None
  | Some q =>
      let signed := if neg then Qopp q else q in
      match e with
      | None => Some (Qred signed)
      | Some es =>
          match parse_exponent es with
          | Some n => Some (Qred (signed * Qpower 10 n))
          | None => None
          end
      end
  end.

(** [float(v)]; [None] is a [ValueError] or a [TypeError]. *)
Definition to_float (v : value) : option float :=
  match v with
  | VFloat q => Some (Finite q)
  | VNaN => Some NaN
  | VInt n => Some (Finite (inject_Z n))
  | VStr s => option_map Finite (float_of_string s)
  | VTime _ => None
  end.

(** Truth value of [v] in [v or 0]. *)
Definition truthy (v : value) : bool :=
  match v with
  | VFloat q => negb (Qeq_bool q 0)
  | VNaN => true
  | VInt n => negb (n =? 0)
  | VStr s => negb (String.eqb s "")
  | VTime _ => true
  end.

(** [round(x)] to the nearest integer, ties to the even one. *)
Definition round_half_even (q : Q) : Z :=
  let f := Qfloor q in
  match Qcompare (q - inject_Z f) (1 # 2) with
  | Lt => f
  | Gt => f + 1
  | Eq => if Z.even f then f else f + 1
  end.

(** The number of hundredths of [round(x, 2)]. *)
Definition hundredths (q : Q) : Z := round_half_even (q * 100).

(** [round(x, 2)], in lowest terms. *)
Definition round2 (q : Q) : Q := Qred (Qmake (hundredths q) 100).

Definition digit_char (d : Z) : ascii :=
  ascii_of_nat (48 + Z.to_nat d).

(** [str(x)] for a float with [h] hundredths, of magnitude below
    [10 ** 16]: the integer part, a point, and one or two decimals. *)
Definition str_of_hundredths (h : Z) : string :=
  let a := Z.abs h in
  let sign := if h <? 0 then "-" else "" in
  let ip := NilZero.string_of_uint (N.to_uint (Z.to_N (a / 100))) in
  let d1 := (a mod 100) / 10 in
  let d2 := a mod 10 in
  let fp := if d2 =? 0 then String (digit_char d1) EmptyString
            else String (digit_char d1) (String (digit_char d2) EmptyString) in
  (sign ++ ip ++ "." ++ fp)%string.

(** [str(round(x, 2))] *)
Definition str_round2 (q : Q) : string := str_of_hundredths (hundredths q).

End Py.

(** ** The UPS reader ([core/db/ups/utils.py], [core/db/ups/data.py]) *)

Module Reader.
Import Py.

(** The singleton [ups_config]; [None] is Python's [None]. *)
Record UPSConfig := mkConfig {
  host : option string;
  name : option string;
  command : option string
}.

(** [not x] for an optional string. *)
Definition unset (x : option string) : bool :=
  match x with
  | None => true
  | Some s => String.eqb s ""
  end.

(** What [subprocess.run] does: it completes with a return code, the lines
    of its output and its error text, or it raises (a timeout, a missing
    program). *)
Inductive run_result :=
| Completed (returncode : Z) (stdout_lines : list string) (stderr : string)
| RunRaised (msg : string).

Inductive result (A : Type) :=
| Ok (a : A)
| UPSDataError (msg : string).
Arguments Ok {A} a.
Arguments UPSDataError {A} msg.

(** The value of the first of [keys] that is in [data]. *)
Fixpoint first_present (keys : list string) (data : dict string)
  : option string :=
  match keys with
  | [] => None
  | k :: r =>
      match dict_get k data with
      | Some v => Some v
      | None => first_present r data
      end
  end.

Section Settings.

(** [UPS_REALPOWER_NOMINAL] of the settings file. *)
Variable UPS_REALPOWER_NOMINAL : value.

Definition dot_key : string := "ups.realpower".
Definition underscore_key : string := "ups_realpower".

(** [current_value], [load_value] and [nominal_value] of
    [calculate_realpower]; [None] is Python's [None]. *)
Definition current_value (data : dict string) : option string :=
  first_present [dot_key; underscore_key] data.

Definition load_value (data : dict string) : option string :=
  first_present ["ups.load"; "ups_load"] data.

Definition nominal_value (data : dict string) : option string :=
  first_present ["ups.realpower.nominal"; "ups_realpower_nominal";
                 "UPS_REALPOWER_NOMINAL"] data.

(** [float(load_value if load_value is not None else 0)]; [None] is the
    [ValueError]. *)
Definition load_percent (data : dict string) : option Q :=
  match load_value data with
  | Some s => float_of_string s
  | None => Some 0%Q
  end.

(** [float(nominal_value if nominal_value is not None
          else UPS_REALPOWER_NOMINAL)] *)
Definition nominal_power (data : dict string) : option float :=
  match nominal_value data with
  | Some s => option_map Finite (float_of_string s)
  | None => to_float UPS_REALPOWER_NOMINAL
  end.

(** [calculate_realpower]: every [float()] that raises leads to the
    handler, which returns [data] as it was. *)
Definition calculate_realpower (data : dict string) : dict string :=
  let wanted :=
    match current_value data with
    | None => Some true
    | Some s => option_map (fun q => Qeq_bool q 0) (float_of_string s)
    end in
  match wanted with
  | None => data
  | Some false => data
  | Some true =>
      match load_percent data, nominal_power data with
      | Some load, Some (Finite nominal) =>
          if negb (Qle_bool load 0) && negb (Qle_bool nominal 0)
          then
            let realpower := (nominal * load / 100)%Q in
            dict_set underscore_key (str_round2 realpower)
                     (dict_set dot_key (str_round2 realpower) data)
          else data
      | _, _ => data
      end
  end.

(** The loop over [result.stdout.splitlines()]. *)
Definition parse_lines (lines : list string) : dict string :=
  fold_left (fun raw line =>
               match split_once ":" line with
               | Some (key, v) => dict_set (strip key) (strip v) raw
               | None => raw
               end) lines [].

(** The loop that turns the keys to the database format and the values
    to floats where [float()] accepts them. *)
Definition transform (raw_data : dict string) : dict value :=
  fold_left (fun t kv =>
               dict_set (dots_to_underscores (fst kv))
                        (match float_of_string (snd kv) with
                         | Some q => VFloat q
                         | None => VStr (snd kv)
                         end) t) raw_data [].

(** The sample returned when the name or the host is not configured. *)
Definition placeholder : dict value :=
  [("ups_status", VStr "ERROR"); ("battery_charge", VFloat 0);
   ("battery_runtime", VInt 0); ("input_voltage", VFloat 0);
   ("output_voltage", VFloat 0)].

(** [get_ups_data]: the configuration afterwards (the command receives
    its default) and the sample or the error.  [run] is what the status
    command does when it is invoked. *)
Definition get_ups_data (cfg : UPSConfig) (run : run_result)
  : UPSConfig * result (dict value) :=
  let cfg1 := if unset (command cfg)
              then mkConfig (host cfg) (name cfg) (Some "/usr/bin/upsc")
              else cfg in
  if unset (name cfg1) || unset (host cfg1) then (cfg1, Ok placeholder)
  else
    match run with
    | RunRaised msg =>
        (cfg1, UPSDataError ("Failed to get UPS data: " ++ msg)%string)
    | Completed returncode stdout_lines stderr =>
        if negb (returncode =? 0) then
          (cfg1, UPSDataError ("Failed to get UPS data: "
                               ++ "Error connecting to UPS: " ++ stderr)%string)
        else
          (cfg1, Ok (transform (calculate_realpower
                                  (parse_lines stdout_lines))))
    end.

End Settings.

End Reader.

(** ** The sample cache ([core/db/ups/cache.py]) *)

Module Cache.
Import Py.

Definition timestamp := Z.

Definition second : Z := 1000000.
Definition minute : Z := 60 * second.
Definition hour : Z := 60 * minute.
Definition day : Z := 24 * hour.

(** A [pandas.DataFrame] built from a list of row dictionaries: the rows,
    a key missing from a row being a missing cell. *)
Definition DataFrame := list (dict value).

(** A row of [ups_dynamic_data]: its timestamp and the columns that were
    set. *)
Record UPSDynamicData := mkRecord {
  timestamp_tz : timestamp;
  fields : dict value
}.

(** The fields of a [UPSDataCache]. *)
Record UPSDataCache := mkCache {
  size : Z;
  data : list (timestamp * dict value);
  df : option DataFrame;
  next_save_time : option timestamp;
  next_hour : option timestamp;
  hourly_data : list (timestamp * value);
  last_daily_aggregation : option Z;
  last_broadcast : option (dict value)
}.

(** [UPSDataCache(size)] *)
Definition init (size : Z) : UPSDataCache :=
  mkCache size [] None None None [] None None.

Definition set_size (c : UPSDataCache) (n : Z) : UPSDataCache :=
  mkCache n (data c) (df c) (next_save_time c) (next_hour c)
          (hourly_data c) (last_daily_aggregation c) (last_broadcast c).

Definition set_buffer (c : UPSDataCache)
           (d : list (timestamp * dict value)) (f : option DataFrame)
  : UPSDataCache :=
  mkCache (size c) d f (next_save_time c) (next_hour c)
          (hourly_data c) (last_daily_aggregation c) (last_broadcast c).

Definition set_next_save_time (c : UPSDataCache) (t : option timestamp)
  : UPSDataCache :=
  mkCache (size c) (data c) (df c) t (next_hour c)
          (hourly_data c) (last_daily_aggregation c) (last_broadcast c).

Definition set_next_hour (c : UPSDataCache) (t : option timestamp)
  : UPSDataCache :=
  mkCache (size c) (data c) (df c) (next_save_time c) t
          (hourly_data c) (last_daily_aggregation c) (last_broadcast c).

Definition set_hourly_data (c : UPSDataCache) (h : list (timestamp * value))
  : UPSDataCache :=
  mkCache (size c) (data c) (df c) (next_save_time c) (next_hour c)
          h (last_daily_aggregation c) (last_broadcast c).

Definition set_last_daily_aggregation (c : UPSDataCache) (d : option Z)
  : UPSDataCache :=
  mkCache (size c) (data c) (df c) (next_save_time c) (next_hour c)
          (hourly_data c) d (last_broadcast c).

Definition set_last_broadcast (c : UPSDataCache) (b : option (dict value))
  : UPSDataCache :=
  mkCache (size c) (data c) (df c) (next_save_time c) (next_hour c)
          (hourly_data c) (last_daily_aggregation c) b.

(** *** Averages *)

(** The columns of a frame: the keys of its rows, in order of first
    appearance. *)
Definition columns (f : DataFrame) : list string :=
  fold_left (fun acc row =>
               fold_left (fun acc k =>
                            if existsb (String.eqb k) acc then acc
                            else acc ++ [k]) (dict_keys row) acc)
            f [].

Definition column (c : string) (f : DataFrame) : list (option value) :=
  map (dict_get c) f.

(** A cell that keeps a column numeric: a float, an int or a missing
    cell. *)
Definition number_cell (o : option value) : bool :=
  match o with
  | None | Some (VFloat _) | Some VNaN | Some (VInt _) => true
  | Some (VStr _) | Some (VTime _) => false
  end.

(** [c in df.select_dtypes(include=[np.number]).columns] *)
Definition is_numeric (c : string) (f : DataFrame) : bool :=
  forallb number_cell (column c f).

(** The finite numbers of a column, the missing cells and [nan] apart. *)
Definition numbers (l : list (option value)) : list Q :=
  flat_map (fun o => match o with
                     | Some (VFloat q) => [q]
                     | Some (VInt n) => [inject_Z n]
                     | _ => []
                     end) l.

Definition Qsum (l : list Q) : Q := fold_right Qplus 0%Q l.

(** [mean()] of a numeric column, then [round(2)]. *)
Definition mean_round2 (l : list (option value)) : value :=
  match numbers l with
  | [] => VNaN
  | qs => VFloat (round2 (Qsum qs / inject_Z (Z.of_nat (List.length qs))))
  end.

(** [iloc[-1]] of a column. *)
Definition last_cell (l : list (option value)) : value :=
  match last l None with
  | Some v => v
  | None => VNaN
  end.

(** [calculate_averages] *)
Definition calculate_averages (c : UPSDataCache) : option (dict value) :=
  match df c with
  | None => None
  | Some [] => None
  | Some f =>
      let numeric_cols := filter (fun k => is_numeric k f) (columns f) in
      let non_numeric_cols :=
        filter (fun k => negb (String.eqb k "timestamp"))
               (filter (fun k => negb (is_numeric k f)) (columns f)) in
      let averages :=
        map (fun k => (k, mean_round2 (column k f))) numeric_cols in
      let last_values :=
        map (fun k => (k, last_cell (column k f))) non_numeric_cols in
      Some (averages ++ last_values)
  end.

(** *** Flush trigger *)

(** [is_save_time]; instants are compared whatever their time zone. *)
Definition is_save_time (c : UPSDataCache) (current_time : timestamp)
  : bool :=
  match next_save_time c with
  | None => false
  | Some t =>
      if t <=? current_time then true
      else if size c <=? Z.of_nat (List.length (data c)) then true
      else false
  end.

(** [is_full] *)
Definition is_full (c : UPSDataCache) : bool :=
  size c <=? Z.of_nat (List.length (data c)).

(** *** Broadcast *)

(** [a == b] for the results of [dict.get]; [None] is Python's [None]. *)
Definition py_eq (a b : option value) : bool :=
  match a, b with
  | None, None => true
  | Some (VStr x), Some (VStr y) => String.eqb x y
  | Some (VTime x), Some (VTime y) => x =? y
  | Some x, Some y =>
      match x, y with
      | (VFloat _ | VInt _), (VFloat _ | VInt _) =>
          match to_float x, to_float y with
          | Some (Finite p), Some (Finite q) => Qeq_bool p q
          | _, _ => false
          end
      | _, _ => false
      end
  | _, _ => false
  end.

(** [float(v or 0)] *)
Definition float_or_0 (v : value) : option float :=
  if truthy v then to_float v else Some (Finite 0).

(** The body of the loop over [important_metrics] for one metric: [true]
    when the loop breaks with a significant change. *)
Definition metric_changed (broadcast_data last : dict value)
           (metric : string) : bool :=
  match dict_get metric broadcast_data, dict_get metric last with
  | Some cur, Some old =>
      match float_or_0 cur, float_or_0 old with
      | Some (Finite current_val), Some (Finite last_val) =>
          Qle_bool 1 (Qabs (current_val - last_val))
      | Some _, Some _ => false
      | _, _ => true
      end
  | _, _ => false
  end.

Definition important_metrics : list string :=
  ["ups_load"; "battery_charge"; "ups_realpower"; "input_voltage"].

(** [broadcast_cache_update]: the cache afterwards and the payload given
    to [websocket.emit], if any; an emit that raises is caught after the
    last broadcast has been updated.  [now_iso] is
    [datetime.now().isoformat()]. *)
Definition broadcast_cache_update (c : UPSDataCache) (d : dict value)
           (now_iso : string) : UPSDataCache * option (dict value) :=
  match d with
  | [] => (c, None)
  | _ =>
      let broadcast_data :=
        dict_of_items (("timestamp", VStr now_iso) :: d) in
      let skip :=
        match last_broadcast c with
        | None | Some [] => false
        | Some last =>
            let status_changed :=
              negb (py_eq (dict_get "ups_status" broadcast_data)
                          (dict_get "ups_status" last)) in
            let significant_change :=
              existsb (metric_changed broadcast_data last)
                      important_metrics in
            negb status_changed && negb significant_change
        end in
      if skip then (c, None)
      else (set_last_broadcast c (Some broadcast_data), Some broadcast_data)
  end.

(** The row [{'timestamp': ts, **d}] of the frame for one buffered
    sample. *)
Definition row_of (p : timestamp * dict value) : dict value :=
  dict_of_items (("timestamp", VTime (fst p)) :: snd p).

Section Settings.

(** The offset of the configured time zone from UTC, in microseconds. *)
Variable utcoffset : Z.

(** [hasattr(dynamic_data, key)]: the attributes of the model of
    [ups_dynamic_data]. *)
Variable model_columns : string -> bool.

(** [CACHE_SECONDS] of the settings. *)
Variable CACHE_SECONDS : Z.

(** [UPS_REALPOWER_NOMINAL] of the settings. *)
Variable UPS_REALPOWER_NOMINAL : value.

(** [get_next_minute] *)
Definition get_next_minute (current_time : timestamp) : timestamp :=
  let local_time := current_time + utcoffset in
  (local_time - local_time mod minute) + minute - utcoffset.

(** [get_next_hour] *)
Definition get_next_hour (current_time : timestamp) : timestamp :=
  let local_time := current_time + utcoffset in
  (local_time - local_time mod hour) + hour - utcoffset.

(** [add] *)
Definition add (c : UPSDataCache) (ts : timestamp) (d : dict value)
           (now_iso : string) : UPSDataCache * option (dict value) :=
  let c1 := match next_save_time c with
            | None => set_next_save_time c (Some (get_next_minute ts))
            | Some _ => c
            end in
  let formatted_data :=
    dict_of_items (map (fun kv => (dots_to_underscores (fst kv), snd kv))
                       d) in
  let data1 := data c1 ++ [(ts, formatted_data)] in
  let df_data := map row_of data1 in
  broadcast_cache_update (set_buffer c1 data1 (Some df_data))
                         formatted_data now_iso.

(** *** Flush *)

(** What the database does during one call: whether a query raises,
    whether a commit raises. *)
Record faults := mkFaults {
  query_raises : bool;
  commit_raises : bool
}.

Definition store := list UPSDynamicData.

(** [sum(powers)]; [None] is the [TypeError] of a value that is not a
    number. *)
Fixpoint py_sum (l : list value) : option float :=
  match l with
  | [] => Some (Finite 0)
  | v :: r =>
      match v, py_sum r with
      | (VFloat _ | VInt _ | VNaN), Some t =>
          match to_float v, t with
          | Some (Finite a), Finite b => Some (Finite (a + b))
          | _, _ => Some NaN
          end
      | _, _ => None
      end
  end.

Definition in_window (lo hi : timestamp) (d : UPSDynamicData) : bool :=
  (lo <=? timestamp_tz d) && (timestamp_tz d <? hi).

(** [should_aggregate_daily] *)
Definition should_aggregate_daily (c : UPSDataCache)
           (current_time : timestamp) : bool * UPSDataCache :=
  let local_time := current_time + utcoffset in
  let local_hour := (local_time mod day) / hour in
  let local_minute := (local_time mod hour) / minute in
  let local_date := local_time / day in
  if (local_hour =? 0) && (local_minute =? 0) then
    match last_daily_aggregation c with
    | Some d =>
        if d =? local_date then (false, c)
        else (true, set_last_daily_aggregation c (Some local_date))
    | None => (true, set_last_daily_aggregation c (Some local_date))
    end
  else (false, c).

(** [aggregate_daily_data]: the store afterwards; every error is caught
    and rolled back. *)
Definition aggregate_daily_data (fl : faults) (db : store)
           (current_time : timestamp) : store :=
  let local_time := current_time + utcoffset in
  let aggregation_time :=
    (local_time - local_time mod day) + local_time mod second
    - utcoffset in
  if query_raises fl then db
  else
    let hrs :=
      numbers (map (fun d => dict_get "ups_realpower_hrs" (fields d))
                   (filter (in_window (aggregation_time - day)
                                      aggregation_time) db)) in
    match hrs with
    | [] => db
    | _ =>
        let daily_data :=
          (Qsum hrs / inject_Z (Z.of_nat (List.length hrs)))%Q in
        if Qeq_bool daily_data 0 then db
        else if commit_raises fl then db
        else db ++ [mkRecord (aggregation_time - day)
                             [("ups_realpower_days",
                               VFloat (round2 daily_data))]]
    end.

(** The hourly part of the flush: whether it raised, the cache and the
    record afterwards. *)
Definition hourly_step (fl : faults) (c : UPSDataCache) (db : store)
           (averages : dict value) (save_time : timestamp)
           (dynamic_data : UPSDynamicData) (current_time : timestamp)
  : bool * UPSDataCache * UPSDynamicData :=
  match dict_get "ups_realpower" averages, next_hour c with
  | Some p, Some nh =>
      let c1 := set_hourly_data c (hourly_data c ++ [(save_time, p)]) in
      if nh <=? current_time then
        if query_raises fl then (true, c1, dynamic_data)
        else
          let exact_hour := nh - hour in
          let hour_data :=
            filter (in_window exact_hour (exact_hour + hour)) db in
          let powers :=
            flat_map (fun d => match dict_get "ups_realpower" (fields d) with
                               | Some v => [v]
                               | None => []
                               end) hour_data in
          let c2 := set_next_hour (set_hourly_data c1 [])
                                  (Some (get_next_hour current_time)) in
          match powers with
          | [] => (false, c2, dynamic_data)
          | _ =>
              match py_sum powers with
              | None => (true, c1, dynamic_data)
              | Some total =>
                  let hrs :=
                    match total with
                    | Finite t =>
                        VFloat (round2 (t / inject_Z
                                              (Z.of_nat (List.length powers))))
                    | NaN => VNaN
                    end in
                  (false, c2,
                   mkRecord (timestamp_tz dynamic_data)
                            (dict_set "ups_realpower_hrs" hrs
                                      (fields dynamic_data)))
              end
          end
      else (false, c1, dynamic_data)
  | _, _ => (false, c, dynamic_data)
  end.

(** [calculate_and_save_averages]: the result, the cache and the store
    afterwards.  The second pass over the critical fields rewrites
    values that the first pass has set and is left out. *)
Definition calculate_and_save_averages (fl : faults) (c : UPSDataCache)
           (db : store) (current_time : timestamp)
  : bool * UPSDataCache * store :=
  let c0 := match next_hour c with
            | None => set_next_hour c (Some (get_next_hour current_time))
            | Some _ => c
            end in
  if negb (is_save_time c0 current_time) then (false, c0, db)
  else
    match calculate_averages c0, next_save_time c0 with
    | Some ((_ :: _) as averages), Some save_time =>
        let dynamic_data :=
          mkRecord save_time
                   (filter (fun kv => model_columns (fst kv)) averages) in
        let '(raised, c1, dynamic_data1) :=
          hourly_step fl c0 db averages save_time dynamic_data
                      current_time in
        if raised then (false, c1, db)
        else if commit_raises fl then (false, c1, db)
        else
          let db1 := db ++ [dynamic_data1] in
          let c2 :=
            set_next_save_time (set_buffer c1 [] None)
                               (Some (get_next_minute current_time)) in
          let '(daily, c3) := should_aggregate_daily c2 current_time in
          if daily
          then (true, c3, aggregate_daily_data fl db1 current_time)
          else (true, c3, db1)
    | _, _ => (false, c0, db)
    end.

(** *** The polling step: [save_ups_data] *)

(** [model_class.query.first()] for the polling interval. *)
Inductive polling_config :=
| ConfigRow (polling_interval : Z)
| NoConfigRow
| ConfigRaises.

(** The environment of one polling step. *)
Record environment := mkEnv {
  now : timestamp;
  now_iso : string;
  config : polling_config;
  run : Reader.run_result;
  db_faults : faults
}.

(** The state that a polling step reads and writes. *)
Record state := mkState {
  ups_config : Reader.UPSConfig;
  ups_data_cache : UPSDataCache;
  db : store
}.

(** [save_ups_data]: the returned pair, the state afterwards and the
    payload broadcast, if any. *)
Definition save_ups_data (env : environment) (st : state)
  : (bool * option string) * state * option (dict value) :=
  let polling_interval :=
    match config env with
    | ConfigRow n => n
    | NoConfigRow | ConfigRaises => 1
    end in
  let c0 := ups_data_cache st in
  let c1 :=
    if 1 <? polling_interval then
      let target_buffer_size :=
        Z.max 5 (Py.int_div CACHE_SECONDS polling_interval) in
      if negb (size c0 =? target_buffer_size)
      then set_size c0 target_buffer_size
      else c0
    else c0 in
  match Reader.get_ups_data UPS_REALPOWER_NOMINAL (ups_config st) (run env) with
  | (cfg1, Reader.UPSDataError msg) =>
      ((false, Some ("Error saving data: " ++ msg)%string),
       mkState cfg1 c1 (db st), None)
  | (cfg1, Reader.Ok data_dict) =>
      let '(c2, sent) := add c1 (now env) data_dict (now_iso env) in
      let '(_, c3, db1) :=
        calculate_and_save_averages (db_faults env) c2 (db st) (now env) in
      ((true, None), mkState cfg1 c3 db1, sent)
  end.

(** The global cache of the module. *)
Definition initial_cache : UPSDataCache := init CACHE_SECONDS.

End Settings.

(** The polling thread of [app.py], one call of [save_ups_data] per
    environment. *)
Definition polling_thread utcoffset model_columns CACHE_SECONDS
           UPS_REALPOWER_NOMINAL (envs : list environment) (st : state)
  : state :=
  fold_left (fun st env =>
               snd (fst (save_ups_data utcoffset model_columns CACHE_SECONDS
                                       UPS_REALPOWER_NOMINAL env st)))
            envs st.

(** *** Notions used by the properties *)

(** The frame that [add] builds from the buffer; none for an empty
    buffer. *)
Definition frame_of (buffer : list (timestamp * dict value))
  : option DataFrame :=
  match buffer with
  | [] => None
  | _ => Some (map row_of buffer)
  end.

(** The frame of the cache is the one of its buffer: true of a new cache
    and kept by [add] and by the flush. *)
Definition synced (c : UPSDataCache) : Prop := df c = frame_of (data c).



End Cache.

(** ** The event store and the notifier ([core/events/ups_notifier.py]) *)

Module Events.

Definition timestamp := Z.

Definition second : Z := 1000000.

(** [t.replace(microsecond=0)] *)
Definition replace_microsecond_0 (t : timestamp) : timestamp :=
  t - t mod second.

(** A row of [ups_events] ([core/db/orm/orm_ups_events.py]). *)
Record UPSEvent := mkEvent {
  id : Z;
  timestamp_tz : timestamp;
  timestamp_tz_begin : option timestamp;
  timestamp_tz_end : option timestamp;
  ups_name : string;
  event_type : string;
  event_message : string;
  source_ip : string;
  acknowledged : bool
}.

(** The table, in insertion order. *)
Definition table := list UPSEvent.

Definition is_open (e : UPSEvent) : bool :=
  match timestamp_tz_end e with None => true | Some _ => false end.

(** [filter_by(ups_name=ups_name, timestamp_tz_end=None)] *)
Definition open_of (name : string) (e : UPSEvent) : bool :=
  String.eqb (ups_name e) name && is_open e.

Definition set_end (t : timestamp) (e : UPSEvent) : UPSEvent :=
  mkEvent (id e) (timestamp_tz e) (timestamp_tz_begin e) (Some t)
          (ups_name e) (event_type e) (event_message e) (source_ip e)
          (acknowledged e).

(** The primary key of the next inserted row. *)
Definition next_id (db : table) : Z :=
  1 + fold_right (fun e m => Z.max (id e) m) 0 db.

(** The body of the loop of [close_previous_events] seen from the table:
    an open event of [name] receives the end [t], any other row stays. *)
Definition close_at (name : string) (t : timestamp) (e : UPSEvent)
  : UPSEvent :=
  if open_of name e then set_end t e else e.

(** What the database does during one run of the notifier: whether the
    close step raises, whether the insert raises, whether the queries of
    the duration derivation raise. *)
Record session := mkSession {
  close_raises : bool;
  insert_raises : bool;
  query_raises : bool
}.

(** A database that works. *)
Definition no_fault : session := mkSession false false false.

(** [close_previous_events]: every open event of [name] receives the end
    timestamp [current_time]; the count of closed events is returned.  When
    the database raises, the handler returns 0 and the table is as
    before. *)
Definition close_previous_events (raises : bool) (db : table)
           (name : string) (current_time : timestamp) : Z * table :=
  if raises then (0, db)
  else
    (Z.of_nat (List.length (filter (open_of name) db)),
     map (close_at name current_time) db).

Section Notifier.

(** [UPS_HOST] of the settings, returned by [get_source_ip]. *)
Variable UPS_HOST : string.

Definition get_source_ip : string := UPS_HOST.

Definition new_event (db : table) (name ty : string) (now : timestamp)
  : UPSEvent :=
  mkEvent (next_id db) now (Some now) None name ty
          ("UPS " ++ name ++ " event: " ++ ty)%string get_source_ip false.

(** [store_event_in_database]; [clock] is the reading of
    [datetime.datetime.now()].  An insert that raises leads to the handler,
    which returns [False]; what the close step has committed stays. *)
Definition store_event_in_database (fl : session) (clock : timestamp)
           (db : table) (name ty : string) : bool * table :=
  let now := replace_microsecond_0 clock in
  let '(_, db1) := close_previous_events (close_raises fl) db name now in
  if insert_raises fl then (false, db1)
  else (true, db1 ++ [new_event db1 name ty now]).

(** A run of the notifier as far as the table goes: the faults of the
    database, the reading of the clock, the UPS name and the event type. *)
Record recording := mkRecording {
  rec_faults : session;
  rec_clock : timestamp;
  rec_name : string;
  rec_type : string
}.

(** The table after a sequence of runs, one after the other. *)
Definition record_all (runs : list recording) (db : table) : table :=
  fold_left (fun db r =>
               snd (store_event_in_database (rec_faults r) (rec_clock r) db
                                            (rec_name r) (rec_type r)))
            runs db.

(** *** Duration derivation in [send_email_notification] *)

(** [order_by(UPSEventModel.timestamp_tz.desc())]: a stable insertion
    sort, rows of equal timestamp stay in insertion order. *)
Fixpoint insert_desc (e : UPSEvent) (l : list UPSEvent) : list UPSEvent :=
  match l with
  | [] => [e]
  | x :: r =>
      if timestamp_tz x <? timestamp_tz e then e :: l
      else x :: insert_desc e r
  end.

Definition order_by_timestamp_desc (l : list UPSEvent) : list UPSEvent :=
  fold_right insert_desc [] l.

(** [filter_by(ups_name=.., event_type=ty, timestamp_tz_end=None)
      .order_by(timestamp_tz.desc()).first()] *)
Definition first_open_event (db : table) (name ty : string)
  : option UPSEvent :=
  hd_error (order_by_timestamp_desc
              (filter (fun e => String.eqb (ups_name e) name
                                && String.eqb (event_type e) ty
                                && is_open e) db)).

(** [filter_by(ups_name=.., event_type=ty)
      .filter(timestamp_tz_end != None)
      .order_by(timestamp_tz.desc()).limit(5).all()] *)
Definition closed_events (db : table) (name ty : string)
  : list UPSEvent :=
  firstn 5 (order_by_timestamp_desc
              (filter (fun e => String.eqb (ups_name e) name
                                && String.eqb (event_type e) ty
                                && negb (is_open e)) db)).

(** A [datetime] as Python has it: naive, the reading of the wall clock
    alone, or aware of its time zone.  The event columns hold the naive
    readings that [store_event_in_database] writes, and SQLite keeps no
    offset: a column that is read back is naive. *)
Inductive datetime := Naive (t : timestamp) | Aware (t : timestamp).

(** [(a - b)] in microseconds; [None] is the [TypeError] that Python raises
    for a naive and an aware operand. *)
Definition datetime_sub (a b : datetime) : option Z :=
  match a, b with
  | Naive x, Naive y => Some (x - y)
  | Aware x, Aware y => Some (x - y)
  | _, _ => None
  end.

(** What the search of a duration gives: a text, nothing, or the
    [TypeError] of a subtraction. *)
Inductive lookup := Found (d : string) | NotFound | TypeError.

(** [f"{int(duration_seconds / 60)} min"] for a difference of instants. *)
Definition minutes_text (delta : Z) : string :=
  (Py.str_of_int (Py.int_div delta (60 * second)) ++ " min")%string.

(** The loop over [closed_events]: the first event that ended less than
    an hour before [now] gives the duration and breaks the loop. *)
Fixpoint duration_of_closed (now : datetime) (l : list UPSEvent) : lookup :=
  match l with
  | [] => NotFound
  | e :: r =>
      match timestamp_tz_end e with
      | Some t_end =>
          match datetime_sub now (Naive t_end) with
          | None => TypeError
          | Some delta =>
              if delta <? 3600 * second
              then Found (minutes_text (t_end - timestamp_tz e))
              else duration_of_closed now r
          end
      | None => duration_of_closed now r
      end
  end.

(** The value that [get_ups_info] gives to ['battery_duration'] and to
    ['comm_duration'] on every path. *)
Definition ups_info_duration : string := "0 min".

(** [event_data['battery_duration']] at the end of
    [send_email_notification] for the value [now] of that function.  The
    key ['device_uptime'] is never in [event_data], so the fallback on the
    device uptime changes nothing and is left out.  When a query or a
    subtraction raises, the inner handler keeps the value of
    [get_ups_info]. *)
Definition battery_duration (raises : bool) (db : table)
           (name ty : string) (now : datetime) : string :=
  if String.eqb ty "ONLINE" then
    if raises then ups_info_duration
    else
      match first_open_event db name "ONBATT" with
      | Some open_event =>
          match datetime_sub now (Naive (timestamp_tz open_event)) with
          | Some delta => minutes_text delta
          | None => ups_info_duration
          end
      | None =>
          match duration_of_closed now (closed_events db name "ONBATT") with
          | Found d => d
          | NotFound | TypeError => ups_info_duration
          end
      end
  else ups_info_duration.

(** [event_data['comm_duration']], the [COMMOK] branch. *)
Definition comm_duration (raises : bool) (db : table)
           (name ty : string) (now : datetime) : string :=
  if String.eqb ty "ONLINE" then ups_info_duration
  else if String.eqb ty "COMMOK" then
    if raises then ups_info_duration
    else
      match first_open_event db name "COMMBAD" with
      | Some open_event =>
          match datetime_sub now (Naive (timestamp_tz open_event)) with
          | Some delta => minutes_text delta
          | None => ups_info_duration
          end
      | None => ups_info_duration
      end
  else ups_info_duration.

(** *** Dispatch: [process_ups_event] *)

(** A row of [ups_opt_notification]. *)
Record NotificationSettings := mkSettings {
  ns_event_type : string;
  ns_enabled : bool;
  ns_id_email : option Z
}.

(** A row of [ups_opt_ntfy]: the key and the per-event flags. *)
Record NtfyConfig := mkNtfy {
  ntfy_id : Z;
  notify_onbatt : bool;
  notify_online : bool;
  notify_lowbatt : bool;
  notify_commok : bool;
  notify_commbad : bool;
  notify_shutdown : bool;
  notify_replbatt : bool;
  notify_nocomm : bool;
  notify_noparent : bool
}.

(** [getattr(NtfyConfigModel, field_name)]: [None] stands for the
    [AttributeError] of a name that is not a column. *)
Definition ntfy_column (field_name : string)
  : option (NtfyConfig -> bool) :=
  if String.eqb field_name "notify_onbatt" then Some notify_onbatt
  else if String.eqb field_name "notify_online" then Some notify_online
  else if String.eqb field_name "notify_lowbatt" then Some notify_lowbatt
  else if String.eqb field_name "notify_commok" then Some notify_commok
  else if String.eqb field_name "notify_commbad" then Some notify_commbad
  else if String.eqb field_name "notify_shutdown" then Some notify_shutdown
  else if String.eqb field_name "notify_replbatt" then Some notify_replbatt
  else if String.eqb field_name "notify_nocomm" then Some notify_nocomm
  else if String.eqb field_name "notify_noparent" then Some notify_noparent
  else None.

(** What a send does: it succeeds, it reports a failure, or it raises. *)
Inductive outcome := Sent | Refused | Raised.

(** The environment of one dispatch.  The tables of the settings are what
    their queries return, a query that raises returning no row. *)
Record world := mkWorld {
  faults : session;
  HAS_NTFY : bool;
  HAS_WEBHOOK : bool;
  notification_settings : list NotificationSettings;
  NtfyConfigModel : option (list NtfyConfig);
  mail_config_enabled : bool;
  email_send : Z -> outcome;
  ntfy_send : Z -> outcome;
  webhook_send : outcome
}.

(** What a dispatch does, in order. *)
Inductive action :=
| StoreEvent (stored : bool)
| EmailSend (config_id : Z) (battery comm : string) (o : outcome)
| NtfySend (config_id : Z) (o : outcome)
| WebhookSend (o : outcome).

(** [get_enabled_notifications]: the [config_id] of every enabled row of
    the event type that names an email configuration. *)
Definition get_enabled_notifications (w : world) (ty : string) : list Z :=
  flat_map (fun n => match ns_id_email n with
                     | Some i => [i]
                     | None => []
                     end)
           (filter (fun n => Bool.eqb (ns_enabled n) true
                             && String.eqb (ns_event_type n) (Py.upper ty))
                   (notification_settings w)).

(** [get_enabled_ntfy_configs] *)
Definition get_enabled_ntfy_configs (w : world) (ty : string)
  : list NtfyConfig :=
  match HAS_NTFY w, NtfyConfigModel w with
  | true, Some rows =>
      match ntfy_column ("notify_" ++ Py.lower ty)%string with
      | Some col => filter (fun c => Bool.eqb (col c) true) rows
      | None => []
      end
  | _, _ => []
  end.

(** [verify_email_config] *)
Definition verify_email_config (w : world) : bool := mail_config_enabled w.

(** [send_email_notification]: the event data is prepared and handed to
    the mailer; a mailer that raises is caught here.  [clock] is the reading
    of [datetime.datetime.now()]; [now] is that reading made aware by
    [astimezone(local_tz)], the configured time zone being always set. *)
Definition send_email_notification (w : world) (db : table)
           (name ty : string) (clock : timestamp) (config_id : Z) : action :=
  let now := Aware clock in
  EmailSend config_id
            (battery_duration (query_raises (faults w)) db name ty now)
            (comm_duration (query_raises (faults w)) db name ty now)
            (email_send w config_id).

(** [send_ntfy_notification] *)
Definition send_ntfy_notification (w : world) (c : NtfyConfig) : action :=
  NtfySend (ntfy_id c) (ntfy_send w (ntfy_id c)).

(** [process_ups_event]: the result, the table afterwards and the
    actions in the order in which they were taken.  [clock] is read by
    [store_event_in_database], [clock_mail] by
    [send_email_notification]. *)
Definition process_ups_event (w : world) (clock clock_mail : timestamp)
           (db : table) (name ty : string) : bool * table * list action :=
  let '(stored, db1) := store_event_in_database (faults w) clock db name ty in
  if negb stored then (false, db1, [StoreEvent false])
  else
    let notifications := get_enabled_notifications w ty in
    let ntfy_configs := get_enabled_ntfy_configs w ty in
    match notifications, ntfy_configs, HAS_WEBHOOK w with
    | [], [], false => (true, db1, [StoreEvent true])
    | _, _, _ =>
        let mails :=
          match notifications with
          | [] => []
          | _ => if verify_email_config w
                 then map (send_email_notification w db1 name ty clock_mail)
                          notifications
                 else []
          end in
        let pushes :=
          match ntfy_configs with
          | [] => []
          | _ => if HAS_NTFY w
                 then map (send_ntfy_notification w) ntfy_configs
                 else []
          end in
        let hooks :=
          if HAS_WEBHOOK w then [WebhookSend (webhook_send w)] else [] in
        (true, db1, StoreEvent true :: mails ++ pushes ++ hooks)
    end.

(** The same environment with other outcomes of the sends. *)
Definition with_outcomes (w : world) (mail push : Z -> outcome)
           (hook : outcome) : world :=
  mkWorld (faults w) (HAS_NTFY w) (HAS_WEBHOOK w) (notification_settings w)
          (NtfyConfigModel w) (mail_config_enabled w) mail push hook.

(** An action without its outcome: what was attempted. *)
Definition attempt (a : action) : action :=
  match a with
  | StoreEvent b => StoreEvent b
  | EmailSend i b c _ => EmailSend i b c Sent
  | NtfySend i _ => NtfySend i Sent
  | WebhookSend _ => WebhookSend Sent
  end.

Definition is_send (a : action) : bool :=
  match a with StoreEvent _ => false | _ => true end.

End Notifier.

(** *** Bracketing *)

(** The number of open events of a UPS. *)
Definition open_count (name : string) (db : table) : nat :=
  List.length (filter (open_of name) db).

(** At most one open event per UPS name. *)
Definition bracketed (db : table) : Prop :=
  forall name, (open_count name db <= 1)%nat.

End Events.

(** ** Scenarios *)

Module Scenario.
Import Py.

(** A configured reader and a status command that answers. *)
Definition configured : Reader.UPSConfig :=
  Reader.mkConfig (Some "localhost") (Some "ups") (Some "upsc").

Definition answer : Reader.run_result :=
  Reader.Completed 0 ["ups.load: 50"; "ups.realpower.nominal: 400";
                      "ups.status: OL"] "".

(** The environment of a poll at [sec] seconds, with the polling interval
    [interval] in the configuration table and a database that works. *)
Definition poll (interval sec : Z) : Cache.environment :=
  Cache.mkEnv (sec * Cache.second) "2024-01-01T00:00:00"
              (Cache.ConfigRow interval) answer (Cache.mkFaults false false).

(** Polls every second from [first] on. *)
Definition polls (interval first : Z) (n : nat) : list Cache.environment :=
  map (fun i => poll interval (first + Z.of_nat i)) (seq 0 n).

(** The settings: UTC, every averaged key a column, a cache window of 60
    seconds, a nominal power of 500 W. *)
Definition run (envs : list Cache.environment) (st : Cache.state)
  : Cache.state :=
  Cache.polling_thread 0 (fun _ => true) 60 (VInt 500) envs st.

Definition start : Cache.state :=
  Cache.mkState configured (Cache.initial_cache 60) [].

End Scenario.

(** ** The WebSocket handlers of the cache ([core/db/ups/cache.py]) *)

Module Websocket.
Import Py Cache.

(** [get_latest_cache_data] *)
Definition get_latest_cache_data (c : UPSDataCache) : dict value :=
  match last_broadcast c with
  | None | Some [] => []
  | Some b => b
  end.

(** [handle_websocket_connect]: the payload emitted to the client that
    connects, if any. *)
Definition handle_websocket_connect (c : UPSDataCache)
  : option (dict value) :=
  match get_latest_cache_data c with
  | [] => None
  | latest_data => Some latest_data
  end.

(** [handle_request_cache_data]: the payload emitted to the client that
    asks. *)
Definition handle_request_cache_data (c : UPSDataCache) : dict value :=
  get_latest_cache_data c.

End Websocket.

(** ** Notions used by the properties of the polling step *)

Module Polls.
Import Py Cache.

(** The status command completes with the return code 0. *)
Definition answered (r : Reader.run_result) : bool :=
  match r with
  | Reader.Completed returncode _ _ => returncode =? 0
  | Reader.RunRaised _ => false
  end.

(** The name or the host of the UPS is not set. *)
Definition unconfigured (cfg : Reader.UPSConfig) : bool :=
  Reader.unset (Reader.name cfg) || Reader.unset (Reader.host cfg).

(** The same polling step with another behaviour of the database. *)
Definition with_db_faults (env : environment) (fl : faults) : environment :=
  mkEnv (now env) (now_iso env) (config env) (run env) fl.

(** The sample as [add] buffers it. *)
Definition formatted (d : dict value) : dict value :=
  dict_of_items (map (fun kv => (dots_to_underscores (fst kv), snd kv)) d).

(** The item that a line of the status command gives, if any. *)
Definition status_item (line : string) : list (string * string) :=
  match split_once ":" line with
  | Some (key, v) => [(strip key, strip v)]
  | None => []
  end.

End Polls.

(** ** The model of [ups_opt_ntfy] ([core/db/orm/orm_ups_opt_ntfy.py]) *)

Module Orm.
Import Events.

(** [NtfyConfig.is_event_enabled]: [event_map.get(event_type, False)]. *)
Definition is_event_enabled (c : NtfyConfig) (event_type : string) : bool :=
  if String.eqb event_type "ONBATT" then notify_onbatt c
  else if String.eqb event_type "ONLINE" then notify_online c
  else if String.eqb event_type "LOWBATT" then notify_lowbatt c
  else if String.eqb event_type "COMMOK" then notify_commok c
  else if String.eqb event_type "COMMBAD" then notify_commbad c
  else if String.eqb event_type "SHUTDOWN" then notify_shutdown c
  else if String.eqb event_type "REPLBATT" then notify_replbatt c
  else if String.eqb event_type "NOCOMM" then notify_nocomm c
  else if String.eqb event_type "NOPARENT" then notify_noparent c
  else false.

End Orm.

(** ** Notions used by the properties of the event store *)

Module Rows.
Import Events.

(** A row as the notifier writes and closes it: it begins at its timestamp,
    on a whole second, and an end is a whole second that is not earlier. *)
Definition well_timed (e : UPSEvent) : Prop :=
  timestamp_tz_begin e = Some (timestamp_tz e) /\
  timestamp_tz e mod second = 0 /\
  forall t, timestamp_tz_end e = Some t ->
            timestamp_tz e <= t /\ t mod second = 0.

(** The event types that have a column [notify_<type>] in [ups_opt_ntfy]
    ([core/db/orm/orm_ups_opt_ntfy.py]), in lower case. *)
Definition ntfy_event_types : list string :=
  ["onbatt"; "online"; "lowbatt"; "commok"; "commbad"; "shutdown";
   "replbatt"; "nocomm"; "noparent"].

End Rows.

(** ** More of Python's strings, and the regular expressions of the
       notifier *)

Module Text.
Import Py.

(** The rest of [s] after the prefix [p]; [None] when [s] does not start
    with [p]. *)
Fixpoint strip_prefix (p s : string) : option string :=
  match p, s with
  | EmptyString, _ => Some s
  | String a p', String b s' =>
      if Ascii.eqb a b then strip_prefix p' s' else None
  | String _ _, EmptyString => None
  end.

(** [s.startswith(p)] *)
Definition startswith (p s : string) : bool :=
  match strip_prefix p s with Some _ => true | None => false end.

(** The last character of [s], if any, and what precedes it. *)
Fixpoint split_last (s : string) : option (string * ascii) :=
  match s with
  | EmptyString => None
  | String c r =>
      match split_last r with
      | None => Some (EmptyString, c)
      | Some (a, l) => Some (String c a, l)
      end
  end.

(** [s.endswith(c)] for one character. *)
Definition endswith_char (c : ascii) (s : string) : bool :=
  match split_last s with
  | Some (_, l) => Ascii.eqb l c
  | None => false
  end.

(** [s[:-1]] *)
Definition drop_last (s : string) : string :=
  match split_last s with
  | Some (a, _) => a
  | None => EmptyString
  end.

(** [c in s] for one character. *)
Fixpoint contains_char (c : ascii) (s : string) : bool :=
  match s with
  | EmptyString => false
  | String x r => Ascii.eqb x c || contains_char c r
  end.

(** [s.isdigit()] on the ASCII range: at least one character, all of them
    digits. *)
Definition isdigit (s : string) : bool :=
  match s with
  | EmptyString => false
  | _ => all_digits s
  end.

(** [s.strip(chars)] for the characters that satisfy [p]. *)
Fixpoint lstrip_by (p : ascii -> bool) (s : string) : string :=
  match s with
  | String c r => if p c then lstrip_by p r else s
  | EmptyString => EmptyString
  end.

Fixpoint rstrip_by (p : ascii -> bool) (s : string) : string :=
  match s with
  | EmptyString => EmptyString
  | String c r =>
      match rstrip_by p r with
      | EmptyString => if p c then EmptyString else String c EmptyString
      | r' => String c r'
      end
  end.

Definition strip_by (p : ascii -> bool) (s : string) : string :=
  rstrip_by p (lstrip_by p s).

(** The part of [s] before the first occurrence of [pat]; [None] when
    [pat] does not occur: [s[:s.find(pat)]]. *)
Fixpoint before (pat s : string) : option string :=
  match strip_prefix pat s with
  | Some _ => Some EmptyString
  | None =>
      match s with
      | EmptyString => None
      | String c r =>
          match before pat r with
          | Some a => Some (String c a)
          | None => None
          end
      end
  end.

(** [int(x)] for a float: truncation toward zero. *)
Definition int_of_float (q : Q) : Z := Z.quot (Qnum q) (Zpos (Qden q)).

(** *** The patterns of [re.search]

    The patterns of the notifier are [^UPS\s+([^\s]+).*] followed by words
    that [\s+] separates.  A matcher follows the backtracking of [re]:
    every repetition is greedy and gives back one character at a time, and
    the first match found gives the group. *)

(** What follows the group: a word, [\s+] or [.*]. *)
Inductive token := Word (w : string) | Blanks | Anything.

Definition newline : ascii := ascii_of_nat 10.

(** [\s+] and then [k]. *)
Fixpoint blanks_then (k : string -> bool) (s : string) : bool :=
  match s with
  | String c r => is_space c && (blanks_then k r || k r)
  | EmptyString => false
  end.

(** [.*] and then [k]; the dot matches every character but the newline. *)
Fixpoint anything_then (k : string -> bool) (s : string) : bool :=
  match s with
  | String c r =>
      (negb (Ascii.eqb c newline) && anything_then k r) || k s
  | EmptyString => k s
  end.

(** The tokens match a prefix of the string. *)
Fixpoint matches (p : list token) : string -> bool :=
  match p with
  | [] => fun _ => true
  | Word w :: q =>
      fun s => match strip_prefix w s with
               | Some r => matches q r
               | None => false
               end
  | Blanks :: q => blanks_then (matches q)
  | Anything :: q => anything_then (matches q)
  end.

(** The group [([^\s]+)] and then [k]: the longest run that lets [k]
    match. *)
Fixpoint group_then (k : string -> bool) (s : string) : option string :=
  match s with
  | String c r =>
      if is_space c then None
      else match group_then k r with
           | Some g => Some (String c g)
           | None => if k r then Some (String c EmptyString) else None
           end
  | EmptyString => None
  end.

(** [\s+] and then [k], which gives the group. *)
Fixpoint blanks_then_group (k : string -> option string) (s : string)
  : option string :=
  match s with
  | String c r =>
      if is_space c
      then match blanks_then_group k r with
           | Some g => Some g
           | None => k r
           end
      else None
  | EmptyString => None
  end.

(** [re.search(r"^UPS\s+([^\s]+)" + tail, s)]: the group of the match, if
    there is one. *)
Definition search (tail : list token) (s : string) : option string :=
  match strip_prefix "UPS" s with
  | Some r => blanks_then_group (group_then (matches tail)) r
  | None => None
  end.

End Text.

(** ** The entry of the notifier ([core/events/ups_notifier.py]) *)

Module Notifier.
Import Py Text Events.

(** The patterns of [parse_input_args] after the group, in the order in
    which they are tried, each with its event type. *)
Definition event_patterns : list (list token * string) :=
  [([Anything; Word "on"; Blanks; Word "battery"], "ONBATT");
   ([Anything; Word "on"; Blanks; Word "line"; Blanks; Word "power"],
    "ONLINE");
   ([Anything; Word "low"; Blanks; Word "battery"], "LOWBATT");
   ([Anything; Word "communication"; Blanks; Word "restored"], "COMMOK");
   ([Anything; Word "communication"; Blanks; Word "lost"], "COMMBAD");
   ([Anything; Word "forced"; Blanks; Word "shutdown"], "FSD");
   ([Anything; Word "battery"; Blanks; Word "needs"; Blanks;
     Word "replacing"], "REPLBATT");
   ([Anything; Word "shutdown"; Blanks; Word "in"; Blanks;
     Word "progress"], "SHUTDOWN");
   ([Anything; Word "no"; Blanks; Word "communication"], "NOCOMM");
   ([Anything; Word "parent"; Blanks; Word "process"], "NOPARENT")].

(** The chain of [re.search] calls: the first pattern that matches gives
    the name and the type. *)
Fixpoint first_match (ps : list (list token * string)) (s : string)
  : option string * option string :=
  match ps with
  | [] => (None, None)
  | (tail, ty) :: r =>
      match search tail s with
      | Some ups_name => (Some ups_name, Some ty)
      | None => first_match r s
      end
  end.

(** [parse_input_args] *)
Definition parse_input_args (args : list string)
  : option string * option string :=
  match args with
  | [] => (None, None)
  | [a] =>
      if startswith "UPS " a then first_match event_patterns a
      else (None, None)
  | ups_name :: event_type :: _ => (Some ups_name, Some event_type)
  end.

(** [main]: the exit code, the table afterwards and the actions taken.
    [args] is [sys.argv[1:]]. *)
Definition main (UPS_HOST : string) (w : world)
           (clock clock_mail : timestamp) (db : table) (args : list string)
  : Z * table * list action :=
  let '(ups_name, event_type) := parse_input_args args in
  if Reader.unset ups_name || Reader.unset event_type then (1, db, [])
  else
    match ups_name, event_type with
    | Some n, Some ty =>
        let '(ok, db1, actions) :=
          process_ups_event UPS_HOST w clock clock_mail db n ty in
        (if ok then 0 else 1, db1, actions)
    | _, _ => (1, db, [])
    end.

(** The event types that [parse_input_args] gives to a sentence. *)
Definition sentence_types : list string := map snd event_patterns.

End Notifier.

(** ** The configuration of the reader ([core/db/ups/utils.py]) and the
       list of variables ([core/db/ups/data.py]) *)

Module Config.
Import Py.

(** The singleton [UPSConfig] with all its fields. *)
Record UPSConfig := mkUPSConfig {
  host : option string;
  name : option string;
  command : option string;
  timeout : option Z;
  initialized : bool
}.


(** [bool(x)] for an optional string. *)
Definition set (x : option string) : bool := negb (Reader.unset x).

(** [configure], which [configure_ups] calls on the singleton: the
    configuration afterwards and the result. *)
Definition configure (h n c : option string) (t : option Z)
  : UPSConfig * bool :=
  let i := set h && set n && set c in
  (mkUPSConfig h n c t i, i).

(** [is_initialized] *)
Definition is_initialized (cfg : UPSConfig) : bool :=
  initialized cfg && (set (host cfg) && set (name cfg) && set (command cfg)).

(** The fields that [get_ups_data] reads. *)
Definition reader (cfg : UPSConfig) : Reader.UPSConfig :=
  Reader.mkConfig (host cfg) (name cfg) (command cfg).

(** [get_ups_data] on the singleton: it may set the command. *)
Definition get_ups_data (UPS_REALPOWER_NOMINAL : value) (cfg : UPSConfig)
           (run : Reader.run_result)
  : UPSConfig * Reader.result (dict value) :=
  let '(r, res) :=
    Reader.get_ups_data UPS_REALPOWER_NOMINAL (reader cfg) run in
  (mkUPSConfig (Reader.host r) (Reader.name r) (Reader.command r)
               (timeout cfg) (initialized cfg), res).

(** What [get_available_variables] does: it returns the variables or it
    raises. *)
Inductive variables :=
| Variables (d : dict string)
| Raises (msg : string).

(** [get_available_variables]; the handler logs and raises again. *)
Definition get_available_variables (cfg : UPSConfig)
           (run : Reader.run_result) : variables :=
  if negb (is_initialized cfg)
  then Raises ("UPS configuration not initialized. Make sure "
               ++ "configure_ups() is called before using this function.")
  else
    match run with
    | Reader.RunRaised msg => Raises msg
    | Reader.Completed _ stdout_lines _ =>
        Variables (Reader.parse_lines stdout_lines)
    end.

End Config.

(** ** The settings file ([core/settings.py]) *)

Module Settings.
Import Py Text.

(** The values that [parse_value] returns. *)
Inductive setting :=
| SBool (b : bool)
| SInt (n : Z)
| SFloat (q : Q)
| SStr (s : string).

Definition double_quote : ascii := ascii_of_nat 34.
Definition single_quote : ascii := ascii_of_nat 39.

Definition triple_quote : string :=
  String double_quote (String double_quote (String double_quote EmptyString)).

(** [value.split('#')[0]] *)
Definition before_comment (s : string) : string :=
  match split_once "#" s with
  | Some (a, _) => a
  | None => s
  end.

(** [parse_value] *)
Definition parse_value (value : string) : setting :=
  let value := strip value in
  let value := if contains_char "#" value
               then strip (before_comment value) else value in
  match strip_prefix triple_quote value with
  | Some rest =>
      match before triple_quote rest with
      | Some content => SStr content
      | None => SStr (strip_by (Ascii.eqb double_quote) value)
      end
  | None =>
      if String.eqb (lower value) "true" then SBool true
      else if String.eqb (lower value) "false" then SBool false
      else if isdigit value then SInt (digits_value value)
      else
        match (if contains_char "." value then float_of_string value
               else None) with
        | Some q => SFloat q
        | None =>
            SStr (strip_by (fun c => Ascii.eqb double_quote c
                                     || Ascii.eqb single_quote c) value)
        end
  end.

(** The defaults of [load_settings]. *)
Definition default_settings : dict setting :=
  [("DEBUG_MODE", SStr "development");
   ("SERVER_PORT", SInt 5050);
   ("SERVER_HOST", SStr "0.0.0.0");
   ("CACHE_SECONDS", SInt 60);
   ("LOG_LEVEL", SStr "DEBUG");
   ("LOG_FILE_ENABLED", SBool true);
   ("LOG_FORMAT", SStr "%(asctime)s - %(name)s - %(levelname)s - %(message)s");
   ("LOG_LEVEL_DEBUG",
    SStr "DEBUG, %(asctime)s - %(name)s - %(levelname)s - %(message)s");
   ("LOG_LEVEL_INFO",
    SStr "INFO, %(asctime)s - %(name)s - %(levelname)s - %(message)s");
   ("COMMAND_TIMEOUT", SInt 10)].

(** The body of the loop of [load_settings] over the lines of the file. *)
Definition read_line (settings : dict setting) (line : string)
  : dict setting :=
  let line := strip line in
  if String.eqb line "" || startswith "#" line then settings
  else
    match split_once "=" line with
    | Some (key, value) => dict_set (strip key) (parse_value value) settings
    | None => settings
    end.

Definition required_vars : list string :=
  ["UPS_HOST"; "UPS_NAME"; "UPS_USER"; "UPS_PASSWORD"; "UPS_COMMAND";
   "UPS_REALPOWER_NOMINAL"; "UPSCMD_COMMAND"; "UPSCMD_USER";
   "UPSCMD_PASSWORD"; "DB_NAME"; "INSTANCE_PATH"; "TIMEZONE";
   "MSMTP_PATH"; "TLS_CERT_PATH"].

(** [missing_vars] *)
Definition missing_vars (settings : dict setting) : list string :=
  filter (fun var => negb (dict_mem var settings)) required_vars.

(** What [load_settings] does up to the validation: the file is missing, a
    required variable is missing, or the settings are read. *)
Inductive loaded :=
| FileNotFoundError
| ValueError (missing : list string)
| Read (settings : dict setting).

(** [load_settings] up to the validation of the required variables;
    [file] is the list of the lines of [config/settings.txt], if the file
    exists.  The paths [INSTANCE_PATH], [DB_PATH] and [DB_URI], which the
    function builds afterwards from the settings read, are not part of
    this value. *)
Definition load_settings (file : option (list string)) : loaded :=
  match file with
  | None => FileNotFoundError
  | Some lines =>
      let settings := fold_left read_line lines default_settings in
      match missing_vars settings with
      | [] => Read settings
      | missing => ValueError missing
      end
  end.

(** The assignment that a line of the settings file makes, if any. *)
Definition assignment (line : string) : list (string * setting) :=
  let line := strip line in
  if String.eqb line "" || startswith "#" line then []
  else
    match split_once "=" line with
    | Some (key, value) => [(strip key, parse_value value)]
    | None => []
    end.

End Settings.

(** ** The runtime texts of the mailer ([core/mail/mail.py]) *)

Module Mail.
Import Py Text.

(** [x == ""] *)
Definition is_empty_str (v : value) : bool :=
  match v with
  | VStr s => String.eqb s ""
  | _ => false
  end.

(** The text for a number of minutes that is not below 60. *)
Definition hours_text (minutes : Z) : string :=
  (str_of_int (minutes / 60) ++ "h " ++ str_of_int (minutes mod 60) ++ "m")
  %string.


(** The conversion at the head of [estimate_runtime_from_charge]:
    [float(charge_percent)], and, for a string that ends with a percent
    sign, [float(charge_percent[:-1])]; [None] is the [ValueError] or the
    [TypeError]. *)
Definition charge_of (v : value) : option float :=
  match to_float v with
  | None => None
  | Some charge =>
      match v with
      | VStr s =>
          if endswith_char "%" s
          then option_map Finite (float_of_string (drop_last s))
          else Some charge
      | _ => Some charge
      end
  end.

(** [estimate_runtime_from_charge] *)
Definition estimate_runtime_from_charge (charge_percent : option value)
  : string :=
  match charge_percent with
  | None => "N/A"
  | Some v =>
      if is_empty_str v then "N/A"
      else
        match charge_of v with
        | None | Some NaN => "N/A"
        | Some (Finite charge) =>
            if Qle_bool charge 0 || negb (Qle_bool charge 100) then "N/A"
            else
              let minutes := int_of_float charge in
              if minutes <? 60 then (str_of_int minutes ++ " min")%string
              else hours_text minutes
        end
  end.

End Mail.

(** ** Notions used by the properties of the texts *)

Module Chars.
Import Py.

(** A character of an integer written by [str]: a digit or the minus
    sign. *)
Definition plain (c : ascii) : bool := is_digit c || Ascii.eqb c "-".

(** A character that a decimal literal accepted by [float] can hold. *)
Definition float_char (c : ascii) : bool :=
  is_digit c || Ascii.eqb c "." || Ascii.eqb c "e" || Ascii.eqb c "E"
  || Ascii.eqb c "+" || Ascii.eqb c "-".

End Chars.

(** * Properties *)

(** ** Event bracketing *)

Section EventStore.
Import Events.
Variable UPS_HOST : string.

Lemma open_of_set_end (name : string) t e :
  open_of name (set_end t e) = false.
Proof. unfold open_of, set_end, is_open; simpl. apply andb_false_r. Qed.

Lemma open_count_closed_same name t db :
  open_count name (map (close_at name t) db) = 0%nat.
Proof.
  unfold open_count, close_at.
  induction db as [|e db IH]; simpl; [reflexivity|].
  destruct (open_of name e) eqn:E.
  - rewrite open_of_set_end. exact IH.
  - rewrite E. exact IH.
Qed.

Lemma open_of_names name name' e :
  open_of name e = true -> open_of name' e = true -> name = name'.
Proof.
  unfold open_of. intros H1 H2.
  apply andb_prop in H1 as [H1 _]. apply andb_prop in H2 as [H2 _].
  apply String.eqb_eq in H1, H2. congruence.
Qed.

Lemma open_count_closed_other name name' t db :
  name <> name' ->
  open_count name' (map (close_at name t) db) = open_count name' db.
Proof.
  intros Hne. unfold open_count, close_at.
  induction db as [|e db IH]; simpl; [reflexivity|].
  destruct (open_of name e) eqn:E.
  - rewrite open_of_set_end.
    destruct (open_of name' e) eqn:E'.
    + exfalso. apply Hne. eapply open_of_names; eassumption.
    + exact IH.
  - destruct (open_of name' e); simpl; rewrite IH; reflexivity.
Qed.

Lemma open_count_app name l1 l2 :
  open_count name (l1 ++ l2)
  = (open_count name l1 + open_count name l2)%nat.
Proof. unfold open_count. rewrite filter_app, length_app. reflexivity. Qed.


Lemma open_of_new_event name' db name ty t :
  open_of name' (new_event UPS_HOST db name ty t) = String.eqb name name'.
Proof. unfold open_of, new_event, is_open; simpl. apply andb_true_r. Qed.

Lemma close_bracketed raises db name t :
  bracketed db -> bracketed (snd (close_previous_events raises db name t)).
Proof.
  intros Hb name'. unfold close_previous_events.
  destruct raises; simpl; [apply Hb|].
  destruct (String.eqb_spec name name') as [->|Hne].
  - rewrite open_count_closed_same. lia.
  - rewrite open_count_closed_other by assumption. apply Hb.
Qed.

Lemma store_bracketed fl clock db name ty :
  close_raises fl = false ->
  bracketed db ->
  bracketed (snd (store_event_in_database UPS_HOST fl clock db name ty)).
Proof.
  intros Hc Hb name'. unfold store_event_in_database, close_previous_events.
  rewrite Hc. destruct (insert_raises fl); cbn [snd].
  - apply (close_bracketed false db name (replace_microsecond_0 clock) Hb).
  - rewrite open_count_app.
    destruct (String.eqb_spec name name') as [->|Hne].
    + rewrite open_count_closed_same. unfold open_count; simpl.
      destruct (open_of name' _); simpl; lia.
    + rewrite open_count_closed_other by assumption.
      unfold open_count at 2; simpl. rewrite open_of_new_event.
      destruct (String.eqb_spec name name'); [contradiction|]. simpl.
      specialize (Hb name'). lia.
Qed.

(** From a bracketed table, runs whose close step never raises leave a
    bracketed table, whatever their inserts do. *)
Lemma history_bracketed runs db :
  (forall r, In r runs -> close_raises (rec_faults r) = false) ->
  bracketed db -> bracketed (record_all UPS_HOST runs db).
Proof.
  revert db. induction runs as [|r runs IH]; intros db Hc Hb; [exact Hb|].
  simpl. apply IH.
  - intros r' Hr'. apply Hc. right. exact Hr'.
  - apply store_bracketed; [apply Hc; left; reflexivity|exact Hb].
Qed.


End EventStore.

(** ** Duration derivation and dispatch *)

Section Dispatch.
Import Events.
Variable UPS_HOST : string.

Lemma order_by_last l e :
  (forall x, In x l -> timestamp_tz x < timestamp_tz e) ->
  order_by_timestamp_desc (l ++ [e]) = e :: order_by_timestamp_desc l.
Proof.
  induction l as [|x l IH]; intros H; [reflexivity|].
  unfold order_by_timestamp_desc in *. simpl.
  rewrite IH by (intros y Hy; apply H; right; exact Hy).
  simpl. specialize (H x (or_introl eq_refl)).
  destruct (timestamp_tz e <? timestamp_tz x) eqn:E; [|reflexivity].
  apply Z.ltb_lt in E. lia.
Qed.

Lemma no_open_after_close name ty t l :
  filter (fun e => String.eqb (ups_name e) name
                   && String.eqb (event_type e) ty && is_open e)
         (map (close_at name t) l) = [].
Proof.
  induction l as [|e l IH]; [reflexivity|]. simpl. rewrite IH.
  unfold close_at, open_of.
  destruct (String.eqb (ups_name e) name) eqn:En;
    destruct (is_open e) eqn:Eo; simpl;
    rewrite ?En, ?Eo, ?andb_false_r; reflexivity.
Qed.

Lemma close_at_keeps name t e :
  timestamp_tz (close_at name t e) = timestamp_tz e /\
  ups_name (close_at name t e) = ups_name e /\
  event_type (close_at name t e) = event_type e.
Proof. unfold close_at. destruct (open_of name e); auto. Qed.

Lemma closed_history_before name t0 t1 T db x :
  (forall e, In e db -> ups_name e = name -> event_type e = "ONBATT" ->
             timestamp_tz e < T) ->
  In x (filter (fun e => String.eqb (ups_name e) name
                         && String.eqb (event_type e) "ONBATT"
                         && negb (is_open e))
               (map (close_at name t1) (map (close_at name t0) db))) ->
  timestamp_tz x < T.
Proof.
  intros H Hin. apply filter_In in Hin as [Hin Hp].
  apply in_map_iff in Hin as [y [<- Hin]].
  apply in_map_iff in Hin as [e [<- Hin]].
  destruct (close_at_keeps name t0 e) as [Ht0 [Hn0 He0]].
  destruct (close_at_keeps name t1 (close_at name t0 e)) as [Ht1 [Hn1 He1]].
  rewrite Hn1, Hn0, He1, He0 in Hp.
  apply andb_prop in Hp as [Hp _]. apply andb_prop in Hp as [Hn Hy].
  apply String.eqb_eq in Hn, Hy.
  rewrite Ht1, Ht0. apply H; assumption.
Qed.

Lemma five_minutes : minutes_text (300 * second) = "5 min".
Proof. reflexivity. Qed.

Lemma duration_of_closed_aware t l :
  duration_of_closed (Aware t) l = NotFound
  \/ duration_of_closed (Aware t) l = TypeError.
Proof.
  induction l as [|e l IH]; simpl; [left; reflexivity|].
  destruct (timestamp_tz_end e); [right; reflexivity|exact IH].
Qed.

(** With an aware [now] the derivation never gives a duration. *)
Lemma battery_duration_aware raises db name ty t :
  battery_duration raises db name ty (Aware t) = ups_info_duration.
Proof.
  unfold battery_duration.
  destruct (String.eqb ty "ONLINE"); [|reflexivity].
  destruct raises; [reflexivity|].
  destruct (first_open_event db name "ONBATT"); [reflexivity|].
  destruct (duration_of_closed_aware t (closed_events db name "ONBATT"))
    as [-> | ->]; reflexivity.
Qed.

(** C3 on the code.  An ONBATT event recorded at T0 and an ONLINE event
    recorded for the same UPS 300 seconds later, with a database that works
    and earlier ONBATT rows older than T0, leave the ONBATT row with end
    T0+300s and the ONLINE row with begin T0+300s.  The duration prepared
    for the ONLINE mail is "0 min": the mail subtracts the naive end of the
    ONBATT row from its aware [now], Python raises a [TypeError] and the
    handler keeps the default.  With a naive [now], read within the hour,
    the same derivation gives "5 min". *)
Theorem online_after_onbatt_duration :
  forall (clock0 clock1 clock_mail : timestamp) (db : table) (name : string),
    let T0 := replace_microsecond_0 clock0 in
    let T1 := replace_microsecond_0 clock1 in
    T1 = T0 + 300 * second ->
    (forall e, In e db -> ups_name e = name -> event_type e = "ONBATT" ->
               timestamp_tz e < T0) ->
    clock_mail < T1 + 3600 * second ->
    let db1 :=
      snd (store_event_in_database UPS_HOST no_fault clock0 db name
                                   "ONBATT") in
    let db2 :=
      snd (store_event_in_database UPS_HOST no_fault clock1 db1 name
                                   "ONLINE") in
    exists onbatt online rest,
      db2 = rest ++ [onbatt; online] /\
      event_type onbatt = "ONBATT" /\ ups_name onbatt = name /\
      timestamp_tz_begin onbatt = Some T0 /\
      timestamp_tz_end onbatt = Some (T0 + 300 * second) /\
      event_type online = "ONLINE" /\ ups_name online = name /\
      timestamp_tz_begin online = Some (T0 + 300 * second) /\
      timestamp_tz_end online = None /\
      (forall w i,
          query_raises (faults w) = false ->
          send_email_notification w db2 name "ONLINE" clock_mail i
          = EmailSend i "0 min" "0 min" (email_send w i)) /\
      battery_duration false db2 name "ONLINE" (Aware clock_mail) = "0 min" /\
      battery_duration false db2 name "ONLINE" (Naive clock_mail) = "5 min".
Proof.
  intros clock0 clock1 clock_mail db name T0 T1 HT Hold Hmail db1 db2.
  set (h0 := map (close_at name T0) db).
  set (ev0 := new_event UPS_HOST h0 name "ONBATT" T0).
  assert (E1 : db1 = h0 ++ [ev0]) by reflexivity.
  set (h1 := map (close_at name T1) db1).
  set (ev1 := new_event UPS_HOST h1 name "ONLINE" T1).
  assert (E2 : db2 = h1 ++ [ev1]) by reflexivity.
  assert (Eh1 : h1 = map (close_at name T1) h0 ++ [set_end T1 ev0]).
  { unfold h1. rewrite E1, map_app. simpl. f_equal.
    unfold close_at at 1. unfold ev0. rewrite open_of_new_event.
    rewrite String.eqb_refl. reflexivity. }
  exists (set_end T1 ev0), ev1, (map (close_at name T1) h0).
  split. { rewrite E2, Eh1, <- app_assoc. reflexivity. }
  do 3 (split; [reflexivity|]).
  split. { change (Some T1 = Some (T0 + 300 * second)). now rewrite HT. }
  do 2 (split; [reflexivity|]).
  split. { change (Some T1 = Some (T0 + 300 * second)). now rewrite HT. }
  split; [reflexivity|].
  split.
  { intros w i Hq. unfold send_email_notification. rewrite Hq.
    rewrite battery_duration_aware. reflexivity. }
  split; [apply battery_duration_aware|].
  unfold battery_duration. simpl String.eqb. cbv iota.
  unfold first_open_event.
  rewrite E2, filter_app.
  rewrite (no_open_after_close name "ONBATT" T1 db1 : filter _ h1 = []).
  simpl. unfold closed_events.
  rewrite filter_app, Eh1, filter_app. simpl.
  rewrite String.eqb_refl. simpl. rewrite app_nil_r.
  rewrite order_by_last.
  - simpl. replace (T1 - T0) with (300 * second) by lia.
    destruct (clock_mail - T1 <? 3600000000) eqn:E; [apply five_minutes|].
    apply Z.ltb_ge in E. unfold second in Hmail. lia.
  - intros x Hx. simpl.
    eapply closed_history_before; [exact Hold|exact Hx].
Qed.

Lemma sends_of_mails w db name ty t l :
  forallb is_send (map (send_email_notification w db name ty t) l) = true.
Proof. induction l; simpl; auto. Qed.

Lemma sends_of_pushes w l :
  forallb is_send (map (send_ntfy_notification w) l) = true.
Proof. induction l; simpl; auto. Qed.

(** C2.  A dispatch records the event before any send; it returns failure
    exactly when the recording failed, and then nothing is sent; the table
    it leaves is the one left by the recording; the outcomes of the sends
    (success, reported failure, exception) change neither the result, nor
    the table, nor which sends are attempted; in particular, with a
    webhook send that raises, the dispatch returns success, the event row
    is in the table and every enabled mail notification is handed to the
    mailer. *)
Theorem dispatch_isolates_channels :
  forall (w : world) (clock clock_mail : timestamp) (db : table)
         (name ty : string),
    let recorded :=
      store_event_in_database UPS_HOST (faults w) clock db name ty in
    let r := process_ups_event UPS_HOST w clock clock_mail db name ty in
    (fst (fst r) = false <-> fst recorded = false) /\
    snd (fst r) = snd recorded /\
    (exists sends,
        snd r = StoreEvent (fst recorded) :: sends /\
        forallb is_send sends = true /\
        (fst recorded = false -> sends = [])) /\
    (forall mail push hook,
        let r' := process_ups_event UPS_HOST (with_outcomes w mail push hook)
                                    clock clock_mail db name ty in
        fst r' = fst r /\ map attempt (snd r') = map attempt (snd r)) /\
    (HAS_WEBHOOK w = true -> webhook_send w = Raised ->
     insert_raises (faults w) = false ->
     fst (fst r) = true /\
     In (new_event UPS_HOST
                   (snd (close_previous_events
                           (close_raises (faults w)) db name
                           (replace_microsecond_0 clock)))
                   name ty (replace_microsecond_0 clock))
        (snd (fst r)) /\
     In (WebhookSend Raised) (snd r) /\
     (verify_email_config w = true ->
      forall i, In i (get_enabled_notifications w ty) ->
                In (send_email_notification w (snd recorded) name ty
                                            clock_mail i) (snd r))).
Proof.
  intros w clock clock_mail db name ty recorded r.
  subst recorded r. unfold process_ups_event.
  destruct (store_event_in_database UPS_HOST (faults w) clock db name ty)
    as [stored db1] eqn:Es.
  assert (Hup : stored = negb (insert_raises (faults w))).
  { unfold store_event_in_database in Es.
    destruct (close_previous_events _ _ _ _) as [n d0].
    destruct (insert_raises (faults w)); inversion Es; reflexivity. }
  cbn [fst snd].
  split; [|split; [|split; [|split]]].
  - destruct stored; simpl.
    + destruct (get_enabled_notifications w ty),
        (get_enabled_ntfy_configs w ty), (HAS_WEBHOOK w); simpl;
        split; discriminate.
    + split; reflexivity.
  - destruct stored; simpl; [|reflexivity].
    destruct (get_enabled_notifications w ty),
      (get_enabled_ntfy_configs w ty), (HAS_WEBHOOK w); reflexivity.
  - destruct stored; simpl.
    + destruct (get_enabled_notifications w ty) as [|i l] eqn:En,
        (get_enabled_ntfy_configs w ty) as [|c m] eqn:Ec,
        (HAS_WEBHOOK w) eqn:Eh; cbn [snd];
        eexists; (split; [reflexivity|]); (split; [|discriminate]);
        rewrite ?forallb_app;
        destruct (verify_email_config w), (HAS_NTFY w);
        cbn [forallb andb app];
        rewrite ?forallb_app, ?sends_of_mails, ?sends_of_pushes;
        reflexivity.
    + exists []. repeat split; reflexivity.
  - intros mail push hook.
    cbn [with_outcomes faults].
    rewrite Es. cbn [fst snd].
    destruct stored; cbn [negb]; [|split; reflexivity].
    change (get_enabled_notifications (with_outcomes w mail push hook) ty)
      with (get_enabled_notifications w ty).
    change (get_enabled_ntfy_configs (with_outcomes w mail push hook) ty)
      with (get_enabled_ntfy_configs w ty).
    change (verify_email_config (with_outcomes w mail push hook))
      with (verify_email_config w).
    change (HAS_WEBHOOK (with_outcomes w mail push hook))
      with (HAS_WEBHOOK w).
    change (HAS_NTFY (with_outcomes w mail push hook)) with (HAS_NTFY w).
    destruct (get_enabled_notifications w ty) as [|i l] eqn:En,
      (get_enabled_ntfy_configs w ty) as [|c m] eqn:Ec,
      (HAS_WEBHOOK w) eqn:Eh; cbn [fst snd];
      (split; [reflexivity|]);
      destruct (verify_email_config w), (HAS_NTFY w);
      repeat first [ rewrite map_app | rewrite map_map
                   | progress cbn [map app attempt] ];
      reflexivity.
  - intros Eh Er Eu. rewrite Eu in Hup. subst stored. simpl.
    unfold store_event_in_database in Es.
    destruct (close_previous_events _ _ _ _) as [n d0] eqn:Ecl.
    rewrite Eu in Es. inversion Es as [Edb]. clear Es.
    cbn [snd]. rewrite Eh, Er.
    destruct (get_enabled_notifications w ty) as [|i l] eqn:En,
      (get_enabled_ntfy_configs w ty) as [|c m] eqn:Ec; cbn [fst snd];
      (split; [reflexivity|]);
      (split; [apply in_or_app; right; left; reflexivity|]);
      (split; [right; rewrite !in_app_iff; right; right; left; reflexivity|]);
      intros Ev j Hj; rewrite ?Ev; try (now destruct Hj);
      right; rewrite !in_app_iff; left;
      apply in_map; exact Hj.
Qed.

End Dispatch.

(** ** The sample cache *)

Section CacheProperties.
Import Py Cache.
Variable utcoffset : Z.
Variable model_columns : string -> bool.
Variable CACHE_SECONDS : Z.
Variable UPS_REALPOWER_NOMINAL : value.

(** The flush trigger reads the size, the buffer and the save time. *)
Lemma is_save_time_ext c c' t :
  size c' = size c -> data c' = data c ->
  next_save_time c' = next_save_time c ->
  is_save_time c' t = is_save_time c t.
Proof. unfold is_save_time. intros -> -> ->. reflexivity. Qed.

Lemma is_save_time_iff c t now :
  next_save_time c = Some t ->
  (is_save_time c now = true <->
   t <= now \/ size c <= Z.of_nat (List.length (data c))).
Proof.
  intros E. unfold is_save_time. rewrite E.
  destruct (t <=? now) eqn:E1; [apply Z.leb_le in E1; tauto|].
  apply Z.leb_gt in E1.
  destruct (size c <=? Z.of_nat (List.length (data c))) eqn:E2.
  - apply Z.leb_le in E2. tauto.
  - apply Z.leb_gt in E2. split; [discriminate|lia].
Qed.


(** The hourly step touches the hourly buffer and the next hour only. *)
Lemma hourly_step_frame fl c db averages t d now :
  let c' := snd (fst (hourly_step utcoffset fl c db averages t d now)) in
  size c' = size c /\ data c' = data c /\ df c' = df c /\
  next_save_time c' = next_save_time c /\
  last_broadcast c' = last_broadcast c.
Proof.
  unfold hourly_step.
  destruct (dict_get "ups_realpower" averages); [|simpl; auto].
  destruct (next_hour c) as [nh|]; [|simpl; auto].
  destruct (nh <=? now); [|simpl; auto 6].
  destruct (query_raises fl); [simpl; auto 6|].
  match goal with |- context [match ?l with [] => _ | _ :: _ => _ end] =>
    destruct l end; [simpl; auto 6|].
  destruct (py_sum _) as [[?|]|]; simpl; auto 6.
Qed.

(** C6.  A flush of an empty buffer returns [False], writes nothing to
    the store and leaves the cache as it was, the next hour apart, which
    a first call sets. *)
Theorem flush_of_empty_buffer_is_noop :
  forall (fl : faults) (c : UPSDataCache) (db : store) (now : timestamp),
    data c = [] -> synced c ->
    calculate_and_save_averages utcoffset model_columns fl c db now
    = (false,
       match next_hour c with
       | None => set_next_hour c (Some (get_next_hour utcoffset now))
       | Some _ => c
       end,
       db).
Proof.
  intros fl c db now Hd Hs. red in Hs. rewrite Hd in Hs. simpl in Hs.
  unfold calculate_and_save_averages.
  set (c0 := match next_hour c with
             | None => set_next_hour c (Some (get_next_hour utcoffset now))
             | Some _ => c
             end).
  assert (E : calculate_averages c0 = None).
  { unfold calculate_averages.
    replace (df c0) with (df c) by (unfold c0; destruct (next_hour c); reflexivity).
    rewrite Hs. reflexivity. }
  rewrite E. destruct (negb (is_save_time c0 now)); reflexivity.
Qed.


Lemma broadcast_frame c d iso :
  let c' := fst (broadcast_cache_update c d iso) in
  size c' = size c /\ data c' = data c /\ df c' = df c /\
  next_save_time c' = next_save_time c /\ next_hour c' = next_hour c.
Proof.
  unfold broadcast_cache_update. destruct d; [simpl; auto|].
  match goal with |- context [if ?b then _ else _] => destruct b end;
    simpl; auto.
Qed.

Lemma add_size c ts d iso :
  size (fst (add utcoffset c ts d iso)) = size c.
Proof.
  unfold add.
  match goal with |- context [broadcast_cache_update ?x ?y ?z] =>
    destruct (broadcast_frame x y z) as [E _]; rewrite E end.
  destruct (next_save_time c); reflexivity.
Qed.

Lemma add_data c ts d iso :
  data (fst (add utcoffset c ts d iso))
  = data c ++ [(ts, dict_of_items
                      (map (fun kv => (dots_to_underscores (fst kv), snd kv))
                           d))].
Proof.
  unfold add.
  match goal with |- context [broadcast_cache_update ?x ?y ?z] =>
    destruct (broadcast_frame x y z) as [_ [E _]]; rewrite E end.
  destruct (next_save_time c); reflexivity.
Qed.

Lemma add_synced c ts d iso : synced (fst (add utcoffset c ts d iso)).
Proof.
  unfold synced. rewrite add_data. unfold add.
  match goal with |- context [broadcast_cache_update ?x ?y ?z] =>
    destruct (broadcast_frame x y z) as [_ [_ [E _]]]; rewrite E end.
  destruct (next_save_time c); simpl; destruct (data c); reflexivity.
Qed.

Lemma should_aggregate_daily_frame c now :
  let c' := snd (should_aggregate_daily utcoffset c now) in
  size c' = size c /\ data c' = data c /\ df c' = df c /\
  next_save_time c' = next_save_time c.
Proof.
  unfold should_aggregate_daily.
  destruct (_ && _); [|simpl; auto].
  destruct (last_daily_aggregation c) as [d|]; [|simpl; auto].
  destruct (d =? _); simpl; auto.
Qed.

Lemma flush_size fl c db now :
  size (snd (fst (calculate_and_save_averages utcoffset model_columns
                                              fl c db now))) = size c.
Proof.
  unfold calculate_and_save_averages.
  set (c0 := match next_hour c with
             | None => set_next_hour c (Some (get_next_hour utcoffset now))
             | Some _ => c
             end).
  assert (E0 : size c0 = size c) by (unfold c0; destruct (next_hour c); reflexivity).
  destruct (negb (is_save_time c0 now)); [exact E0|].
  destruct (calculate_averages c0) as [[|kv averages]|]; try exact E0.
  destruct (next_save_time c0) as [t|]; [|exact E0].
  match goal with |- context [hourly_step ?a ?b ?c ?d ?e ?f ?g ?h] =>
    pose proof (hourly_step_frame b c d e f g h) as Hh;
    destruct (hourly_step a b c d e f g h) as [[raised c1] d1] end.
  cbn [fst snd] in Hh. destruct Hh as [Hs1 _].
  destruct raised; [cbn [fst snd]; congruence|].
  destruct (commit_raises fl); [cbn [fst snd]; congruence|].
  match goal with |- context [should_aggregate_daily ?a ?b ?c] =>
    pose proof (should_aggregate_daily_frame b c) as Hd;
    destruct (should_aggregate_daily a b c) as [daily c3] end.
  cbn [fst snd] in Hd. destruct Hd as [Hs3 _].
  destruct daily; cbn [fst snd]; simpl in Hs3;
    rewrite Hs3, Hs1; exact E0.
Qed.

(** For a polling interval above one second the polling step sets the cap
    to [max(5, int(CACHE_SECONDS / polling_interval))]. *)
Lemma cap_recomputed_above_one env st n :
  config env = ConfigRow n -> 1 < n ->
  size (ups_data_cache
          (snd (fst (save_ups_data utcoffset model_columns CACHE_SECONDS
                                   UPS_REALPOWER_NOMINAL env st))))
  = Z.max 5 (Py.int_div CACHE_SECONDS n).
Proof.
  intros E Hn. unfold save_ups_data. rewrite E.
  replace (1 <? n) with true by (symmetry; apply Z.ltb_lt; exact Hn).
  set (c1 := if negb (size (ups_data_cache st) =? _) then _ else _).
  assert (E1 : size c1 = Z.max 5 (Py.int_div CACHE_SECONDS n)).
  { unfold c1. destruct (size (ups_data_cache st) =? _) eqn:Eq; simpl.
    - apply Z.eqb_eq in Eq. exact Eq.
    - reflexivity. }
  destruct (Reader.get_ups_data _ _ _) as [cfg1 [sample|msg]]; [|exact E1].
  destruct (add utcoffset c1 (now env) sample (now_iso env)) as [c2 sent] eqn:Ea.
  assert (E2 : size c2 = size c1).
  { change c2 with (fst (c2, sent)). rewrite <- Ea. apply add_size. }
  pose proof (flush_size (db_faults env) c2 (db st) (now env)) as Ef.
  destruct (calculate_and_save_averages _ _ _ _ _ _) as [[ok c3] db1].
  cbn [fst snd ups_data_cache] in *. congruence.
Qed.

(** For a polling interval of one second, or none configured, the polling
    step leaves the cap as it finds it. *)
Lemma cap_kept_at_one env st :
  config env = ConfigRow 1 \/ config env = NoConfigRow
  \/ config env = ConfigRaises ->
  size (ups_data_cache
          (snd (fst (save_ups_data utcoffset model_columns CACHE_SECONDS
                                   UPS_REALPOWER_NOMINAL env st))))
  = size (ups_data_cache st).
Proof.
  intros E. unfold save_ups_data.
  assert (E0 : match config env with
               | ConfigRow n => n
               | NoConfigRow | ConfigRaises => 1
               end = 1) by (destruct E as [-> | [-> | ->]]; reflexivity).
  rewrite E0. change (1 <? 1) with false. cbv iota.
  destruct (Reader.get_ups_data _ _ _) as [cfg1 [sample|msg]]; [|reflexivity].
  destruct (add utcoffset (ups_data_cache st) (now env) sample (now_iso env))
    as [c2 sent] eqn:Ea.
  assert (E2 : size c2 = size (ups_data_cache st)).
  { change c2 with (fst (c2, sent)). rewrite <- Ea. apply add_size. }
  pose proof (flush_size (db_faults env) c2 (db st) (now env)) as Ef.
  destruct (calculate_and_save_averages _ _ _ _ _ _) as [[ok c3] db1].
  cbn [fst snd ups_data_cache] in *. congruence.
Qed.

End CacheProperties.

(** C4.  The polling interval is set to 2 seconds for one poll and then back
    to 1 second, with a cache window of 60 seconds.  The first poll sets the
    cap to 30; the polls at one second leave it at 30, whereas
    max(5, 60 / 1) is 60.  Thirty samples after the flush of the minute, at
    second 90, the cap of 30 is reached and a record stamped with the
    minute boundary 120 is written; a second record with the same stamp
    follows at the boundary. *)
Theorem cap_is_stale_when_interval_returns_to_one :
  let st1 := Scenario.run [Scenario.poll 2 0] Scenario.start in
  let st2 := Scenario.run (Scenario.polls 1 60 31) st1 in
  let st3 := Scenario.run (Scenario.polls 1 91 30) st2 in
  Cache.size (Cache.ups_data_cache st1) = 30 /\
  Cache.size (Cache.ups_data_cache st2) = 30 /\
  Z.max 5 (Py.int_div 60 1) = 60 /\
  map Cache.timestamp_tz (Cache.db st2)
  = [60 * Cache.second; 120 * Cache.second] /\
  Cache.data (Cache.ups_data_cache st2) = [] /\
  map Cache.timestamp_tz (Cache.db st3)
  = [60 * Cache.second; 120 * Cache.second; 120 * Cache.second].
Proof. vm_compute. repeat split; reflexivity. Qed.

(** ** Averages *)

Section Averages.
Import Py Cache.
Variable utcoffset : Z.

Lemma dict_get_app {A : Type} k (a b : dict A) :
  dict_get k (a ++ b)
  = match dict_get k a with Some v => Some v | None => dict_get k b end.
Proof.
  induction a as [|[k' v] a IH]; simpl; [reflexivity|].
  destruct (String.eqb k' k); [reflexivity|exact IH].
Qed.





End Averages.

(** ** Broadcast *)

Section Broadcast.
Import Py Cache.

Lemma Qle_bool_false x y : Qle_bool x y = false <-> (y < x)%Q.
Proof.
  split.
  - intros H. apply Qnot_le_lt. intros Hle.
    apply Qle_bool_iff in Hle. congruence.
  - intros H. destruct (Qle_bool x y) eqn:E; [|reflexivity].
    apply Qle_bool_iff in E. exfalso. eapply Qlt_not_le; eassumption.
Qed.





End Broadcast.

(** ** The reader without a configured target *)

Section Unconfigured.
Import Py Cache.
Variable utcoffset : Z.
Variable model_columns : string -> bool.
Variable CACHE_SECONDS : Z.
Variable UPS_REALPOWER_NOMINAL : value.

Lemma get_ups_data_unconfigured cfg run :
  Reader.unset (Reader.name cfg) = true \/
  Reader.unset (Reader.host cfg) = true ->
  snd (Reader.get_ups_data UPS_REALPOWER_NOMINAL cfg run)
  = Reader.Ok Reader.placeholder.
Proof.
  intros H. unfold Reader.get_ups_data.
  destruct (Reader.unset (Reader.command cfg)); cbn [Reader.name Reader.host];
    destruct H as [-> | ->]; rewrite ?orb_true_r; reflexivity.
Qed.

(** C10.  When the name or the host of the UPS is not configured,
    [get_ups_data] returns the placeholder sample whatever the status
    command would do, and raises nothing.  The polling step then succeeds,
    appends the placeholder to the buffer and runs the flush on that
    buffer; every column of the frame receives the cell of the placeholder
    as its last cell, so the placeholder is averaged as any sample is.  A
    buffer that holds the placeholder alone has the averages 0.0 for the
    four numbers and ['ERROR'] for the status. *)
Theorem placeholder_sample_is_buffered :
  forall (cfg : Reader.UPSConfig) (run : Reader.run_result),
    Reader.unset (Reader.name cfg) = true \/
    Reader.unset (Reader.host cfg) = true ->
    snd (Reader.get_ups_data UPS_REALPOWER_NOMINAL cfg run)
    = Reader.Ok Reader.placeholder /\
    (forall (env : environment) (st : state),
        ups_config st = cfg -> Cache.run env = run ->
        let r := save_ups_data utcoffset model_columns CACHE_SECONDS
                               UPS_REALPOWER_NOMINAL env st in
        exists c1,
          data c1 = data (ups_data_cache st) /\
          let c2 := fst (add utcoffset c1 (now env) Reader.placeholder
                             (now_iso env)) in
          fst (fst r) = (true, None) /\
          data c2 = data (ups_data_cache st)
                    ++ [(now env, Reader.placeholder)] /\
          synced c2 /\
          (forall k,
              column k (map row_of (data c2))
              = column k (map row_of (data (ups_data_cache st)))
                ++ [dict_get k (row_of (now env, Reader.placeholder))]) /\
          ups_data_cache (snd (fst r))
          = snd (fst (calculate_and_save_averages
                        utcoffset model_columns (db_faults env) c2 (db st)
                        (now env)))) /\
    (forall (n ts : Z) (iso : string),
        calculate_averages
          (fst (add utcoffset (init n) ts Reader.placeholder iso))
        = Some [("battery_charge", VFloat 0); ("battery_runtime", VFloat 0);
                ("input_voltage", VFloat 0); ("output_voltage", VFloat 0);
                ("ups_status", VStr "ERROR")]).
Proof.
  intros cfg run H. split; [apply get_ups_data_unconfigured; exact H|].
  split; [|intros n ts iso; reflexivity].
  intros env st <- <- r.
  pose proof (get_ups_data_unconfigured (ups_config st) (Cache.run env) H)
    as Hg.
  subst r. unfold save_ups_data.
  set (c1 := if 1 <? _ then _ else ups_data_cache st).
  assert (Hd1 : data c1 = data (ups_data_cache st)).
  { unfold c1. destruct (1 <? _); [|reflexivity].
    destruct (negb _); reflexivity. }
  exists c1. split; [exact Hd1|].
  destruct (Reader.get_ups_data UPS_REALPOWER_NOMINAL (ups_config st)
                                (Cache.run env)) as [cfg1 res].
  cbn [snd] in Hg. subst res.
  pose proof (add_data utcoffset c1 (now env) Reader.placeholder (now_iso env))
    as Ha.
  pose proof (add_synced utcoffset c1 (now env) Reader.placeholder
                         (now_iso env)) as Hs.
  change (dict_of_items
            (map (fun kv => (dots_to_underscores (fst kv), snd kv))
                 Reader.placeholder)) with Reader.placeholder in Ha.
  rewrite Hd1 in Ha.
  destruct (add utcoffset c1 (now env) Reader.placeholder (now_iso env))
    as [c2 sent].
  cbn [fst] in *.
  destruct (calculate_and_save_averages utcoffset model_columns
              (db_faults env) c2 (db st) (now env)) as [[ok c3] db1].
  cbn [fst snd ups_data_cache].
  split; [reflexivity|]. split; [exact Ha|]. split; [exact Hs|].
  split; [|reflexivity].
  intros k. rewrite Ha. unfold column. rewrite !map_app. reflexivity.
Qed.

End Unconfigured.

(** ** Printing and reading back a rounded float *)

Section RoundTrip.
Import Py.

Lemma forall_chars_app p a b :
  forall_chars p (a ++ b)%string = forall_chars p a && forall_chars p b.
Proof.
  induction a as [|c a IH]; simpl; [reflexivity|].
  rewrite IH, andb_assoc. reflexivity.
Qed.

Lemma forall_chars_impl (p q : ascii -> bool) s :
  (forall c, p c = true -> q c = true) ->
  forall_chars p s = true -> forall_chars q s = true.
Proof.
  intros H. induction s as [|c s IH]; simpl; [reflexivity|].
  intros E. apply andb_prop in E as [E1 E2].
  rewrite (H c E1), (IH E2). reflexivity.
Qed.

Lemma all_digits_chars s : all_digits s = forall_chars is_digit s.
Proof. induction s as [|c s IH]; simpl; [|rewrite IH]; reflexivity. Qed.

Lemma all_digits_uint d : all_digits (NilEmpty.string_of_uint d) = true.
Proof. induction d; simpl; auto. Qed.

Lemma digits_value_uint d :
  digits_value (NilEmpty.string_of_uint d) = Z.of_N (N.of_uint d).
Proof. unfold digits_value. rewrite NilEmpty.usu. reflexivity. Qed.

Lemma N_to_uint_nonnil n : N.to_uint n <> Decimal.Nil.
Proof.
  destruct n; [discriminate|]. simpl. apply DecimalPos.Unsigned.to_uint_nonnil.
Qed.

Lemma string_of_N n :
  NilZero.string_of_uint (N.to_uint n)
  = NilEmpty.string_of_uint (N.to_uint n).
Proof.
  unfold NilZero.string_of_uint.
  pose proof (N_to_uint_nonnil n) as H.
  destruct (N.to_uint n); [congruence|reflexivity..].
Qed.

Lemma string_of_N_cons n :
  exists c r, NilEmpty.string_of_uint (N.to_uint n) = String c r
              /\ is_digit c = true.
Proof.
  pose proof (N_to_uint_nonnil n) as H.
  destruct (N.to_uint n); [congruence|..]; simpl; eauto.
Qed.

Lemma lstrip_nonspace c r :
  is_space c = false -> lstrip (String c r) = String c r.
Proof. intros H. simpl. rewrite H. reflexivity. Qed.

Lemma rstrip_nonspace s :
  forall_chars (fun c => negb (is_space c)) s = true -> rstrip s = s.
Proof.
  induction s as [|c s IH]; simpl; [reflexivity|].
  intros E. apply andb_prop in E as [E1 E2]. rewrite (IH E2).
  apply negb_true_iff in E1. rewrite E1. destruct s; reflexivity.
Qed.

Lemma split_once_none sep s :
  forall_chars (fun c => negb (Ascii.eqb c sep)) s = true ->
  split_once sep s = None.
Proof.
  induction s as [|c s IH]; simpl; [reflexivity|].
  intros E. apply andb_prop in E as [E1 E2]. apply negb_true_iff in E1.
  rewrite E1, (IH E2). reflexivity.
Qed.

Lemma split_once_app sep a b :
  forall_chars (fun c => negb (Ascii.eqb c sep)) a = true ->
  split_once sep (a ++ String sep b)%string = Some (a, b).
Proof.
  induction a as [|c a IH]; simpl.
  - intros _. rewrite Ascii.eqb_refl. reflexivity.
  - intros E. apply andb_prop in E as [E1 E2]. apply negb_true_iff in E1.
    rewrite E1, (IH E2). reflexivity.
Qed.

Lemma digit_is_plain c :
  is_digit c = true ->
  is_space c = false /\ Ascii.eqb c "." = false /\ Ascii.eqb c "e" = false
  /\ Ascii.eqb c "E" = false /\ Ascii.eqb c "-" = false
  /\ Ascii.eqb c "+" = false.
Proof.
  destruct c as [[] [] [] [] [] [] [] []]; intros H;
    try discriminate H; repeat split; reflexivity.
Qed.

Lemma split_sign_digit c r :
  is_digit c = true -> split_sign (String c r) = (false, String c r).
Proof.
  destruct c as [[] [] [] [] [] [] [] []]; intros H;
    try discriminate H; reflexivity.
Qed.

Lemma frac_digits d1 d2 :
  0 <= d1 <= 9 -> 0 <= d2 <= 9 ->
  let fp := if d2 =? 0 then String (digit_char d1) EmptyString
            else String (digit_char d1) (String (digit_char d2) EmptyString) in
  all_digits fp = true /\
  digits_value fp = (if d2 =? 0 then d1 else 10 * d1 + d2) /\
  Z.of_nat (String.length fp) = (if d2 =? 0 then 1 else 2).
Proof.
  intros H1 H2.
  assert (E1 : d1 = 0 \/ d1 = 1 \/ d1 = 2 \/ d1 = 3 \/ d1 = 4 \/ d1 = 5
               \/ d1 = 6 \/ d1 = 7 \/ d1 = 8 \/ d1 = 9) by lia.
  assert (E2 : d2 = 0 \/ d2 = 1 \/ d2 = 2 \/ d2 = 3 \/ d2 = 4 \/ d2 = 5
               \/ d2 = 6 \/ d2 = 7 \/ d2 = 8 \/ d2 = 9) by lia.
  clear H1 H2.
  destruct E1 as [->|[->|[->|[->|[->|[->|[->|[->|[->| ->]]]]]]]]];
    destruct E2 as [->|[->|[->|[->|[->|[->|[->|[->|[->| ->]]]]]]]]];
    repeat split; reflexivity.
Qed.

Lemma float_of_str_of_hundredths h :
  0 <= h -> float_of_string (str_of_hundredths h) = Some (Qred (h # 100)).
Proof.
  intros Hh. unfold str_of_hundredths.
  replace (h <? 0) with false by (symmetry; apply Z.ltb_ge; exact Hh).
  rewrite (Z.abs_eq h Hh). cbv zeta.
  set (d1 := (h mod 100) / 10). set (d2 := h mod 10).
  assert (R1 : 0 <= d1 <= 9).
  { unfold d1. pose proof (Z.mod_pos_bound h 100 ltac:(lia)).
    split; [apply Z.div_pos; lia|].
    apply Z.lt_succ_r. apply Z.div_lt_upper_bound; lia. }
  assert (R2 : 0 <= d2 <= 9).
  { unfold d2. pose proof (Z.mod_pos_bound h 10 ltac:(lia)). lia. }
  destruct (frac_digits d1 d2 R1 R2) as [Fd [Fv Fl]].
  set (fp := if d2 =? 0 then String (digit_char d1) EmptyString
             else String (digit_char d1)
                         (String (digit_char d2) EmptyString)) in *.
  rewrite string_of_N.
  set (ip := NilEmpty.string_of_uint (N.to_uint (Z.to_N (h / 100)))).
  assert (Id : all_digits ip = true) by apply all_digits_uint.
  assert (Iv : digits_value ip = h / 100).
  { unfold ip. rewrite digits_value_uint, DecimalN.Unsigned.of_to.
    apply Z2N.id. apply Z.div_pos; lia. }
  destruct (string_of_N_cons (Z.to_N (h / 100))) as [c [r [Ic Dc]]].
  fold ip in Ic.
  change ("" ++ ip ++ "." ++ fp)%string with (ip ++ String "." fp)%string.
  set (s := (ip ++ String "." fp)%string).
  assert (Sc : s = String c (r ++ String "." fp)%string)
    by (unfold s; rewrite Ic; reflexivity).
  assert (Plain : forall_chars (fun c => is_digit c || Ascii.eqb c ".") s
                  = true).
  { unfold s. rewrite forall_chars_app. simpl.
    rewrite all_digits_chars in Id, Fd.
    rewrite (forall_chars_impl is_digit _ ip), (forall_chars_impl is_digit _ fp);
      try assumption; try (intros x Hx; rewrite Hx; reflexivity).
    reflexivity. }
  assert (Strip : strip s = s).
  { unfold strip. rewrite Sc at 1.
    rewrite lstrip_nonspace by (apply digit_is_plain; exact Dc).
    rewrite <- Sc. apply rstrip_nonspace.
    revert Plain. apply forall_chars_impl. intros x Hx.
    apply orb_prop in Hx as [Hx|Hx].
    - apply digit_is_plain in Hx as [-> _]. reflexivity.
    - apply Ascii.eqb_eq in Hx. subst x. reflexivity. }
  unfold float_of_string. rewrite Strip.
  rewrite Sc at 1. rewrite (split_sign_digit c _ Dc). rewrite <- Sc.
  assert (Exp : split_exponent s = (s, None)).
  { unfold split_exponent.
    rewrite (split_once_none "e" s), (split_once_none "E" s); [reflexivity|..];
      revert Plain; apply forall_chars_impl; intros x Hx;
      apply orb_prop in Hx as [Hx|Hx];
      try (apply digit_is_plain in Hx as [_ [_ [He [HE _]]]];
           rewrite ?He, ?HE; reflexivity);
      apply Ascii.eqb_eq in Hx; subst x; reflexivity. }
  rewrite Exp.
  assert (Man : parse_mantissa s
                = Some (Qmake (digits_value ip
                               * 10 ^ Z.of_nat (String.length fp)
                               + digits_value fp)
                              (Z.to_pos (10 ^ Z.of_nat (String.length fp))))).
  { unfold parse_mantissa. unfold s at 1.
    rewrite split_once_app.
    - rewrite Id, Fd. rewrite Ic at 1. reflexivity.
    - rewrite all_digits_chars in Id. revert Id. apply forall_chars_impl.
      intros x Hx. apply digit_is_plain in Hx as [_ [-> _]]. reflexivity. }
  rewrite Man. f_equal. apply Qred_complete.
  rewrite Iv, Fv, Fl. unfold Qeq. cbn [Qnum Qden].
  pose proof (Z.div_mod h 100 ltac:(lia)) as Eh.
  pose proof (Z.div_mod (h mod 100) 10 ltac:(lia)) as Em.
  assert (Ed2 : (h mod 100) mod 10 = d2).
  { unfold d2. apply Z.mod_mod_divide. exists 10. reflexivity. }
  fold d1 in Em. rewrite Ed2 in Em.
  destruct (d2 =? 0) eqn:E0.
  - apply Z.eqb_eq in E0. change (Z.to_pos (10 ^ 1)) with 10%positive.
    change (10 ^ 1) with 10. lia.
  - change (Z.to_pos (10 ^ 2)) with 100%positive.
    change (10 ^ 2) with 100. lia.
Qed.

Lemma hundredths_nonneg q : (0 <= q)%Q -> 0 <= hundredths q.
Proof.
  intros Hq. unfold hundredths, round_half_even.
  assert (H0 : 0 <= Qfloor (q * 100)).
  { change 0 with (Qfloor (inject_Z 0)) at 1. apply Qfloor_resp_le.
    change (inject_Z 0) with 0%Q. apply Qmult_le_0_compat; [exact Hq|].
    discriminate. }
  destruct (Qcompare _ _); [destruct (Z.even _)|..]; lia.
Qed.

(** [float(str(round(x, 2)))] is [round(x, 2)] for a float that is not
    negative. *)
Lemma float_of_str_round2 q :
  (0 <= q)%Q -> float_of_string (str_round2 q) = Some (round2 q).
Proof.
  intros Hq. unfold str_round2, round2.
  apply float_of_str_of_hundredths, hundredths_nonneg, Hq.
Qed.

End RoundTrip.

(** ** Real power *)

Section RealPower.
Import Py Reader.
Variable UPS_REALPOWER_NOMINAL : value.

Lemma dict_get_set {A : Type} k k' (v : A) d :
  dict_get k' (dict_set k v d)
  = if String.eqb k k' then Some v else dict_get k' d.
Proof.
  induction d as [|[k0 v0] d IH]; simpl; [reflexivity|].
  destruct (String.eqb_spec k0 k) as [->|Hne]; simpl.
  - destruct (String.eqb k k'); reflexivity.
  - rewrite IH. destruct (String.eqb_spec k0 k') as [->|_]; [|reflexivity].
    destruct (String.eqb_spec k k'); [congruence|reflexivity].
Qed.

Lemma dict_set_keys {A : Type} k (v : A) d :
  dict_keys (dict_set k v d)
  = if dict_mem k d then dict_keys d else dict_keys d ++ [k].
Proof.
  unfold dict_mem, dict_keys.
  induction d as [|[k0 v0] d IH]; simpl; [reflexivity|].
  destruct (String.eqb_spec k0 k) as [->|Hne]; simpl; [reflexivity|].
  rewrite IH. destruct (dict_get k d); reflexivity.
Qed.

Lemma dict_get_none_keys {A : Type} k (d : dict A) :
  dict_get k d = None -> ~ In k (dict_keys d).
Proof.
  unfold dict_keys. induction d as [|[k0 v0] d IH]; simpl; [tauto|].
  destruct (String.eqb_spec k0 k) as [->|Hne]; [discriminate|].
  intros H [E|Hin]; [congruence|]. exact (IH H Hin).
Qed.

Lemma dict_set_nodup {A : Type} k (v : A) d :
  NoDup (dict_keys d) -> NoDup (dict_keys (dict_set k v d)).
Proof.
  intros H. rewrite dict_set_keys. unfold dict_mem.
  destruct (dict_get k d) eqn:E; [exact H|].
  apply NoDup_app; [exact H|repeat constructor; simpl; tauto|].
  intros x Hx [<-|[]]. revert Hx. apply dict_get_none_keys, E.
Qed.



Lemma parse_lines_nodup lines : NoDup (dict_keys (parse_lines lines)).
Proof.
  unfold parse_lines.
  assert (H : forall (raw : dict string),
             NoDup (dict_keys raw) ->
             NoDup (dict_keys
                      (fold_left
                         (fun raw line =>
                            match split_once ":" line with
                            | Some (key, v) => dict_set (strip key) (strip v) raw
                            | None => raw
                            end) lines raw))).
  { induction lines as [|line lines IH]; intros raw Hn; simpl; [exact Hn|].
    apply IH. destruct (split_once ":" line) as [[key v]|]; [|exact Hn].
    apply dict_set_nodup, Hn. }
  apply H. constructor.
Qed.







Lemma realpower_nonneg load nominal :
  (0 < load)%Q -> (0 < nominal)%Q -> (0 <= nominal * load / 100)%Q.
Proof.
  intros Hl Hn. unfold Qdiv.
  apply Qmult_le_0_compat; [|discriminate].
  apply Qmult_le_0_compat; apply Qlt_le_weak; assumption.
Qed.


End RealPower.

(** * Further properties *)

(** ** Boundaries of the cache *)

Section Boundaries.
Import Py Cache.
Variable utcoffset : Z.

Lemma floor_to_next (t u : Z) :
  0 < u ->
  t < (t - t mod u) + u <= t + u /\ ((t - t mod u) + u) mod u = 0.
Proof.
  intros Hu. pose proof (Z.mod_pos_bound t u Hu) as Hm.
  split; [lia|].
  rewrite (Z.div_mod t u) at 1 by lia.
  replace (u * (t / u) + t mod u - t mod u + u) with ((t / u + 1) * u) by lia.
  apply Z.mod_mul. lia.
Qed.

(** X1.  The next save time and the next hour that the cache computes from a
    time are strictly later than that time, at most one minute (one hour)
    later, and on a minute (an hour) boundary of the configured time
    zone. *)
Theorem next_save_time_is_next_boundary :
  forall t : timestamp,
    (t < get_next_minute utcoffset t <= t + minute /\
     (get_next_minute utcoffset t + utcoffset) mod minute = 0) /\
    (t < get_next_hour utcoffset t <= t + hour /\
     (get_next_hour utcoffset t + utcoffset) mod hour = 0).
Proof.
  intros t. unfold get_next_minute, get_next_hour.
  destruct (floor_to_next (t + utcoffset) minute ltac:(reflexivity)) as [Hm Em].
  destruct (floor_to_next (t + utcoffset) hour ltac:(reflexivity)) as [Hh Eh].
  repeat split; try lia.
  - rewrite <- Em. f_equal. lia.
  - rewrite <- Eh. f_equal. lia.
Qed.
End Boundaries.

(** ** Outcomes of a flush *)

Section Flush.
Import Py Cache.
Variable utcoffset : Z.
Variable model_columns : string -> bool.

(** The hourly step leaves the stamp of the record and adds at most the
    hourly average to its fields. *)
Lemma hourly_step_record fl c db averages t d now :
  let d' := snd (hourly_step utcoffset fl c db averages t d now) in
  timestamp_tz d' = timestamp_tz d /\
  (fields d' = fields d \/
   exists v, fields d' = dict_set "ups_realpower_hrs" v (fields d)).
Proof.
  unfold hourly_step.
  destruct (dict_get "ups_realpower" averages); [|simpl; auto].
  destruct (next_hour c) as [nh|]; [|simpl; auto].
  destruct (nh <=? now); [|simpl; auto].
  destruct (query_raises fl); [simpl; auto|].
  match goal with |- context [match ?l with [] => _ | _ :: _ => _ end] =>
    destruct l end; [simpl; auto|].
  destruct (py_sum _) as [tot|]; [|simpl; auto].
  cbn [snd timestamp_tz fields]. split; [reflexivity|]. right. eauto.
Qed.

Lemma aggregate_daily_data_cases fl db now :
  aggregate_daily_data utcoffset fl db now = db \/
  exists t v, aggregate_daily_data utcoffset fl db now
              = db ++ [mkRecord t [("ups_realpower_days", VFloat v)]].
Proof.
  unfold aggregate_daily_data.
  destruct (query_raises fl); [left; reflexivity|].
  match goal with |- context [match ?l with [] => _ | _ :: _ => _ end] =>
    destruct l eqn:E end; [left; reflexivity|].
  destruct (Qeq_bool _ 0); [left; reflexivity|].
  destruct (commit_raises fl); [left; reflexivity|].
  right. eauto.
Qed.

Lemma next_hour_init_frame (c : UPSDataCache) now :
  let c0 := match next_hour c with
            | None => set_next_hour c (Some (get_next_hour utcoffset now))
            | Some _ => c
            end in
  size c0 = size c /\ data c0 = data c /\ df c0 = df c /\
  next_save_time c0 = next_save_time c /\
  last_broadcast c0 = last_broadcast c /\
  last_daily_aggregation c0 = last_daily_aggregation c.
Proof. destruct (next_hour c); simpl; auto 7. Qed.

(** The two outcomes of a flush. *)
Lemma flush_cases fl c db now :
  let r := calculate_and_save_averages utcoffset model_columns fl c db now in
  let c' := snd (fst r) in
  (fst (fst r) = false /\ snd r = db /\
   data c' = data c /\ df c' = df c /\
   next_save_time c' = next_save_time c /\
   last_broadcast c' = last_broadcast c) \/
  (fst (fst r) = true /\ commit_raises fl = false /\
   is_save_time c now = true /\
   data c' = [] /\ df c' = None /\
   next_save_time c' = Some (get_next_minute utcoffset now) /\
   last_broadcast c' = last_broadcast c /\
   exists t averages d1,
     next_save_time c = Some t /\
     calculate_averages c = Some averages /\ averages <> [] /\
     timestamp_tz d1 = t /\
     (fields d1 = filter (fun kv => model_columns (fst kv)) averages \/
      exists v, fields d1
                = dict_set "ups_realpower_hrs" v
                    (filter (fun kv => model_columns (fst kv)) averages)) /\
     (snd r = db ++ [d1] \/
      exists t' v, snd r = db ++ [d1; mkRecord t' [("ups_realpower_days",
                                                   VFloat v)]])).
Proof.
  intros r c'. subst r c'. unfold calculate_and_save_averages.
  destruct (next_hour_init_frame c now) as [Hs0 [Hd0 [Hf0 [Hn0 [Hb0 Hl0]]]]].
  set (c0 := match next_hour c with
             | None => set_next_hour c (Some (get_next_hour utcoffset now))
             | Some _ => c
             end) in *.
  assert (Esave : is_save_time c0 now = is_save_time c now)
    by (apply is_save_time_ext; assumption).
  assert (Eavg : calculate_averages c0 = calculate_averages c)
    by (unfold calculate_averages; rewrite Hf0; reflexivity).
  destruct (is_save_time c0 now) eqn:Edue; cbn [negb];
    [|left; cbn [fst snd]; auto 6].
  destruct (calculate_averages c0) as [[|kv averages]|] eqn:Ea;
    [left; cbn [fst snd]; auto 6| |left; cbn [fst snd]; auto 6].
  destruct (next_save_time c0) as [t|] eqn:Et;
    [|left; cbn [fst snd]; rewrite <- Hn0, Et; auto 6].
  set (d0 := mkRecord t (filter (fun kv0 => model_columns (fst kv0))
                                (kv :: averages))).
  pose proof (hourly_step_frame utcoffset fl c0 db (kv :: averages) t d0 now)
    as Hh.
  pose proof (hourly_step_record fl c0 db (kv :: averages) t d0 now) as Hr.
  destruct (hourly_step _ _ _ _ _ _ _ _) as [[raised c1] d1].
  cbn [fst snd] in Hh, Hr.
  destruct Hh as [Hs1 [Hd1 [Hf1 [Hn1 Hb1]]]]. destruct Hr as [Ht1 Hfl1].
  destruct raised;
    [left; cbn [fst snd]; repeat split; congruence|].
  destruct (commit_raises fl) eqn:Ec;
    [left; cbn [fst snd]; repeat split; congruence|].
  set (c2 := set_next_save_time (set_buffer c1 [] None)
                                (Some (get_next_minute utcoffset now))).
  assert (Hdaily :
            let c3 := snd (should_aggregate_daily utcoffset c2 now) in
            data c3 = [] /\ df c3 = None /\
            next_save_time c3 = Some (get_next_minute utcoffset now) /\
            last_broadcast c3 = last_broadcast c1).
  { unfold should_aggregate_daily.
    destruct (_ && _); [|simpl; auto].
    destruct (last_daily_aggregation c2) as [d|]; [|simpl; auto].
    destruct (d =? _); simpl; auto. }
  destruct (should_aggregate_daily utcoffset c2 now) as [daily c3].
  cbn [snd] in Hdaily. destruct Hdaily as [Hd3 [Hf3 [Hn3 Hb3]]].
  right.
  assert (Hrec : exists t0 averages0 d2,
             next_save_time c = Some t0 /\
             calculate_averages c = Some averages0 /\ averages0 <> [] /\
             timestamp_tz d2 = t0 /\
             (fields d2 = filter (fun kv => model_columns (fst kv)) averages0 \/
              exists v, fields d2
                        = dict_set "ups_realpower_hrs" v
                            (filter (fun kv => model_columns (fst kv))
                                    averages0)) /\ d2 = d1).
  { exists t, (kv :: averages), d1.
    split; [congruence|]. split; [congruence|]. split; [discriminate|].
    split; [exact Ht1|]. split; [exact Hfl1|reflexivity]. }
  destruct Hrec as [t0 [av0 [d2 [R1 [R2 [R3 [R4 [R5 ->]]]]]]]].
  destruct daily; cbn [fst snd].
  - repeat split; try congruence.
    exists t0, av0, d1. repeat split; try assumption.
    destruct (aggregate_daily_data_cases fl (db ++ [d1]) now) as [E|[t' [v E]]];
      rewrite E; [left; reflexivity|].
    right. exists t', v. rewrite <- app_assoc. reflexivity.
  - repeat split; try congruence.
    exists t0, av0, d1. repeat split; try assumption. left. reflexivity.
Qed.

End Flush.

(** ** Daily aggregation *)

Section Daily.
Import Py Cache.
Variable utcoffset : Z.

Lemma first_minute_of_day (l : Z) :
  ((l mod day) / hour =? 0) && ((l mod hour) / minute =? 0) = true ->
  l mod day < minute.
Proof.
  intros H. apply andb_prop in H as [H1 H2].
  apply Z.eqb_eq in H1, H2.
  pose proof (Z.mod_pos_bound l day ltac:(reflexivity)) as Hd.
  pose proof (Z.mod_pos_bound l hour ltac:(reflexivity)) as Hh.
  assert (E1 : l mod day < hour).
  { pose proof (Z.div_mod (l mod day) hour ltac:(discriminate)) as E.
    pose proof (Z.mod_pos_bound (l mod day) hour ltac:(reflexivity)).
    rewrite H1 in E. lia. }
  assert (E2 : l mod hour < minute).
  { pose proof (Z.div_mod (l mod hour) minute ltac:(discriminate)) as E.
    pose proof (Z.mod_pos_bound (l mod hour) minute ltac:(reflexivity)).
    rewrite H2 in E. lia. }
  assert (E3 : (l mod day) mod hour = l mod hour).
  { apply Z.mod_mod_divide. exists 24. reflexivity. }
  rewrite Z.mod_small in E3 by lia. lia.
Qed.

Lemma should_aggregate_daily_true c t :
  fst (should_aggregate_daily utcoffset c t) = true ->
  (t + utcoffset) mod day < minute /\
  last_daily_aggregation (snd (should_aggregate_daily utcoffset c t))
  = Some ((t + utcoffset) / day).
Proof.
  unfold should_aggregate_daily.
  destruct ((((t + utcoffset) mod day) / hour =? 0)
            && (((t + utcoffset) mod hour) / minute =? 0)) eqn:Em;
    [|discriminate].
  intros H. split; [apply first_minute_of_day; exact Em|].
  destruct (last_daily_aggregation c) as [d|]; [|reflexivity].
  destruct (d =? _); [discriminate H|reflexivity].
Qed.

Lemma should_aggregate_daily_same_day c t d :
  last_daily_aggregation c = Some d -> (t + utcoffset) / day = d ->
  fst (should_aggregate_daily utcoffset c t) = false.
Proof.
  intros Hl Hd. unfold should_aggregate_daily.
  destruct (_ && _); [|reflexivity].
  rewrite Hl, Hd, Z.eqb_refl. reflexivity.
Qed.

(** X4.  When [should_aggregate_daily] answers [True], the local time is in
    the first minute of the day and the local date is remembered, so that
    the question asked again on the same local date is answered
    [False]. *)
Theorem daily_aggregation_once_per_day :
  forall (c : UPSDataCache) (t1 t2 : timestamp),
    fst (should_aggregate_daily utcoffset c t1) = true ->
    (t2 + utcoffset) / day = (t1 + utcoffset) / day ->
    (t1 + utcoffset) mod day < minute /\
    last_daily_aggregation (snd (should_aggregate_daily utcoffset c t1))
    = Some ((t1 + utcoffset) / day) /\
    fst (should_aggregate_daily
           utcoffset (snd (should_aggregate_daily utcoffset c t1)) t2)
    = false.
Proof.
  intros c t1 t2 H1 Hday.
  destruct (should_aggregate_daily_true c t1 H1) as [Hm Hl].
  split; [exact Hm|]. split; [exact Hl|].
  eapply should_aggregate_daily_same_day; eassumption.
Qed.

End Daily.

(** ** The polling step *)

Section Polling.
Import Py Cache.
Variable utcoffset : Z.
Variable model_columns : string -> bool.
Variable CACHE_SECONDS : Z.
Variable UPS_REALPOWER_NOMINAL : value.

Lemma dict_set_nonempty {A : Type} k (v : A) d : dict_set k v d <> [].
Proof. destruct d as [|[k0 v0] d]; simpl; [|destruct (String.eqb k0 k)]; discriminate. Qed.

Lemma fold_dict_set_nonempty {A : Type} (l : list (string * A)) acc :
  acc <> [] ->
  fold_left (fun d kv => dict_set (fst kv) (snd kv) d) l acc <> [].
Proof.
  revert acc. induction l as [|kv l IH]; intros acc H; simpl; [exact H|].
  apply IH, dict_set_nonempty.
Qed.

Lemma dict_of_items_nonempty {A : Type} (kv : string * A) l :
  dict_of_items (kv :: l) <> [].
Proof. unfold dict_of_items. simpl. apply fold_dict_set_nonempty. discriminate. Qed.

(** What a broadcast leaves as the last broadcast. *)
Lemma broadcast_last c d iso :
  let r := broadcast_cache_update c d iso in
  match snd r with
  | Some p => last_broadcast (fst r) = Some p /\ p <> []
  | None => fst r = c
  end.
Proof.
  unfold broadcast_cache_update. destruct d as [|kv d]; [reflexivity|].
  match goal with |- context [if ?b then _ else _] => destruct b end;
    cbn [fst snd]; [reflexivity|].
  split; [reflexivity|]. apply dict_of_items_nonempty.
Qed.

(** [add] appends one sample, sets the save time when there is none, and
    broadcasts. *)
Lemma add_cases c ts d iso :
  let r := add utcoffset c ts d iso in
  size (fst r) = size c /\
  data (fst r)
  = data c ++ [(ts, dict_of_items
                      (map (fun kv => (dots_to_underscores (fst kv), snd kv))
                           d))] /\
  match snd r with
  | Some p => last_broadcast (fst r) = Some p /\ p <> []
  | None => last_broadcast (fst r) = last_broadcast c
  end.
Proof.
  intros r. split; [apply add_size|]. split; [apply add_data|].
  subst r. unfold add.
  match goal with |- context [broadcast_cache_update ?x ?y ?z] =>
    pose proof (broadcast_last x y z) as H;
    destruct (broadcast_cache_update x y z) as [c' [p|]] end;
    cbn [fst snd] in *; [exact H|].
  rewrite H. destruct (next_save_time c); reflexivity.
Qed.

Lemma get_ups_data_cases cfg run :
  let r := Reader.get_ups_data UPS_REALPOWER_NOMINAL cfg run in
  Reader.name (fst r) = Reader.name cfg /\
  Reader.host (fst r) = Reader.host cfg /\
  Reader.unset (Reader.command (fst r)) = false /\
  (Polls.unconfigured cfg || Polls.answered run = true ->
   exists sample, snd r = Reader.Ok sample) /\
  (Polls.unconfigured cfg || Polls.answered run = false ->
   exists msg, snd r = Reader.UPSDataError
                         ("Failed to get UPS data: " ++ msg)%string).
Proof.
  unfold Reader.get_ups_data, Polls.unconfigured, Polls.answered.
  set (cfg1 := if Reader.unset (Reader.command cfg) then _ else cfg).
  assert (E : Reader.name cfg1 = Reader.name cfg /\
              Reader.host cfg1 = Reader.host cfg /\
              Reader.unset (Reader.command cfg1) = false).
  { unfold cfg1. destruct (Reader.unset (Reader.command cfg)) eqn:Ec;
      simpl; auto. }
  destruct E as [En [Eh Ec]]. rewrite En, Eh.
  destruct (Reader.unset (Reader.name cfg) || Reader.unset (Reader.host cfg));
    cbn [orb fst snd].
  - repeat split; try assumption; [eauto|discriminate].
  - destruct run as [rc lines err|msg]; cbn [fst snd].
    + destruct (rc =? 0); cbn [negb fst snd];
        repeat split; try assumption; try discriminate; eauto.
    + repeat split; try assumption; try discriminate; eauto.
Qed.

(** X5.  The polling step returns [(True, None)] when the reader returns a
    sample: the name or the host is not configured, or the status command
    completes with the code 0.  Otherwise it returns [False] with the
    message of the reader behind ["Error saving data: "], buffers nothing,
    writes nothing and broadcasts nothing.  What the database does during
    the step never changes the pair that is returned. *)
Theorem failed_read_buffers_nothing :
  forall (env : environment) (st : state),
    let r := save_ups_data utcoffset model_columns CACHE_SECONDS
                           UPS_REALPOWER_NOMINAL env st in
    let st' := snd (fst r) in
    let reads := Polls.unconfigured (ups_config st)
                 || Polls.answered (run env) in
    (reads = true -> fst (fst r) = (true, None)) /\
    (reads = false ->
     (exists msg,
         fst (fst r)
         = (false, Some ("Error saving data: Failed to get UPS data: "
                         ++ msg)%string)) /\
     data (ups_data_cache st') = data (ups_data_cache st) /\
     df (ups_data_cache st') = df (ups_data_cache st) /\
     next_save_time (ups_data_cache st')
     = next_save_time (ups_data_cache st) /\
     last_broadcast (ups_data_cache st')
     = last_broadcast (ups_data_cache st) /\
     db st' = db st /\ snd r = None) /\
    (forall fl : faults,
        fst (fst (save_ups_data utcoffset model_columns CACHE_SECONDS
                                UPS_REALPOWER_NOMINAL
                                (Polls.with_db_faults env fl) st))
        = fst (fst r)).
Proof.
  intros env st r st' reads. subst r st' reads.
  unfold save_ups_data. cbn [Polls.with_db_faults now now_iso config run db_faults].
  set (c1 := if 1 <? _ then _ else ups_data_cache st).
  assert (Hc1 : data c1 = data (ups_data_cache st) /\
                df c1 = df (ups_data_cache st) /\
                next_save_time c1 = next_save_time (ups_data_cache st) /\
                last_broadcast c1 = last_broadcast (ups_data_cache st)).
  { unfold c1. destruct (1 <? _); [|auto].
    destruct (negb _); simpl; auto. }
  destruct (get_ups_data_cases (ups_config st) (run env))
    as [_ [_ [_ [Hok Herr]]]].
  destruct (Reader.get_ups_data UPS_REALPOWER_NOMINAL (ups_config st) (run env))
    as [cfg1 [sample|msg]]; cbn [fst snd] in *.
  - split; [|split].
    + intros _.
      destruct (add utcoffset c1 (now env) sample (now_iso env)) as [c2 sent].
      destruct (calculate_and_save_averages _ _ _ _ _ _) as [[ok c3] db1].
      reflexivity.
    + intros E. destruct (Herr E) as [m Hm]. discriminate Hm.
    + intros fl.
      destruct (add utcoffset c1 (now env) sample (now_iso env)) as [c2 sent].
      destruct (calculate_and_save_averages _ _ (db_faults env) _ _ _)
        as [[ok c3] db1].
      destruct (calculate_and_save_averages _ _ fl _ _ _) as [[ok' c3'] db1'].
      reflexivity.
  - split; [|split].
    + intros E. destruct (Hok E) as [s Hs]. discriminate Hs.
    + intros E. destruct (Herr E) as [m Hm]. injection Hm as ->.
      cbn [fst snd ups_data_cache db]. destruct Hc1 as [H1 [H2 [H3 H4]]].
      repeat split; try assumption. exists m. reflexivity.
    + intros fl. reflexivity.
Qed.

(** X7.  After a polling step, a client that connects or that asks for the
    cache data receives the payload that the step has broadcast, if it has
    broadcast one, and otherwise what it would have received before the
    step. *)
Theorem connecting_client_receives_last_broadcast :
  forall (env : environment) (st : state),
    let r := save_ups_data utcoffset model_columns CACHE_SECONDS
                           UPS_REALPOWER_NOMINAL env st in
    let c := ups_data_cache st in
    let c' := ups_data_cache (snd (fst r)) in
    match snd r with
    | Some payload =>
        Websocket.handle_websocket_connect c' = Some payload /\
        Websocket.handle_request_cache_data c' = payload
    | None =>
        Websocket.handle_websocket_connect c'
        = Websocket.handle_websocket_connect c /\
        Websocket.handle_request_cache_data c'
        = Websocket.handle_request_cache_data c
    end.
Proof.
  intros env st r c c'. subst r c c'.
  unfold save_ups_data.
  set (c1 := if 1 <? _ then _ else ups_data_cache st).
  assert (Hc1 : last_broadcast c1 = last_broadcast (ups_data_cache st)).
  { unfold c1. destruct (1 <? _); [|auto].
    destruct (negb _); simpl; auto. }
  destruct (Reader.get_ups_data UPS_REALPOWER_NOMINAL (ups_config st) (run env))
    as [cfg1 [sample|msg]]; cbn [fst snd ups_data_cache].
  - pose proof (add_cases c1 (now env) sample (now_iso env)) as Ha.
    destruct (add utcoffset c1 (now env) sample (now_iso env)) as [c2 sent].
    cbn [fst snd] in Ha. destruct Ha as [_ [_ Ha]].
    pose proof (flush_cases utcoffset model_columns (db_faults env) c2
                            (db st) (now env)) as Hf.
    destruct (calculate_and_save_averages _ _ _ _ _ _) as [[ok c3] db1].
    cbn [fst snd ups_data_cache] in *.
    assert (Hb : last_broadcast c3 = last_broadcast c2)
      by (destruct Hf as [Hf|Hf]; tauto).
    unfold Websocket.handle_websocket_connect,
      Websocket.handle_request_cache_data, Websocket.get_latest_cache_data.
    rewrite Hb. destruct sent as [p|].
    + destruct Ha as [-> Hp]. destruct p; [congruence|]. split; reflexivity.
    + rewrite Ha, Hc1. split; reflexivity.
  - unfold Websocket.handle_websocket_connect,
      Websocket.handle_request_cache_data, Websocket.get_latest_cache_data.
    rewrite Hc1. split; reflexivity.
Qed.

End Polling.

(** ** Growth of the buffer *)

Section Growth.
Import Py Cache.
Variable utcoffset : Z.
Variable model_columns : string -> bool.
Variable CACHE_SECONDS : Z.
Variable UPS_REALPOWER_NOMINAL : value.

(** A polling step whose read succeeds and whose commit raises appends one
    sample to the buffer and leaves the store. *)
Lemma poll_with_failing_commit env st :
  Polls.answered (run env) = true ->
  commit_raises (db_faults env) = true ->
  let st' := snd (fst (save_ups_data utcoffset model_columns CACHE_SECONDS
                                     UPS_REALPOWER_NOMINAL env st)) in
  List.length (data (ups_data_cache st'))
  = S (List.length (data (ups_data_cache st))) /\
  db st' = db st.
Proof.
  intros Hrun Hc. unfold save_ups_data.
  set (c1 := if 1 <? _ then _ else ups_data_cache st).
  assert (Hc1 : data c1 = data (ups_data_cache st)).
  { unfold c1. destruct (1 <? _); [|auto].
    destruct (negb _); simpl; auto. }
  destruct (get_ups_data_cases UPS_REALPOWER_NOMINAL (ups_config st) (run env))
    as [_ [_ [_ [Hok _]]]].
  rewrite Hrun, orb_true_r in Hok. destruct (Hok eq_refl) as [sample Hs].
  destruct (Reader.get_ups_data UPS_REALPOWER_NOMINAL (ups_config st) (run env))
    as [cfg1 res]. cbn [snd] in Hs. subst res.
  pose proof (add_cases utcoffset c1 (now env) sample (now_iso env)) as Ha.
  destruct (add utcoffset c1 (now env) sample (now_iso env)) as [c2 sent].
  cbn [fst snd] in Ha. destruct Ha as [_ [Ha _]].
  pose proof (flush_cases utcoffset model_columns (db_faults env) c2
                          (db st) (now env)) as Hf.
  destruct (calculate_and_save_averages _ _ _ _ _ _) as [[ok c3] db1].
  cbn [fst snd ups_data_cache db] in *.
  destruct Hf as [[_ [Hdb [Hd _]]]|[_ [Hno _]]]; [|congruence].
  split; [|exact Hdb].
  rewrite Hd, Ha, Hc1, length_app. simpl. lia.
Qed.

(** X6.  [add] never drops a sample: while the status command answers and
    every commit raises, each polling step appends one sample to the
    buffer, whatever the cap, and the store stays as it was. *)
Theorem buffer_grows_while_commit_fails :
  forall (envs : list environment) (st : state),
    (forall env, In env envs ->
                 Polls.answered (run env) = true /\
                 commit_raises (db_faults env) = true) ->
    let st' := polling_thread utcoffset model_columns CACHE_SECONDS
                              UPS_REALPOWER_NOMINAL envs st in
    List.length (data (ups_data_cache st'))
    = (List.length (data (ups_data_cache st)) + List.length envs)%nat /\
    db st' = db st.
Proof.
  intros envs. induction envs as [|env envs IH]; intros st H; simpl.
  - split; [lia|reflexivity].
  - destruct (H env (or_introl eq_refl)) as [Hr Hc].
    destruct (poll_with_failing_commit env st Hr Hc) as [Hl Hd].
    destruct (IH (snd (fst (save_ups_data utcoffset model_columns CACHE_SECONDS
                                          UPS_REALPOWER_NOMINAL env st))))
      as [Hl' Hd'].
    { intros e He. apply H. right. exact He. }
    unfold polling_thread in *. split.
    + rewrite Hl', Hl. lia.
    + rewrite Hd', Hd. reflexivity.
Qed.

End Growth.

(** ** Dictionaries and samples *)

Section Dictionaries.
Import Py.
Context {A : Type}.

Lemma dict_get_not_in k (d : dict A) :
  ~ In k (dict_keys d) -> dict_get k d = None.
Proof.
  unfold dict_keys. induction d as [|[k0 v0] d IH]; simpl; [reflexivity|].
  intros H. destruct (String.eqb_spec k0 k) as [->|Hne]; [tauto|].
  apply IH. tauto.
Qed.

(** Assigning the items of [l] to [acc] from left to right: the last item
    of a key wins, and a key that [l] does not assign keeps its value. *)
Lemma fold_dict_set_get k (l : list (string * A)) (acc : dict A) :
  dict_get k (fold_left (fun d kv => dict_set (fst kv) (snd kv) d) l acc)
  = match dict_get k (rev l) with
    | Some v => Some v
    | None => dict_get k acc
    end.
Proof.
  revert acc. induction l as [|[k0 v0] l IH]; intros acc; simpl;
    [reflexivity|].
  rewrite IH, dict_get_app, dict_get_set. simpl.
  destruct (dict_get k (rev l)); [reflexivity|].
  destruct (String.eqb k0 k); reflexivity.
Qed.

Lemma dict_get_rev k (l : dict A) :
  NoDup (dict_keys l) -> dict_get k (rev l) = dict_get k l.
Proof.
  unfold dict_keys. induction l as [|[k0 v0] l IH]; simpl; [reflexivity|].
  intros H. inversion H as [|x xs Hnotin Hn]; subst.
  rewrite dict_get_app, (IH Hn). simpl.
  destruct (String.eqb_spec k0 k) as [->|Hne].
  - rewrite (dict_get_not_in k l Hnotin). reflexivity.
  - destruct (dict_get k l); reflexivity.
Qed.

Lemma fold_dict_set_fresh (l : list (string * A)) (acc : dict A) :
  NoDup (dict_keys (acc ++ l)) ->
  fold_left (fun d kv => dict_set (fst kv) (snd kv) d) l acc = acc ++ l.
Proof.
  revert acc. induction l as [|[k0 v0] l IH]; intros acc H; simpl.
  - rewrite app_nil_r. reflexivity.
  - assert (E : dict_set k0 v0 acc = acc ++ [(k0, v0)]).
    { unfold dict_keys in H. rewrite map_app in H.
      apply NoDup_remove_2 in H. simpl in H.
      assert (Hk : ~ In k0 (map fst acc))
        by (intros Hin; apply H; apply in_or_app; left; exact Hin).
      clear -Hk. induction acc as [|[k1 v1] acc IHa]; simpl; [reflexivity|].
      destruct (String.eqb_spec k1 k0) as [->|Hne]; [simpl in Hk; tauto|].
      rewrite IHa; [reflexivity|]. simpl in Hk. tauto. }
    rewrite E, IH; rewrite <- app_assoc; [reflexivity|exact H].
Qed.

(** A dictionary built from items with distinct keys holds these items in
    their order. *)
Lemma dict_of_items_nodup (l : list (string * A)) :
  NoDup (dict_keys l) -> dict_of_items l = l.
Proof. intros H. unfold dict_of_items. apply (fold_dict_set_fresh l []), H. Qed.

Lemma fold_dict_set_nodup {B : Type} (f : B -> string) (g : B -> A)
      (l : list B) (acc : dict A) :
  NoDup (dict_keys acc) ->
  NoDup (dict_keys (fold_left (fun d x => dict_set (f x) (g x) d) l acc)).
Proof.
  revert acc. induction l as [|x l IH]; intros acc H; simpl; [exact H|].
  apply IH, dict_set_nodup, H.
Qed.

Lemma fold_dict_set_keys {B : Type} (f : B -> string) (g : B -> A)
      (P : string -> Prop) (l : list B) (acc : dict A) :
  (forall k, In k (dict_keys acc) -> P k) ->
  (forall x, In x l -> P (f x)) ->
  forall k, In k (dict_keys (fold_left (fun d x => dict_set (f x) (g x) d)
                                       l acc)) -> P k.
Proof.
  revert acc. induction l as [|x l IH]; intros acc Ha Hl; simpl; [exact Ha|].
  apply IH.
  - intros k. rewrite dict_set_keys. destruct (dict_mem (f x) acc); [apply Ha|].
    intros Hin. apply in_app_or in Hin as [Hin|[<-|[]]]; [apply Ha, Hin|].
    apply Hl. left. reflexivity.
  - intros y Hy. apply Hl. right. exact Hy.
Qed.

End Dictionaries.

Section Samples.
Import Py Cache.
Variable utcoffset : Z.
Variable UPS_REALPOWER_NOMINAL : value.

Lemma dots_to_underscores_idem k :
  dots_to_underscores (dots_to_underscores k) = dots_to_underscores k.
Proof.
  unfold dots_to_underscores. induction k as [|c k IH]; simpl; [reflexivity|].
  rewrite IH. f_equal.
  destruct (Ascii.eqb_spec c "."); [reflexivity|].
  destruct (Ascii.eqb_spec c "."); [contradiction|reflexivity].
Qed.

Lemma map_fixed_keys (d : dict value) :
  (forall k, In k (dict_keys d) -> dots_to_underscores k = k) ->
  map (fun kv => (dots_to_underscores (fst kv), snd kv)) d = d.
Proof.
  unfold dict_keys. induction d as [|[k v] d IH]; simpl; [reflexivity|].
  intros H. rewrite (H k (or_introl eq_refl)), IH; [reflexivity|].
  intros k' Hk'. apply H. right. exact Hk'.
Qed.

(** A sample whose keys are distinct and in the database format is buffered
    as it is. *)
Lemma formatted_fixed (d : dict value) :
  NoDup (dict_keys d) ->
  (forall k, In k (dict_keys d) -> dots_to_underscores k = k) ->
  Polls.formatted d = d.
Proof.
  intros Hn Hk. unfold Polls.formatted. rewrite (map_fixed_keys d Hk).
  apply dict_of_items_nodup, Hn.
Qed.

Lemma sample_keys cfg run sample :
  snd (Reader.get_ups_data UPS_REALPOWER_NOMINAL cfg run) = Reader.Ok sample ->
  NoDup (dict_keys sample) /\
  (forall k, In k (dict_keys sample) -> dots_to_underscores k = k).
Proof.
  unfold Reader.get_ups_data.
  destruct (_ || _).
  - cbn [snd]. intros [= <-]. split.
    + repeat constructor; simpl; intuition discriminate.
    + intros k Hk. simpl in Hk.
      repeat destruct Hk as [<-|Hk]; try reflexivity. destruct Hk.
  - destruct run as [rc lines err|msg]; [|discriminate].
    destruct (negb (rc =? 0)); [discriminate|].
    cbn [snd]. intros [= <-]. unfold Reader.transform. split.
    + apply fold_dict_set_nodup. constructor.
    + apply fold_dict_set_keys.
      * intros k [].
      * intros x _. apply dots_to_underscores_idem.
Qed.

(** X9.  A sample that [get_ups_data] returns has distinct keys without
    dots, and [add] buffers it as it is under the time of the poll. *)
Theorem reader_sample_is_buffered_as_read :
  forall (cfg : Reader.UPSConfig) (run : Reader.run_result)
         (sample : dict value),
    snd (Reader.get_ups_data UPS_REALPOWER_NOMINAL cfg run)
    = Reader.Ok sample ->
    NoDup (dict_keys sample) /\
    (forall k, In k (dict_keys sample) ->
               forall_chars (fun c => negb (Ascii.eqb c ".")) k = true) /\
    (forall (c : UPSDataCache) (ts : timestamp) (iso : string),
        data (fst (add utcoffset c ts sample iso))
        = data c ++ [(ts, sample)]).
Proof.
  intros cfg run sample H.
  destruct (sample_keys cfg run sample H) as [Hn Hk].
  split; [exact Hn|]. split.
  - intros k Hin. rewrite <- (Hk k Hin). clear.
    unfold dots_to_underscores. induction k as [|c k IH]; simpl; [reflexivity|].
    rewrite IH, andb_true_r.
    destruct (Ascii.eqb_spec c "."); [reflexivity|].
    apply negb_true_iff. apply Ascii.eqb_neq. assumption.
  - intros c ts iso. rewrite add_data.
    change (dict_of_items _) with (Polls.formatted sample).
    rewrite (formatted_fixed sample Hn Hk). reflexivity.
Qed.

(** X8.  For a sample with distinct keys.  An empty sample is not broadcast.
    Without an earlier broadcast a sample that is not empty is broadcast
    and becomes the last broadcast.  A payload that is broadcast holds
    every item of the sample, and the time of the broadcast under
    [timestamp] unless the sample has a key [timestamp] of its own, which
    then wins. *)
Theorem broadcast_payload_carries_sample :
  forall (c : UPSDataCache) (d : dict value) (iso : string),
    NoDup (dict_keys d) ->
    let r := broadcast_cache_update c d iso in
    (d = [] -> r = (c, None)) /\
    (d <> [] -> last_broadcast c = None ->
     exists payload, r = (set_last_broadcast c (Some payload), Some payload)) /\
    (forall payload, snd r = Some payload ->
       forall k,
         dict_get k payload
         = match dict_get k d with
           | Some v => Some v
           | None => if String.eqb k "timestamp" then Some (VStr iso)
                     else None
           end).
Proof.
  intros c d iso Hn r. subst r. unfold broadcast_cache_update.
  split; [intros ->; reflexivity|]. split.
  - intros Hd Hl. destruct d as [|kv d]; [congruence|]. rewrite Hl.
    cbn. eauto.
  - destruct d as [|kv d]; [discriminate|].
    match goal with |- context [if ?b then _ else _] => destruct b end;
      cbn [snd]; [discriminate|].
    intros payload [= <-] k. unfold dict_of_items.
    change (fold_left _ (("timestamp", VStr iso) :: kv :: d) [])
      with (fold_left (fun d0 kv0 => dict_set (fst kv0) (snd kv0) d0)
                      (kv :: d) [("timestamp", VStr iso)]).
    rewrite fold_dict_set_get, (dict_get_rev k (kv :: d) Hn).
    destruct (dict_get k (kv :: d)); [reflexivity|].
    simpl. rewrite String.eqb_sym. reflexivity.
Qed.

End Samples.

(** ** Readings of the real power *)

Section RealPowerKept.
Import Py Reader.
Variable UPS_REALPOWER_NOMINAL : value.

(** The two outcomes of [calculate_realpower]. *)
Lemma calculate_realpower_cases (d : dict string) :
  calculate_realpower UPS_REALPOWER_NOMINAL d = d \/
  exists load nominal,
    match current_value d with
    | None => True
    | Some s => exists q, float_of_string s = Some q /\ (q == 0)%Q
    end /\
    load_percent d = Some load /\
    nominal_power UPS_REALPOWER_NOMINAL d = Some (Finite nominal) /\
    (0 < load)%Q /\ (0 < nominal)%Q /\
    calculate_realpower UPS_REALPOWER_NOMINAL d
    = dict_set underscore_key (str_round2 (nominal * load / 100))
               (dict_set dot_key (str_round2 (nominal * load / 100)) d).
Proof.
  unfold calculate_realpower.
  destruct (current_value d) as [s|] eqn:Ec.
  - destruct (float_of_string s) as [q|] eqn:Ef; cbn [option_map];
      [|left; reflexivity].
    destruct (Qeq_bool q 0) eqn:Eq; [|left; reflexivity].
    destruct (load_percent d) as [load|]; [|left; reflexivity].
    destruct (nominal_power UPS_REALPOWER_NOMINAL d) as [[nominal|]|];
      try (left; reflexivity).
    destruct (Qle_bool load 0) eqn:El; [left; reflexivity|].
    destruct (Qle_bool nominal 0) eqn:En; [left; reflexivity|].
    right. exists load, nominal. cbn [negb andb].
    repeat split; try reflexivity; try (apply Qle_bool_false; assumption).
    exists q. split; [reflexivity|]. apply Qeq_bool_eq, Eq.
  - destruct (load_percent d) as [load|]; [|left; reflexivity].
    destruct (nominal_power UPS_REALPOWER_NOMINAL d) as [[nominal|]|];
      try (left; reflexivity).
    destruct (Qle_bool load 0) eqn:El; [left; reflexivity|].
    destruct (Qle_bool nominal 0) eqn:En; [left; reflexivity|].
    right. exists load, nominal. cbn [negb andb].
    repeat split; try reflexivity; apply Qle_bool_false; assumption.
Qed.

Lemma dict_mem_set {A : Type} k k' (v : A) d :
  dict_mem k' d = true -> dict_mem k' (dict_set k v d) = true.
Proof.
  unfold dict_mem. rewrite dict_get_set.
  destruct (String.eqb k k'); [reflexivity|auto].
Qed.

(** X13.  [calculate_realpower] returns the data unchanged when the reading
    of the real power is a text that [float] refuses or a number other than
    zero.  It changes no key other than the two keys of the real power and
    removes none; when it derives a value, both keys hold the same
    text. *)
Theorem realpower_reading_is_kept :
  forall d : dict string,
    let d' := calculate_realpower UPS_REALPOWER_NOMINAL d in
    (forall s, current_value d = Some s ->
               float_of_string s = None \/
               (exists q, float_of_string s = Some q /\ ~ (q == 0)%Q) ->
               d' = d) /\
    (forall k, k <> dot_key -> k <> underscore_key ->
               dict_get k d' = dict_get k d) /\
    (forall k, dict_mem k d = true -> dict_mem k d' = true) /\
    (d' = d \/
     exists s, dict_get dot_key d' = Some s /\
               dict_get underscore_key d' = Some s).
Proof.
  intros d d'. subst d'.
  destruct (calculate_realpower_cases d)
    as [E|[load [nominal [Hcur [_ [_ [_ [_ E]]]]]]]].
  - rewrite E. repeat split; auto.
  - split; [|split; [|split]].
    + intros s Hs Hbad. rewrite Hs in Hcur. destruct Hcur as [q [Hq Hz]].
      destruct Hbad as [Hn|[q' [Hq' Hnz]]]; [congruence|].
      rewrite Hq in Hq'. injection Hq' as <-. contradiction.
    + intros k H1 H2. rewrite E, !dict_get_set.
      destruct (String.eqb_spec underscore_key k); [congruence|].
      destruct (String.eqb_spec dot_key k); [congruence|]. reflexivity.
    + intros k Hk. rewrite E. apply dict_mem_set, dict_mem_set, Hk.
    + right. rewrite E. exists (str_round2 (nominal * load / 100)).
      rewrite !dict_get_set. split; reflexivity.
Qed.

Lemma dict_set_same {A : Type} k (v : A) d :
  dict_get k d = Some v -> dict_set k v d = d.
Proof.
  induction d as [|[k0 v0] d IH]; simpl; [discriminate|].
  destruct (String.eqb_spec k0 k) as [->|Hne].
  - intros [= ->]. reflexivity.
  - intros H. rewrite (IH H). reflexivity.
Qed.

Lemma first_present_set keys k v (d : dict string) :
  ~ In k keys -> first_present keys (dict_set k v d) = first_present keys d.
Proof.
  induction keys as [|k0 keys IH]; simpl; [reflexivity|].
  intros H. rewrite dict_get_set.
  destruct (String.eqb_spec k k0) as [->|Hne]; [tauto|].
  rewrite IH by tauto. reflexivity.
Qed.

(** X14.  [calculate_realpower] applied to its own result changes
    nothing. *)
Theorem calculate_realpower_is_idempotent :
  forall d : dict string,
    calculate_realpower UPS_REALPOWER_NOMINAL
                        (calculate_realpower UPS_REALPOWER_NOMINAL d)
    = calculate_realpower UPS_REALPOWER_NOMINAL d.
Proof.
  intros d.
  destruct (calculate_realpower_cases d)
    as [E|[load [nominal [_ [Hload [Hnom [Hl [Hn E]]]]]]]].
  - rewrite E. exact E.
  - rewrite E.
    set (s := str_round2 (nominal * load / 100)) in *.
    set (d' := dict_set underscore_key s (dict_set dot_key s d)).
    assert (Hcur : current_value d' = Some s).
    { unfold current_value, d'. simpl. rewrite !dict_get_set. reflexivity. }
    assert (Hload' : load_percent d' = Some load).
    { rewrite <- Hload. unfold load_percent, load_value, d'.
      rewrite !first_present_set; [reflexivity|..];
        simpl; unfold dot_key, underscore_key; intuition discriminate. }
    assert (Hnom' : nominal_power UPS_REALPOWER_NOMINAL d'
                    = Some (Finite nominal)).
    { rewrite <- Hnom. unfold nominal_power, nominal_value, d'.
      rewrite !first_present_set; [reflexivity|..];
        simpl; unfold dot_key, underscore_key; intuition discriminate. }
    assert (Hs : float_of_string s = Some (round2 (nominal * load / 100))).
    { apply float_of_str_round2, realpower_nonneg; assumption. }
    unfold calculate_realpower at 1. rewrite Hcur, Hs, Hload', Hnom'.
    cbn [option_map].
    destruct (Qeq_bool _ 0); [|reflexivity].
    rewrite (proj2 (Qle_bool_false load 0) Hl).
    rewrite (proj2 (Qle_bool_false nominal 0) Hn). cbn [negb andb].
    fold s.
    assert (Hd : dict_get dot_key d' = Some s)
      by (unfold d'; rewrite !dict_get_set; reflexivity).
    rewrite (dict_set_same dot_key s d' Hd).
    apply dict_set_same. unfold d'. rewrite dict_get_set. reflexivity.
Qed.

End RealPowerKept.

(** ** The hourly buffer *)

Section HourlyBuffer.
Import Py Cache.
Variable utcoffset : Z.
Variable model_columns : string -> bool.

Ltac same_cache :=
  unfold set_hourly_data, set_next_hour, set_buffer, set_next_save_time,
    set_last_daily_aggregation;
  cbn; repeat split; try reflexivity; eexists; reflexivity.

Lemma hourly_step_hourly_data fl c db averages t d now h :
  let r := hourly_step utcoffset fl c db averages t d now in
  exists h',
    hourly_step utcoffset fl (set_hourly_data c h) db averages t d now
    = (fst (fst r), set_hourly_data (snd (fst r)) h', snd r).
Proof.
  unfold hourly_step. cbn [next_hour set_hourly_data hourly_data].
  destruct (dict_get "ups_realpower" averages); [|same_cache].
  destruct (next_hour c) as [nh|]; [|same_cache].
  destruct (nh <=? now); [|same_cache].
  destruct (query_raises fl); [same_cache|].
  match goal with |- context [match ?l with [] => _ | _ :: _ => _ end] =>
    destruct l end; [same_cache|].
  destruct (py_sum _) as [tot|]; same_cache.
Qed.

Lemma should_aggregate_daily_hourly_data c now h :
  should_aggregate_daily utcoffset (set_hourly_data c h) now
  = (fst (should_aggregate_daily utcoffset c now),
     set_hourly_data (snd (should_aggregate_daily utcoffset c now)) h).
Proof.
  unfold should_aggregate_daily.
  cbn [last_daily_aggregation set_hourly_data].
  destruct (_ && _); [|reflexivity].
  destruct (last_daily_aggregation c) as [d|]; [|reflexivity].
  destruct (d =? _); reflexivity.
Qed.

Lemma init_hour_hourly_data c now h :
  match next_hour (set_hourly_data c h) with
  | None => set_next_hour (set_hourly_data c h)
                          (Some (get_next_hour utcoffset now))
  | Some _ => set_hourly_data c h
  end
  = set_hourly_data
      match next_hour c with
      | None => set_next_hour c (Some (get_next_hour utcoffset now))
      | Some _ => c
      end h.
Proof.
  change (next_hour (set_hourly_data c h)) with (next_hour c).
  destruct (next_hour c) eqn:E; [reflexivity|].
  unfold set_next_hour, set_hourly_data. cbn. reflexivity.
Qed.

(** X10.  The hourly buffer is only written: the result of a flush, the
    store that it leaves and every other field of the cache are the same
    whatever the hourly buffer holds. *)
Theorem hourly_buffer_is_write_only :
  forall (fl : faults) (c : UPSDataCache) (db : store) (now : timestamp)
         (h : list (timestamp * value)),
    let r := calculate_and_save_averages utcoffset model_columns
                                         fl c db now in
    let r' := calculate_and_save_averages utcoffset model_columns
                                          fl (set_hourly_data c h) db now in
    fst (fst r') = fst (fst r) /\ snd r' = snd r /\
    exists h', snd (fst r') = set_hourly_data (snd (fst r)) h'.
Proof.
  intros fl c db now h r r'. subst r r'.
  unfold calculate_and_save_averages.
  rewrite (init_hour_hourly_data c now h).
  set (c0 := match next_hour c with
             | None => set_next_hour c (Some (get_next_hour utcoffset now))
             | Some _ => c
             end).
  change (is_save_time (set_hourly_data c0 h) now) with (is_save_time c0 now).
  change (calculate_averages (set_hourly_data c0 h))
    with (calculate_averages c0).
  change (next_save_time (set_hourly_data c0 h)) with (next_save_time c0).
  destruct (negb (is_save_time c0 now)); [same_cache|].
  destruct (calculate_averages c0) as [[|kv averages]|]; [same_cache| |same_cache].
  destruct (next_save_time c0) as [t|]; [|same_cache].
  set (d0 := mkRecord t (filter (fun kv0 => model_columns (fst kv0))
                                (kv :: averages))).
  destruct (hourly_step_hourly_data fl c0 db (kv :: averages) t d0 now h)
    as [h1 Eh].
  rewrite Eh.
  destruct (hourly_step utcoffset fl c0 db (kv :: averages) t d0 now)
    as [[raised c1] d1]. cbn [fst snd].
  destruct raised; [same_cache|].
  destruct (commit_raises fl); [same_cache|].
  change (set_buffer (set_hourly_data c1 h1) [] None)
    with (set_hourly_data (set_buffer c1 [] None) h1).
  change (set_next_save_time (set_hourly_data (set_buffer c1 [] None) h1)
                             (Some (get_next_minute utcoffset now)))
    with (set_hourly_data
            (set_next_save_time (set_buffer c1 [] None)
                                (Some (get_next_minute utcoffset now))) h1).
  rewrite should_aggregate_daily_hourly_data.
  destruct (should_aggregate_daily utcoffset _ now) as [daily c3].
  cbn [fst snd]. destruct daily; same_cache.
Qed.

End HourlyBuffer.

(** ** Rows of the event store *)

Section EventRows.
Import Events.
Variable UPS_HOST : string.

Lemma close_at_not_open name t e :
  open_of name e = false -> close_at name t e = e.
Proof. unfold close_at. intros ->. reflexivity. Qed.

Lemma close_all_closed name t db :
  open_count name db = 0%nat -> map (close_at name t) db = db.
Proof.
  unfold open_count. induction db as [|e db IH]; simpl; [reflexivity|].
  destruct (open_of name e) eqn:E; [discriminate|].
  intros H. rewrite (close_at_not_open name t e E), (IH H). reflexivity.
Qed.

(** X18.  With a database that works, [close_previous_events] returns the
    number of open events of the UPS and keeps the number of rows; a row
    that is not an open event of the UPS stays as it is, and every other
    row of the result is an open event of the UPS with the end [t]; a
    second call closes nothing and returns 0.  When the database raises,
    the call returns 0 and leaves the table. *)
Theorem close_previous_events_is_exact :
  forall (db : table) (name : string) (t : timestamp),
    let r := close_previous_events false db name t in
    fst r = Z.of_nat (open_count name db) /\
    List.length (snd r) = List.length db /\
    (forall e, In e db -> open_of name e = false -> In e (snd r)) /\
    (forall e', In e' (snd r) ->
                In e' db \/ exists e, In e db /\ open_of name e = true /\
                                      e' = set_end t e) /\
    (forall t', close_previous_events false (snd r) name t' = (0, snd r)) /\
    close_previous_events true db name t = (0, db).
Proof.
  intros db name t r. subst r. unfold close_previous_events. cbn [fst snd].
  split; [reflexivity|]. split; [apply length_map|].
  split; [|split; [|split; [|reflexivity]]].
  - intros e Hin Ho. apply in_map_iff. exists e.
    split; [apply close_at_not_open, Ho|exact Hin].
  - intros e' Hin. apply in_map_iff in Hin as [e [<- Hin]].
    unfold close_at. destruct (open_of name e) eqn:E; [right|left; exact Hin].
    exists e. auto.
  - intros t'.
    pose proof (open_count_closed_same name t db) as H0.
    unfold open_count in H0. rewrite H0.
    rewrite (close_all_closed name t' _ (open_count_closed_same name t db)).
    reflexivity.
Qed.

Lemma floor_second_le a b :
  a <= b -> a mod second = 0 -> a <= replace_microsecond_0 b.
Proof.
  intros Hab Ha. unfold replace_microsecond_0.
  pose proof (Z.mod_pos_bound b second ltac:(reflexivity)) as Hb.
  pose proof (Z.div_mod a second ltac:(discriminate)) as Ea.
  pose proof (Z.div_mod b second ltac:(discriminate)) as Eb.
  rewrite Ha in Ea.
  assert (a / second <= b / second) by (apply Z.div_le_mono; [reflexivity|lia]).
  unfold second in *. lia.
Qed.

Lemma floor_second_mod b : replace_microsecond_0 b mod second = 0.
Proof.
  unfold replace_microsecond_0.
  rewrite (Z.div_mod b second) at 1 by discriminate.
  replace (second * (b / second) + b mod second - b mod second)
    with ((b / second) * second) by lia.
  apply Z.mod_mul. discriminate.
Qed.

(** X19.  If every row begins at its timestamp, on a whole second, ends on a
    whole second that is not earlier when it has an end, and is not later
    than the clock, then the same holds after an event has been recorded,
    whatever the database does, and every row with an end lasts a whole
    number of seconds that is not negative. *)
Theorem recorded_events_are_whole_second_intervals :
  forall (fl : session) (clock : timestamp) (db : table) (name ty : string),
    (forall e, In e db -> Rows.well_timed e) ->
    (forall e, In e db -> timestamp_tz e <= clock) ->
    let db' := snd (store_event_in_database UPS_HOST fl clock db name ty) in
    (forall e, In e db' -> Rows.well_timed e) /\
    (forall e, In e db' -> timestamp_tz e <= clock) /\
    (forall e t, In e db' -> timestamp_tz_end e = Some t ->
                 exists n, 0 <= n /\ t - timestamp_tz e = n * second).
Proof.
  intros fl clock db name ty Hw Hc db'.
  set (now := replace_microsecond_0 clock).
  assert (Hnow : now <= clock).
  { unfold now, replace_microsecond_0.
    pose proof (Z.mod_pos_bound clock second ltac:(reflexivity)). lia. }
  assert (Hclosed : forall e, In e (snd (close_previous_events
                                           (close_raises fl) db name now)) ->
                              Rows.well_timed e /\ timestamp_tz e <= clock).
  { unfold close_previous_events. destruct (close_raises fl); cbn [snd].
    - intros e He. split; [apply Hw, He|apply Hc, He].
    - intros e' He'. apply in_map_iff in He' as [e [<- He]].
      destruct (Hw e He) as [Hb [Hm Hend]]. specialize (Hc e He).
      unfold close_at. destruct (open_of name e);
        [|split; [exact (conj Hb (conj Hm Hend))|exact Hc]].
      split; [|exact Hc]. unfold Rows.well_timed, set_end; cbn.
      split; [exact Hb|]. split; [exact Hm|].
      intros t' [= <-].
      split; [apply floor_second_le; assumption|apply floor_second_mod]. }
  assert (Hall : forall e, In e db' ->
                           Rows.well_timed e /\ timestamp_tz e <= clock).
  { subst db'. unfold store_event_in_database. fold now.
    revert Hclosed.
    destruct (close_previous_events (close_raises fl) db name now)
      as [n db1]. cbn [snd]. intros Hclosed.
    destruct (insert_raises fl); cbn [snd]; [exact Hclosed|].
    intros e He. apply in_app_or in He as [He|[<-|[]]]; [apply Hclosed, He|].
    split; [|exact Hnow].
    unfold Rows.well_timed, new_event; cbn.
    split; [reflexivity|]. split; [apply floor_second_mod|discriminate]. }
  split; [intros e He; apply Hall, He|].
  split; [intros e He; apply Hall, He|].
  intros e t He Ht. destruct (Hall e He) as [[_ [Hm Hend]] _].
  destruct (Hend t Ht) as [Hle Hmt].
  exists ((t - timestamp_tz e) / second).
  pose proof (Z.div_mod (t - timestamp_tz e) second ltac:(discriminate)) as E.
  assert (Hz : (t - timestamp_tz e) mod second = 0).
  { rewrite Zminus_mod, Hmt, Hm. reflexivity. }
  rewrite Hz in E. split; [apply Z.div_pos; [lia|reflexivity]|lia].
Qed.

End EventRows.

(** ** Lookups of the notifier *)

Section Letters.
Import Py.

Lemma upper_lower_ascii c : upper_ascii (lower_ascii c) = upper_ascii c.
Proof. destruct c as [[] [] [] [] [] [] [] []]; reflexivity. Qed.

Lemma lower_upper_ascii c : lower_ascii (upper_ascii c) = lower_ascii c.
Proof. destruct c as [[] [] [] [] [] [] [] []]; reflexivity. Qed.

Lemma upper_upper_ascii c : upper_ascii (upper_ascii c) = upper_ascii c.
Proof. destruct c as [[] [] [] [] [] [] [] []]; reflexivity. Qed.

Lemma lower_lower_ascii c : lower_ascii (lower_ascii c) = lower_ascii c.
Proof. destruct c as [[] [] [] [] [] [] [] []]; reflexivity. Qed.

Lemma map_string_map_string f g s :
  map_string f (map_string g s) = map_string (fun c => f (g c)) s.
Proof. induction s as [|c s IH]; simpl; [|rewrite IH]; reflexivity. Qed.

Lemma map_string_ext f g s :
  (forall c, f c = g c) -> map_string f s = map_string g s.
Proof.
  intros H. induction s as [|c s IH]; simpl; [|rewrite IH, H]; reflexivity.
Qed.

Lemma upper_lower s : upper (lower s) = upper s.
Proof.
  unfold upper, lower. rewrite map_string_map_string.
  apply map_string_ext, upper_lower_ascii.
Qed.

Lemma lower_upper s : lower (upper s) = lower s.
Proof.
  unfold upper, lower. rewrite map_string_map_string.
  apply map_string_ext, lower_upper_ascii.
Qed.

Lemma upper_upper s : upper (upper s) = upper s.
Proof.
  unfold upper. rewrite map_string_map_string.
  apply map_string_ext, upper_upper_ascii.
Qed.

Lemma lower_lower s : lower (lower s) = lower s.
Proof.
  unfold lower. rewrite map_string_map_string.
  apply map_string_ext, lower_lower_ascii.
Qed.

(** Two spellings have the same lower case exactly when they have the same
    upper case. *)
Lemma lower_eqb_upper s t :
  String.eqb (lower s) (lower t) = String.eqb (upper s) (upper t).
Proof.
  destruct (String.eqb_spec (lower s) (lower t)) as [E|N];
    destruct (String.eqb_spec (upper s) (upper t)) as [E'|N'];
    try reflexivity; exfalso.
  - apply N'. rewrite <- (upper_lower s), <- (upper_lower t), E. reflexivity.
  - apply N. rewrite <- (lower_upper s), <- (lower_upper t), E'. reflexivity.
Qed.

End Letters.

Section Lookups.
Import Py Events.
Variable UPS_HOST : string.

(** X20.  The notification settings are looked up by the upper case of the
    event type and the ntfy configurations by its lower case: both lookups
    give the same rows for every spelling of an event type in ASCII
    letters.  The event row keeps the spelling that it was given. *)
Theorem lookups_ignore_case :
  forall (w : world) (ty : string),
    get_enabled_notifications w (upper ty) = get_enabled_notifications w ty /\
    get_enabled_notifications w (lower ty) = get_enabled_notifications w ty /\
    get_enabled_ntfy_configs w (upper ty) = get_enabled_ntfy_configs w ty /\
    get_enabled_ntfy_configs w (lower ty) = get_enabled_ntfy_configs w ty /\
    (forall db name now,
        event_type (new_event UPS_HOST db name ty now) = ty).
Proof.
  intros w ty. unfold get_enabled_notifications, get_enabled_ntfy_configs.
  rewrite upper_upper, upper_lower, lower_upper, lower_lower.
  repeat split; reflexivity.
Qed.

Lemma ntfy_column_some s col :
  ntfy_column ("notify_" ++ s)%string = Some col ->
  In s Rows.ntfy_event_types.
Proof.
  unfold ntfy_column, Rows.ntfy_event_types. cbn [String.append String.eqb].
  rewrite !Ascii.eqb_refl.
  repeat match goal with
         | |- context [String.eqb s ?x] =>
             destruct (String.eqb_spec s x) as [->|?];
             [intros _; simpl; tauto|]
         end.
  discriminate.
Qed.

Lemma no_push_in_mails w db name ty t l i o :
  ~ In (NtfySend i o) (map (send_email_notification w db name ty t) l).
Proof.
  intros H. apply in_map_iff in H as [x [H _]]. discriminate H.
Qed.

(** X21.  A dispatch sends an ntfy notification only for an event type whose
    lower case is one of the nine [notify_] columns.  For [FSD], the type
    that [parse_input_args] gives to a forced shutdown, it never sends
    one. *)
Theorem ntfy_needs_a_column :
  forall (w : world) (clock clock_mail : timestamp) (db : table)
         (name ty : string),
    (forall i o,
        In (NtfySend i o)
           (snd (process_ups_event UPS_HOST w clock clock_mail db name ty)) ->
        In (lower ty) Rows.ntfy_event_types) /\
    (forall i o,
        ~ In (NtfySend i o)
             (snd (process_ups_event UPS_HOST w clock clock_mail db name
                                     "FSD"))).
Proof.
  assert (H : forall w clock clock_mail db name ty i o,
             In (NtfySend i o)
                (snd (process_ups_event UPS_HOST w clock clock_mail db name ty)) ->
             In (lower ty) Rows.ntfy_event_types).
  { intros w clock clock_mail db name ty i o.
    unfold process_ups_event.
    destruct (store_event_in_database UPS_HOST (faults w) clock db name ty)
      as [stored db1].
    destruct stored; cbn [negb];
      [|cbn [snd]; intros [Hd|[]]; discriminate Hd].
    assert (Hp : get_enabled_ntfy_configs w ty <> [] ->
                 In (lower ty) Rows.ntfy_event_types).
    { unfold get_enabled_ntfy_configs.
      destruct (HAS_NTFY w); [|congruence].
      destruct (NtfyConfigModel w); [|congruence].
      destruct (ntfy_column _) as [col|] eqn:Ec; [|congruence].
      intros _. eapply ntfy_column_some, Ec. }
    destruct (get_enabled_notifications w ty) as [|n ns],
      (get_enabled_ntfy_configs w ty) as [|c cs], (HAS_WEBHOOK w);
      cbn [snd]; intros [Hd|Hin]; try discriminate Hd;
      try (apply Hp; discriminate);
      try (destruct Hin as [Hd|[]]; discriminate Hd);
      try destruct Hin.
    - destruct (verify_email_config w); [|destruct Hin as [Hd|[]]; discriminate Hd].
      apply in_app_or in Hin as [Hin|[Hd|[]]]; [|discriminate Hd].
      exfalso. revert Hin.
      apply (no_push_in_mails w db1 name ty clock_mail (n :: ns)).
    - destruct (verify_email_config w); [|destruct Hin].
      rewrite app_nil_r in Hin. exfalso. revert Hin.
      apply (no_push_in_mails w db1 name ty clock_mail (n :: ns)). }
  intros w clock clock_mail db name ty. split; [apply H|].
  intros i o Hin. apply H in Hin. simpl in Hin.
  intuition discriminate.
Qed.

Lemma comm_duration_aware raises db name ty t :
  comm_duration raises db name ty (Aware t) = ups_info_duration.
Proof.
  unfold comm_duration.
  destruct (String.eqb ty "ONLINE"); [reflexivity|].
  destruct (String.eqb ty "COMMOK"); [|reflexivity].
  destruct raises; [reflexivity|].
  destruct (first_open_event db name "COMMBAD"); reflexivity.
Qed.

(** X22.  Whatever the table holds and whatever the event type, the event
    data that [send_email_notification] hands to the mailer has ["0 min"]
    as battery duration and as communication duration: its [now] is aware,
    the columns are naive, and the handler of the [TypeError] keeps the
    defaults. *)
Theorem mail_never_reports_a_duration :
  forall (w : world) (db : table) (name ty : string) (clock : timestamp)
         (config_id : Z),
    send_email_notification w db name ty clock config_id
    = EmailSend config_id "0 min" "0 min" (email_send w config_id).
Proof.
  intros. unfold send_email_notification.
  rewrite battery_duration_aware, comm_duration_aware. reflexivity.
Qed.

(** X23.  The rows that the notifier selects for an event type are those for
    which [is_event_enabled] answers [True] for the type in upper case.
    For a spelling of one of the nine types that is not in upper case,
    [is_event_enabled] answers [False]. *)
Theorem is_event_enabled_is_the_query_in_upper_case :
  forall (w : world) (rows : list NtfyConfig) (ty : string),
    (HAS_NTFY w = true -> NtfyConfigModel w = Some rows ->
     get_enabled_ntfy_configs w ty
     = filter (fun c => Orm.is_event_enabled c (upper ty)) rows) /\
    (forall c, In (lower ty) Rows.ntfy_event_types ->
               upper ty <> ty -> Orm.is_event_enabled c ty = false).
Proof.
  intros w rows ty. split.
  - intros Hn Hm. unfold get_enabled_ntfy_configs. rewrite Hn, Hm.
    unfold ntfy_column, Orm.is_event_enabled.
    cbn [String.append String.eqb]. rewrite !Ascii.eqb_refl.
    change "onbatt" with (lower "ONBATT").
    change "online" with (lower "ONLINE").
    change "lowbatt" with (lower "LOWBATT").
    change "commok" with (lower "COMMOK").
    change "commbad" with (lower "COMMBAD").
    change "shutdown" with (lower "SHUTDOWN").
    change "replbatt" with (lower "REPLBATT").
    change "nocomm" with (lower "NOCOMM").
    change "noparent" with (lower "NOPARENT").
    rewrite !lower_eqb_upper.
    change (upper "ONBATT") with "ONBATT".
    change (upper "ONLINE") with "ONLINE".
    change (upper "LOWBATT") with "LOWBATT".
    change (upper "COMMOK") with "COMMOK".
    change (upper "COMMBAD") with "COMMBAD".
    change (upper "SHUTDOWN") with "SHUTDOWN".
    change (upper "REPLBATT") with "REPLBATT".
    change (upper "NOCOMM") with "NOCOMM".
    change (upper "NOPARENT") with "NOPARENT".
    repeat match goal with
           | |- context [String.eqb (upper ty) ?x] =>
               destruct (String.eqb (upper ty) x);
               [apply filter_ext; intros c; destruct (_ c); reflexivity|]
           end.
    clear. induction rows as [|c rows IH]; simpl; [reflexivity|exact IH].
  - intros c Hin Hne. unfold Orm.is_event_enabled.
    repeat match goal with
           | |- context [String.eqb ty ?x] =>
               destruct (String.eqb_spec ty x) as [->|?];
               [exfalso; apply Hne; reflexivity|]
           end.
    reflexivity.
Qed.

End Lookups.

(** ** Arguments of the notifier *)

Section Sentences.
Import Py Text Events Notifier.
Variable UPS_HOST : string.

Lemma strip_prefix_app p s r : strip_prefix p s = Some r -> s = (p ++ r)%string.
Proof.
  revert s. induction p as [|a p IH]; intros s; simpl.
  - intros [= ->]. reflexivity.
  - destruct s as [|b s]; [discriminate|].
    destruct (Ascii.eqb_spec a b) as [->|]; [|discriminate].
    intros H. rewrite (IH s H). reflexivity.
Qed.

Lemma group_then_some k s g :
  group_then k s = Some g ->
  g <> EmptyString /\
  forall_chars (fun c => negb (is_space c)) g = true /\
  exists rest, s = (g ++ rest)%string /\ k rest = true.
Proof.
  revert g. induction s as [|c s IH]; intros g; simpl; [discriminate|].
  destruct (is_space c) eqn:Ec; [discriminate|].
  destruct (group_then k s) as [g'|].
  - intros [= <-]. destruct (IH g' eq_refl) as [_ [Hg [rest [-> Hk]]]].
    split; [discriminate|]. split; [simpl; rewrite Ec, Hg; reflexivity|].
    exists rest. split; [reflexivity|exact Hk].
  - destruct (k s) eqn:Ek; [|discriminate]. intros [= <-].
    split; [discriminate|]. split; [simpl; rewrite Ec; reflexivity|].
    exists s. split; [reflexivity|exact Ek].
Qed.

Lemma blanks_then_group_some k s g :
  blanks_then_group k s = Some g ->
  exists blanks r,
    s = (blanks ++ r)%string /\ blanks <> EmptyString /\
    forall_chars is_space blanks = true /\ k r = Some g.
Proof.
  induction s as [|c s IH]; simpl; [discriminate|].
  destruct (is_space c) eqn:Ec; [|discriminate].
  destruct (blanks_then_group k s) as [g'|].
  - intros [= <-]. destruct (IH eq_refl) as [b [r [-> [_ [Hb Hk]]]]].
    exists (String c b), r. split; [reflexivity|]. split; [discriminate|].
    split; [simpl; rewrite Ec, Hb; reflexivity|exact Hk].
  - intros Hk. exists (String c EmptyString), s.
    split; [reflexivity|]. split; [discriminate|].
    split; [simpl; rewrite Ec; reflexivity|exact Hk].
Qed.

Lemma search_some tail s g :
  search tail s = Some g ->
  exists blanks rest,
    s = ("UPS" ++ blanks ++ g ++ rest)%string /\
    blanks <> EmptyString /\ forall_chars is_space blanks = true /\
    g <> EmptyString /\
    forall_chars (fun c => negb (is_space c)) g = true /\
    matches tail rest = true.
Proof.
  unfold search. destruct (strip_prefix "UPS" s) as [r|] eqn:Ep; [|discriminate].
  intros H. apply strip_prefix_app in Ep.
  apply blanks_then_group_some in H as [b [r' [-> [Hb [Hs Hg]]]]].
  apply group_then_some in Hg as [Hne [Hg [rest [-> Hk]]]].
  exists b, rest. repeat split; assumption.
Qed.

Lemma first_match_cases ps s :
  first_match ps s = (None, None) \/
  exists tail n t, In (tail, t) ps /\ search tail s = Some n /\
                   first_match ps s = (Some n, Some t).
Proof.
  induction ps as [|[tail ty] ps IH]; simpl; [left; reflexivity|].
  destruct (search tail s) as [n|] eqn:E.
  - right. exists tail, n, ty. auto.
  - destruct IH as [IH|[tail' [n [t [Hin [Hs Hf]]]]]]; [left; exact IH|].
    right. exists tail', n, t. auto.
Qed.

(** X24.  [parse_input_args] returns a name and a type, or neither.  From
    two arguments on it returns the first two as they are.  With one
    argument it returns a name only for a text made of [UPS], blanks, the
    name and a rest: the name is not empty and holds no blank, and the type
    is one of the ten types of the patterns.  When it returns nothing,
    there was at most one argument. *)
Theorem parse_input_args_is_well_formed :
  forall args : list string,
    match parse_input_args args with
    | (Some n, Some t) =>
        (exists rest, args = n :: t :: rest) \/
        (exists blanks rest,
            args = [("UPS" ++ blanks ++ n ++ rest)%string] /\
            blanks <> EmptyString /\ forall_chars is_space blanks = true /\
            n <> EmptyString /\
            forall_chars (fun c => negb (is_space c)) n = true /\
            In t sentence_types)
    | (None, None) => (List.length args <= 1)%nat
    | _ => False
    end.
Proof.
  intros [|a [|b rest]]; unfold parse_input_args;
    [simpl; lia| |left; exists rest; reflexivity].
  destruct (startswith "UPS " a); [|simpl; lia].
  destruct (first_match_cases event_patterns a)
    as [->|[tail [n [t [Hin [Hs ->]]]]]]; [simpl; lia|].
  right. apply search_some in Hs as [bl [r [-> [H1 [H2 [H3 [H4 _]]]]]]].
  exists bl, r. repeat split; try assumption.
  unfold sentence_types. apply in_map_iff. exists (tail, t). auto.
Qed.

Lemma group_then_name k name sp rest :
  name <> EmptyString ->
  forall_chars (fun c => negb (is_space c)) name = true ->
  is_space sp = true -> k (String sp rest) = true ->
  group_then k (name ++ String sp rest)%string = Some name.
Proof.
  intros Hne Hn Hsp Hk. induction name as [|c name IH]; [congruence|].
  simpl in Hn. apply andb_prop in Hn as [Hc Hn]. apply negb_true_iff in Hc.
  simpl. rewrite Hc. destruct name as [|c' name'].
  - simpl. rewrite Hsp, Hk. reflexivity.
  - rewrite IH; [reflexivity|discriminate|exact Hn].
Qed.

Lemma blanks_then_group_one k c r :
  is_space c = false ->
  blanks_then_group k (String " " (String c r)) = k (String c r).
Proof. intros H. simpl. rewrite H. reflexivity. Qed.

(** X25.  A sentence made of [UPS ], a name and a text that starts with a
    blank and matches [.*on\s+battery] is read as that name and [ONBATT],
    for every name that is not empty and holds no blank; so is
    [UPS <name> on battery].  The patterns are tried in order, and the name
    is the longest cut that lets a pattern match:
    [UPS slow battery needs replacing] is read as [s] and [LOWBATT],
    [UPS ups1 forced shutdown in progress] as [ups1] and [FSD]. *)
Theorem on_battery_sentence_gives_the_name :
  (forall (name rest : string) (sp : ascii),
      name <> EmptyString ->
      forall_chars (fun c => negb (is_space c)) name = true ->
      is_space sp = true ->
      matches [Anything; Word "on"; Blanks; Word "battery"] (String sp rest)
      = true ->
      parse_input_args [("UPS " ++ name ++ String sp rest)%string]
      = (Some name, Some "ONBATT")) /\
  (forall name : string,
      name <> EmptyString ->
      forall_chars (fun c => negb (is_space c)) name = true ->
      parse_input_args [("UPS " ++ name ++ " on battery")%string]
      = (Some name, Some "ONBATT")) /\
  parse_input_args ["UPS slow battery needs replacing"]
  = (Some "s", Some "LOWBATT") /\
  parse_input_args ["UPS ups1 forced shutdown in progress"]
  = (Some "ups1", Some "FSD").
Proof.
  assert (G : forall (name rest : string) (sp : ascii),
             name <> EmptyString ->
             forall_chars (fun c => negb (is_space c)) name = true ->
             is_space sp = true ->
             matches [Anything; Word "on"; Blanks; Word "battery"]
                     (String sp rest) = true ->
             parse_input_args [("UPS " ++ name ++ String sp rest)%string]
             = (Some name, Some "ONBATT")).
  { intros name rest sp Hne Hn Hsp Hm.
    unfold parse_input_args.
    change (startswith "UPS " ("UPS " ++ name ++ String sp rest)) with true.
    cbv iota. unfold event_patterns, first_match, search.
    change (strip_prefix "UPS" ("UPS " ++ name ++ String sp rest))
      with (Some (String " " (name ++ String sp rest))).
    destruct name as [|c name']; [congruence|].
    assert (Hc : is_space c = false).
    { simpl in Hn. apply andb_prop in Hn as [Hc _].
      apply negb_true_iff in Hc. exact Hc. }
    change (String " " (String c name' ++ String sp rest))
      with (String " " (String c (name' ++ String sp rest))).
    rewrite (blanks_then_group_one _ c _ Hc).
    change (String c (name' ++ String sp rest))
      with (String c name' ++ String sp rest)%string.
    rewrite (group_then_name _ (String c name') sp rest Hne Hn Hsp Hm).
    reflexivity. }
  split; [exact G|]. split.
  - intros name Hne Hn. apply (G name "on battery" " "%char Hne Hn);
      reflexivity.
  - split; vm_compute; reflexivity.
Qed.

Lemma parse_input_args_both args :
  parse_input_args args = (None, None) \/
  exists n t, parse_input_args args = (Some n, Some t).
Proof.
  destruct args as [|a [|b rest]]; unfold parse_input_args;
    [left; reflexivity| |right; eauto].
  destruct (startswith "UPS " a); [|left; reflexivity].
  destruct (first_match_cases event_patterns a)
    as [->|[tail [n [t [_ [_ ->]]]]]]; [left; reflexivity|right; eauto].
Qed.

Lemma process_ups_event_result w clock clock_mail db n t :
  let r := process_ups_event UPS_HOST w clock clock_mail db n t in
  fst (fst r) = negb (insert_raises (faults w)) /\
  snd (fst r)
  = snd (store_event_in_database UPS_HOST (faults w) clock db n t).
Proof.
  unfold process_ups_event.
  assert (E : fst (store_event_in_database UPS_HOST (faults w) clock db n t)
              = negb (insert_raises (faults w))).
  { unfold store_event_in_database.
    destruct (close_previous_events _ _ _ _) as [k d0].
    destruct (insert_raises (faults w)); reflexivity. }
  destruct (store_event_in_database UPS_HOST (faults w) clock db n t)
    as [stored db1]. cbn [fst snd] in *. subst stored.
  destruct (insert_raises (faults w)); cbn [negb fst snd]; [auto|].
  destruct (get_enabled_notifications w t), (get_enabled_ntfy_configs w t),
    (HAS_WEBHOOK w); cbn [fst snd]; auto.
Qed.

(** X26.  [main] exits with 0 or with 1; with 0 exactly when the arguments
    give a name and a type that are not empty and the insert of the event
    does not raise.  When the arguments give no name or no type, it exits
    with 1, leaves the table and sends nothing; otherwise the table is the
    one that the recording of the event leaves. *)
Theorem notifier_exit_code :
  forall (w : world) (clock clock_mail : timestamp) (db : table)
         (args : list string),
    let r := main UPS_HOST w clock clock_mail db args in
    (fst (fst r) = 0 \/ fst (fst r) = 1) /\
    (fst (fst r) = 0 <->
     exists n t, parse_input_args args = (Some n, Some t) /\
                 n <> EmptyString /\ t <> EmptyString /\
                 insert_raises (faults w) = false) /\
    ((forall n t, parse_input_args args = (Some n, Some t) ->
                  n = EmptyString \/ t = EmptyString) ->
     r = (1, db, [])) /\
    (forall n t, parse_input_args args = (Some n, Some t) ->
                 n <> EmptyString -> t <> EmptyString ->
                 snd (fst r)
                 = snd (store_event_in_database UPS_HOST (faults w) clock db
                                                n t)).
Proof.
  intros w clock clock_mail db args r. subst r. unfold main.
  destruct (parse_input_args_both args) as [->|[n [t ->]]].
  - cbn. split; [right; reflexivity|]. split; [|split].
    + split; [discriminate|]. intros [n [t [H _]]]. discriminate H.
    + reflexivity.
    + intros n t H. discriminate H.
  - unfold Reader.unset.
    destruct (String.eqb_spec n "") as [->|Hn]; cbn [orb].
    { cbn. split; [right; reflexivity|]. split; [|split].
      - split; [discriminate|]. intros [n' [t' [[= <- <-] [H _]]]]. congruence.
      - reflexivity.
      - intros n' t' [= <- <-] H. congruence. }
    destruct (String.eqb_spec t "") as [->|Ht].
    { cbn. split; [right; reflexivity|]. split; [|split].
      - split; [discriminate|].
        intros [n' [t' [[= <- <-] [_ [H _]]]]]. congruence.
      - reflexivity.
      - intros n' t' [= <- <-] _ H. congruence. }
    destruct (process_ups_event_result w clock clock_mail db n t) as [Hok Hdb].
    destruct (process_ups_event UPS_HOST w clock clock_mail db n t)
      as [[ok db1] actions]. cbn [fst snd] in *. subst ok.
    split; [destruct (insert_raises (faults w)); cbn; auto|].
    split; [|split].
    + split.
      * intros H. exists n, t. repeat split; try assumption.
        destruct (insert_raises (faults w)); [discriminate H|reflexivity].
      * intros [n' [t' [[= <- <-] [_ [_ ->]]]]]. reflexivity.
    + intros H. destruct (H n t eq_refl); contradiction.
    + intros n' t' [= <- <-] _ _. exact Hdb.
Qed.

End Sentences.

(** ** The configuration of the reader *)

Section Configuration.
Import Py Config.
Variable UPS_REALPOWER_NOMINAL : value.

Lemma dict_mem_in {A : Type} k (d : dict A) :
  dict_mem k d = true <-> In k (dict_keys d).
Proof.
  unfold dict_mem, dict_keys. induction d as [|[k0 v0] d IH]; simpl.
  - split; [discriminate|tauto].
  - destruct (String.eqb_spec k0 k) as [->|Hne]; [tauto|].
    rewrite IH. split; [tauto|]. intros [E|H]; [congruence|exact H].
Qed.

Lemma fold_dict_set_mem {A B : Type} (f : B -> string) (g : B -> A)
      (l : list B) (acc : dict A) k :
  dict_mem k acc = true \/ (exists x, In x l /\ f x = k) ->
  dict_mem k (fold_left (fun d x => dict_set (f x) (g x) d) l acc) = true.
Proof.
  revert acc. induction l as [|x l IH]; intros acc H; simpl.
  - destruct H as [H|[x [[] _]]]. exact H.
  - apply IH. unfold dict_mem at 1. rewrite dict_get_set.
    destruct (String.eqb_spec (f x) k) as [E|Hne]; [left; reflexivity|].
    destruct H as [H|[y [[<-|Hin] E]]];
      [left; exact H|contradiction|right; eauto].
Qed.

Lemma transform_mem (raw : dict string) k :
  dict_mem k raw = true ->
  dict_mem (dots_to_underscores k) (Reader.transform raw) = true.
Proof.
  intros H. unfold Reader.transform. apply fold_dict_set_mem. right.
  apply dict_mem_in in H. unfold dict_keys in H.
  apply in_map_iff in H as [[k' v] [E Hin]]. simpl in E. subst k'.
  exists (k, v). split; [exact Hin|reflexivity].
Qed.

Lemma calculate_realpower_mem (d : dict string) k :
  dict_mem k d = true ->
  dict_mem k (Reader.calculate_realpower UPS_REALPOWER_NOMINAL d) = true.
Proof.
  intros H.
  destruct (calculate_realpower_cases UPS_REALPOWER_NOMINAL d)
    as [->|[load [nominal [_ [_ [_ [_ [_ ->]]]]]]]]; [exact H|].
  apply dict_mem_set, dict_mem_set, H.
Qed.

Lemma reader_config_after (cfg : Reader.UPSConfig) run :
  fst (Reader.get_ups_data UPS_REALPOWER_NOMINAL cfg run)
  = if Reader.unset (Reader.command cfg)
    then Reader.mkConfig (Reader.host cfg) (Reader.name cfg)
                         (Some "/usr/bin/upsc")
    else cfg.
Proof.
  unfold Reader.get_ups_data.
  destruct (_ || _); [reflexivity|].
  destruct run as [rc lines err|msg]; [|reflexivity].
  destruct (negb (rc =? 0)); reflexivity.
Qed.

Lemma config_after (cfg : UPSConfig) run :
  fst (Config.get_ups_data UPS_REALPOWER_NOMINAL cfg run)
  = if Reader.unset (command cfg)
    then mkUPSConfig (host cfg) (name cfg) (Some "/usr/bin/upsc")
                     (timeout cfg) (initialized cfg)
    else cfg.
Proof.
  unfold Config.get_ups_data.
  pose proof (reader_config_after (reader cfg) run) as H.
  destruct (Reader.get_ups_data UPS_REALPOWER_NOMINAL (reader cfg) run)
    as [r res]. cbn [fst] in *. subst r.
  unfold reader. cbn [Reader.command Reader.host Reader.name].
  destruct (Reader.unset (command cfg));
    cbn [Reader.command Reader.host Reader.name]; [reflexivity|].
  destruct cfg; reflexivity.
Qed.

(** X16.  [configure] returns what [is_initialized] answers afterwards:
    whether the host, the name and the command are all set.
    [get_ups_data] leaves the host, the name and the timeout, sets the
    command to [/usr/bin/upsc] when there was none, and never changes the
    answer of [is_initialized]: after a configuration without command,
    [get_available_variables] still raises. *)
Theorem get_ups_data_never_initializes :
  forall (h n c : option string) (t : option Z) (run : Reader.run_result),
    let cfg := fst (configure h n c t) in
    let r := Config.get_ups_data UPS_REALPOWER_NOMINAL cfg run in
    snd (configure h n c t) = is_initialized cfg /\
    is_initialized cfg = set h && set n && set c /\
    is_initialized (fst r) = is_initialized cfg /\
    host (fst r) = h /\ name (fst r) = n /\ timeout (fst r) = t /\
    set (command (fst r)) = true /\
    (set c = false ->
     command (fst r) = Some "/usr/bin/upsc" /\
     exists msg, get_available_variables (fst r) run = Raises msg) /\
    (set c = true -> fst r = cfg).
Proof.
  intros h n c t run cfg r. subst r.
  rewrite (config_after cfg run). subst cfg.
  unfold configure, is_initialized, get_available_variables, is_initialized,
    set.
  cbn [fst snd host name command timeout initialized].
  destruct (Reader.unset c) eqn:Ec;
    cbn [fst snd host name command timeout initialized negb andb
         Reader.unset String.eqb];
    rewrite ?Ec, ?andb_false_r, ?andb_true_r; cbn [negb andb];
    rewrite ?andb_diag;
    repeat split; try reflexivity; try discriminate; eauto.
Qed.

(** X17.  With an initialised configuration, [get_available_variables]
    returns the variables read from the output of the status command
    whatever its return code.  When the code is 0, every variable that it
    lists is a key of the sample of [get_ups_data], the dots replaced; when
    the code is not 0, [get_ups_data] raises. *)
Theorem listed_variables_are_in_the_sample :
  forall (cfg : UPSConfig) (returncode : Z) (lines : list string)
         (err : string),
    is_initialized cfg = true ->
    let run := Reader.Completed returncode lines err in
    get_available_variables cfg run
    = Variables (Reader.parse_lines lines) /\
    (returncode = 0 ->
     exists sample,
       snd (Config.get_ups_data UPS_REALPOWER_NOMINAL cfg run)
       = Reader.Ok sample /\
       forall k, dict_mem k (Reader.parse_lines lines) = true ->
                 dict_mem (dots_to_underscores k) sample = true) /\
    (returncode <> 0 ->
     exists msg,
       snd (Config.get_ups_data UPS_REALPOWER_NOMINAL cfg run)
       = Reader.UPSDataError msg).
Proof.
  intros cfg rc lines err Hi run. subst run.
  unfold get_available_variables. rewrite Hi. cbn [negb].
  split; [reflexivity|].
  unfold is_initialized, set in Hi.
  apply andb_prop in Hi as [_ Hi]. apply andb_prop in Hi as [Hi Hc].
  apply andb_prop in Hi as [Hh Hn].
  apply negb_true_iff in Hh, Hn, Hc.
  unfold Config.get_ups_data, Reader.get_ups_data, reader.
  cbn [Reader.command Reader.host Reader.name].
  rewrite Hc. cbn [Reader.host Reader.name]. rewrite Hh, Hn. cbn [orb].
  split.
  - intros ->. cbn [Z.eqb negb snd].
    eexists. split; [reflexivity|].
    intros k Hk. apply transform_mem, calculate_realpower_mem, Hk.
  - intros Hrc. destruct (rc =? 0) eqn:E; [apply Z.eqb_eq in E; contradiction|].
    cbn [negb snd]. eauto.
Qed.

End Configuration.

(** ** Values of the settings file *)

Section SettingValues.
Import Py Text Settings Chars.

Lemma plain_char c :
  plain c = true ->
  is_space c = false /\ Ascii.eqb c "#" = false /\ Ascii.eqb c "." = false
  /\ Ascii.eqb double_quote c = false /\ Ascii.eqb single_quote c = false
  /\ Ascii.eqb (lower_ascii c) "t" = false
  /\ Ascii.eqb (lower_ascii c) "f" = false.
Proof.
  destruct c as [[] [] [] [] [] [] [] []]; intros H;
    try discriminate H; repeat split; reflexivity.
Qed.

Lemma contains_char_none c s :
  forall_chars (fun x => negb (Ascii.eqb x c)) s = true ->
  contains_char c s = false.
Proof.
  induction s as [|x s IH]; simpl; [reflexivity|].
  intros H. apply andb_prop in H as [H1 H2]. apply negb_true_iff in H1.
  rewrite H1, (IH H2). reflexivity.
Qed.

Lemma rstrip_by_none p s :
  forall_chars (fun c => negb (p c)) s = true -> rstrip_by p s = s.
Proof.
  induction s as [|c s IH]; simpl; [reflexivity|].
  intros E. apply andb_prop in E as [E1 E2]. rewrite (IH E2).
  apply negb_true_iff in E1. rewrite E1. destruct s; reflexivity.
Qed.

Lemma lstrip_by_none p s :
  forall_chars (fun c => negb (p c)) s = true -> lstrip_by p s = s.
Proof.
  destruct s as [|c s]; simpl; [reflexivity|].
  intros E. apply andb_prop in E as [E1 _]. apply negb_true_iff in E1.
  rewrite E1. reflexivity.
Qed.

Lemma lstrip_none s :
  forall_chars (fun c => negb (is_space c)) s = true -> lstrip s = s.
Proof.
  destruct s as [|c s]; simpl; [reflexivity|].
  intros E. apply andb_prop in E as [E1 _]. apply negb_true_iff in E1.
  rewrite E1. reflexivity.
Qed.

(** A text of digits and minus signs goes through the first steps of
    [parse_value] unchanged. *)
Lemma parse_value_plain s :
  forall_chars plain s = true -> s <> EmptyString ->
  parse_value s
  = if isdigit s then SInt (digits_value s) else SStr s.
Proof.
  intros Hp Hne. unfold parse_value.
  assert (Hs : strip s = s).
  { unfold strip. rewrite lstrip_none; [apply rstrip_nonspace|];
      revert Hp; apply forall_chars_impl; intros c Hc;
      apply plain_char in Hc as [-> _]; reflexivity. }
  rewrite Hs.
  rewrite (contains_char_none "#" s)
    by (revert Hp; apply forall_chars_impl; intros c Hc;
        apply plain_char in Hc as [_ [-> _]]; reflexivity).
  rewrite (contains_char_none "." s)
    by (revert Hp; apply forall_chars_impl; intros c Hc;
        apply plain_char in Hc as [_ [_ [-> _]]]; reflexivity).
  assert (Hq : strip_by (fun c => Ascii.eqb double_quote c
                                  || Ascii.eqb single_quote c) s = s).
  { unfold strip_by. rewrite lstrip_by_none; [apply rstrip_by_none|];
      revert Hp; apply forall_chars_impl; intros c Hc;
      apply plain_char in Hc as [_ [_ [_ [-> [-> _]]]]]; reflexivity. }
  rewrite Hq.
  destruct s as [|c s]; [congruence|].
  simpl in Hp. apply andb_prop in Hp as [Hc _].
  apply plain_char in Hc as [_ [_ [_ [Hd [_ [Ht Hf]]]]]].
  unfold triple_quote. cbn [strip_prefix]. rewrite Hd.
  cbn [lower map_string String.eqb]. rewrite Ht, Hf. reflexivity.
Qed.

Lemma digits_plain s : all_digits s = true -> forall_chars plain s = true.
Proof.
  rewrite all_digits_chars. apply forall_chars_impl.
  intros c Hc. unfold plain. rewrite Hc. reflexivity.
Qed.

Lemma str_of_nonneg n :
  0 <= n ->
  str_of_int n = NilEmpty.string_of_uint (N.to_uint (Z.to_N n)).
Proof.
  intros Hn. unfold str_of_int. rewrite <- string_of_N.
  destruct n as [|p|p]; try reflexivity. lia.
Qed.

Lemma str_of_neg p :
  str_of_int (Zneg p)
  = String "-" (NilEmpty.string_of_uint (N.to_uint (Npos p))).
Proof.
  unfold str_of_int. rewrite <- string_of_N. reflexivity.
Qed.

(** X27.  [parse_value] reads a text of digits as that integer, so the text
    of an integer that is not negative as that integer; the text of a
    negative integer is returned as a string.  Blanks and a comment are
    dropped; a negative number with a point is a float. *)
Theorem integers_in_settings :
  (forall s, all_digits s = true -> s <> EmptyString ->
             parse_value s = SInt (digits_value s)) /\
  (forall n, 0 <= n -> parse_value (str_of_int n) = SInt n) /\
  (forall n, n < 0 -> parse_value (str_of_int n) = SStr (str_of_int n)) /\
  parse_value " 60  # seconds" = SInt 60 /\
  parse_value "-5" = SStr "-5" /\
  parse_value "-5.0" = SFloat (-5).
Proof.
  assert (D : forall s, all_digits s = true -> s <> EmptyString ->
                        parse_value s = SInt (digits_value s)).
  { intros s Hd Hne. rewrite parse_value_plain;
      [|apply digits_plain, Hd|exact Hne].
    unfold isdigit. destruct s; [congruence|]. rewrite Hd. reflexivity. }
  split; [exact D|]. split; [|split].
  - intros n Hn. rewrite (str_of_nonneg n Hn).
    rewrite D.
    + rewrite digits_value_uint, DecimalN.Unsigned.of_to.
      rewrite Z2N.id by exact Hn. reflexivity.
    + apply all_digits_uint.
    + destruct (string_of_N_cons (Z.to_N n)) as [c [r [-> _]]]. discriminate.
  - intros [|p|p] Hn; try lia. rewrite str_of_neg.
    rewrite parse_value_plain; [reflexivity| |discriminate].
    simpl. apply digits_plain, all_digits_uint.
  - repeat split; vm_compute; reflexivity.
Qed.

End SettingValues.

(** ** Runtime texts *)

Section FloatLiterals.
Import Py Text Chars.

Lemma split_once_some sep s a b :
  split_once sep s = Some (a, b) -> s = (a ++ String sep b)%string.
Proof.
  revert a. induction s as [|c s IH]; intros a; simpl; [discriminate|].
  destruct (Ascii.eqb_spec c sep) as [->|Hne].
  - intros [= <- <-]. reflexivity.
  - destruct (split_once sep s) as [[a' b']|]; [|discriminate].
    intros [= <- <-]. rewrite (IH a' eq_refl). reflexivity.
Qed.

Lemma digits_float_chars s :
  all_digits s = true -> forall_chars float_char s = true.
Proof.
  rewrite all_digits_chars. apply forall_chars_impl.
  intros c Hc. unfold float_char. rewrite Hc. reflexivity.
Qed.

Lemma split_sign_chars s neg r :
  split_sign s = (neg, r) -> forall_chars float_char r = true ->
  forall_chars float_char s = true.
Proof.
  unfold split_sign. destruct s as [|c s]; [intros [= <- <-]; auto|].
  destruct (Ascii.eqb_spec c "-") as [->|N1].
  { intros [= <- <-] H. simpl. exact H. }
  destruct (Ascii.eqb_spec c "+") as [->|N2].
  { intros [= <- <-] H. simpl. exact H. }
  assert (E : split_sign (String c s) = (false, String c s)).
  { unfold split_sign.
    destruct c as [[] [] [] [] [] [] [] []]; try reflexivity; congruence. }
  unfold split_sign in E. rewrite E. intros [= <- <-] H. exact H.
Qed.

Lemma parse_mantissa_chars m q :
  parse_mantissa m = Some q -> forall_chars float_char m = true.
Proof.
  unfold parse_mantissa.
  destruct (split_once "." m) as [[a b]|] eqn:E.
  - apply split_once_some in E. subst m.
    destruct (all_digits a) eqn:Ea;
      [|destruct a, b; cbn [andb]; discriminate].
    destruct (all_digits b) eqn:Eb;
      [|destruct a, b; cbn [andb]; discriminate].
    intros _. rewrite forall_chars_app. cbn [forall_chars].
    rewrite (digits_float_chars _ Ea), (digits_float_chars _ Eb).
    reflexivity.
  - destruct (all_digits m) eqn:Em;
      [|destruct m; cbn [andb]; discriminate].
    intros _. apply digits_float_chars, Em.
Qed.

Lemma parse_exponent_chars es n :
  parse_exponent es = Some n -> forall_chars float_char es = true.
Proof.
  unfold parse_exponent. destruct (split_sign es) as [neg r] eqn:E.
  destruct r as [|c r]; [discriminate|].
  destruct (all_digits (String c r)) eqn:Ed; [|discriminate].
  intros _. eapply split_sign_chars; [exact E|].
  apply digits_float_chars, Ed.
Qed.

Lemma split_exponent_chars r m e :
  split_exponent r = (m, e) ->
  forall_chars float_char m = true ->
  match e with
  | Some es => forall_chars float_char es = true
  | None => True
  end ->
  forall_chars float_char r = true.
Proof.
  unfold split_exponent.
  destruct (split_once "e" r) as [[a b]|] eqn:E1;
    destruct (split_once "E" r) as [[a' b']|] eqn:E2.
  - destruct (_ <=? _)%nat; intros [= <- <-] Hm He;
      [apply split_once_some in E1; rewrite E1
      |apply split_once_some in E2; rewrite E2];
      rewrite forall_chars_app; cbn [forall_chars]; rewrite Hm, He;
      reflexivity.
  - intros [= <- <-] Hm He. apply split_once_some in E1. rewrite E1.
    rewrite forall_chars_app; cbn [forall_chars]. rewrite Hm, He.
    reflexivity.
  - intros [= <- <-] Hm He. apply split_once_some in E2. rewrite E2.
    rewrite forall_chars_app; cbn [forall_chars]. rewrite Hm, He.
    reflexivity.
  - intros [= <- <-] Hm _. exact Hm.
Qed.

(** What [float] accepts is, blanks apart, made of digits, points, signs
    and exponent marks. *)
Lemma float_of_string_chars s q :
  float_of_string s = Some q -> forall_chars float_char (strip s) = true.
Proof.
  unfold float_of_string.
  destruct (split_sign (strip s)) as [neg r] eqn:Es.
  destruct (split_exponent r) as [m e] eqn:Ee.
  destruct (parse_mantissa m) as [qm|] eqn:Em; [|discriminate].
  intros H. eapply split_sign_chars; [exact Es|].
  eapply split_exponent_chars; [exact Ee|eapply parse_mantissa_chars, Em|].
  destruct e as [es|]; [|exact I].
  destruct (parse_exponent es) as [n|] eqn:En; [|discriminate].
  eapply parse_exponent_chars, En.
Qed.

Lemma lstrip_app a c b :
  is_space c = false ->
  lstrip (a ++ String c b) = (lstrip a ++ String c b)%string.
Proof.
  intros Hc. induction a as [|x a IH]; simpl.
  - rewrite Hc. reflexivity.
  - destruct (is_space x); [exact IH|reflexivity].
Qed.

Lemma rstrip_app_last a c :
  is_space c = false ->
  rstrip (a ++ String c EmptyString) = (a ++ String c EmptyString)%string.
Proof.
  intros Hc. induction a as [|x a IH]; simpl.
  - rewrite Hc. reflexivity.
  - rewrite IH. destruct a; reflexivity.
Qed.

Lemma strip_app_last a c :
  is_space c = false ->
  strip (a ++ String c EmptyString) = (lstrip a ++ String c EmptyString)%string.
Proof.
  intros Hc. unfold strip. rewrite lstrip_app by exact Hc.
  apply rstrip_app_last, Hc.
Qed.

(** A text that ends with a character that no literal holds is refused by
    [float]. *)
Lemma float_of_string_last a c :
  is_space c = false -> float_char c = false ->
  float_of_string (a ++ String c EmptyString) = None.
Proof.
  intros Hs Hc.
  destruct (float_of_string (a ++ String c EmptyString)) as [q|] eqn:E;
    [|reflexivity].
  apply float_of_string_chars in E. rewrite strip_app_last in E by exact Hs.
  rewrite forall_chars_app in E. simpl in E. rewrite Hc in E.
  rewrite andb_false_r in E. discriminate E.
Qed.

End FloatLiterals.

Section RuntimeTexts.
Import Py Text Mail.

Lemma Qle_bool_int a b : Qle_bool (inject_Z a) (inject_Z b) = (a <=? b).
Proof. unfold Qle_bool, inject_Z. simpl. rewrite !Z.mul_1_r. reflexivity. Qed.

Lemma int_of_float_int n : int_of_float (inject_Z n) = n.
Proof. unfold int_of_float, inject_Z. simpl. apply Z.quot_1_r. Qed.


(** X29.  [estimate_runtime_from_charge] answers ["N/A"] for every text that
    ends with a percent sign: [float] is applied to the whole text first
    and raises.  For an integer charge it answers ["N/A"] outside 1..100,
    the charge as minutes below 60, and one hour with the minutes left from
    60 on. *)
Theorem percent_sign_is_never_accepted :
  (forall s : string,
      estimate_runtime_from_charge (Some (VStr (s ++ "%"))) = "N/A") /\
  (forall n : Z,
      estimate_runtime_from_charge (Some (VInt n))
      = if (n <=? 0) || (100 <? n) then "N/A"
        else if n <? 60 then (str_of_int n ++ " min")%string
             else ("1h " ++ str_of_int (n - 60) ++ "m")%string) /\
  estimate_runtime_from_charge None = "N/A" /\
  estimate_runtime_from_charge (Some (VStr "")) = "N/A" /\
  estimate_runtime_from_charge (Some (VStr "85")) = "1h 25m" /\
  estimate_runtime_from_charge (Some (VStr "85%")) = "N/A".
Proof.
  split; [|split; [|repeat split; vm_compute; reflexivity]].
  - intros s. unfold estimate_runtime_from_charge, charge_of, to_float.
    rewrite (float_of_string_last s "%"%char) by reflexivity.
    cbn [option_map]. destruct (is_empty_str _); reflexivity.
  - intros n. unfold estimate_runtime_from_charge, charge_of, to_float.
    cbn [is_empty_str].
    change 0%Q with (inject_Z 0). change 100%Q with (inject_Z 100).
    rewrite !Qle_bool_int, int_of_float_int.
    destruct (n <=? 0) eqn:E0; cbn [orb]; [reflexivity|].
    replace (negb (n <=? 100)) with (100 <? n)
      by (rewrite Z.ltb_antisym; reflexivity).
    destruct (100 <? n) eqn:E1; [reflexivity|].
    destruct (n <? 60) eqn:E2; [reflexivity|].
    apply Z.leb_gt in E0. apply Z.ltb_ge in E1, E2.
    unfold hours_text.
    assert (Hq : n / 60 = 1).
    { symmetry. apply (Z.div_unique n 60 1 (n - 60)); lia. }
    assert (Hr : n mod 60 = n - 60).
    { symmetry. apply (Z.mod_unique n 60 1 (n - 60)); lia. }
    rewrite Hq, Hr. reflexivity.
Qed.


End RuntimeTexts.

(** ** Flushes, lines and assignments *)

Section FlushOutcomes.
Import Py Cache.
Variable utcoffset : Z.
Variable model_columns : string -> bool.
Variable CACHE_SECONDS : Z.
Variable UPS_REALPOWER_NOMINAL : value.

(** X2.  A flush that returns [True] was due and has committed.  It leaves
    an empty buffer without frame and the next save time on the minute
    boundary after the current time.  The store has received one record,
    stamped with the save time that was pending and carrying the averages
    that are columns of the model, with the hourly average when it was
    computed, followed by at most one daily record. *)
Theorem successful_flush_empties_buffer :
  forall (fl : faults) (c : UPSDataCache) (db : store) (now : timestamp),
    let r := calculate_and_save_averages utcoffset model_columns
                                         fl c db now in
    let c' := snd (fst r) in
    fst (fst r) = true ->
    data c' = [] /\ df c' = None /\
    next_save_time c' = Some (get_next_minute utcoffset now) /\
    is_save_time c now = true /\ commit_raises fl = false /\
    exists t averages record,
      next_save_time c = Some t /\
      calculate_averages c = Some averages /\ averages <> [] /\
      timestamp_tz record = t /\
      (fields record = filter (fun kv => model_columns (fst kv)) averages \/
       exists v, fields record
                 = dict_set "ups_realpower_hrs" v
                     (filter (fun kv => model_columns (fst kv)) averages)) /\
      (snd r = db ++ [record] \/
       exists t' v,
         snd r = db ++ [record;
                        mkRecord t' [("ups_realpower_days", VFloat v)]]).
Proof.
  intros fl c db now r c' Hok. subst r c'.
  destruct (flush_cases utcoffset model_columns fl c db now)
    as [[Hf _]|[_ [Hc [Hs [Hd [Hdf [Hn [_ Hrec]]]]]]]]; [congruence|].
  repeat split; assumption.
Qed.

(** X3.  A flush only appends to the store: at most two records, and none
    exactly when it returns [False].  A flush that returns [False] leaves
    the buffer, its frame and the save time as they were.  No flush changes
    the cap or the last broadcast. *)
Theorem flush_only_appends :
  forall (fl : faults) (c : UPSDataCache) (db : store) (now : timestamp),
    let r := calculate_and_save_averages utcoffset model_columns
                                         fl c db now in
    let c' := snd (fst r) in
    (exists written,
        snd r = db ++ written /\ (List.length written <= 2)%nat /\
        (written = [] <-> fst (fst r) = false)) /\
    (fst (fst r) = false ->
     data c' = data c /\ df c' = df c /\
     next_save_time c' = next_save_time c) /\
    size c' = size c /\ last_broadcast c' = last_broadcast c.
Proof.
  intros fl c db now r c'. subst r c'.
  pose proof (flush_size utcoffset model_columns fl c db now) as Hsize.
  destruct (flush_cases utcoffset model_columns fl c db now)
    as [[Hf [Hdb [Hd [Hdf [Hn Hb]]]]]
       |[Hf [_ [_ [_ [_ [_ [Hb [t [av [d1 [_ [_ [_ [_ [_ Hdb]]]]]]]]]]]]]]]].
  - split; [|split; [|split]]; auto.
    exists []. rewrite app_nil_r. repeat split; auto.
  - split; [|split; [|split]]; auto; [|congruence].
    destruct Hdb as [->|[t' [v ->]]].
    + exists [d1]. split; [reflexivity|]. split; [simpl; lia|].
      split; [discriminate|congruence].
    + eexists. split; [reflexivity|]. split; [simpl; lia|].
      split; [discriminate|congruence].
Qed.

(** What a polling step leaves in the cache and in the store. *)
Lemma poll_synced env st :
  synced (ups_data_cache st) ->
  synced (ups_data_cache
            (snd (fst (save_ups_data utcoffset model_columns CACHE_SECONDS
                                     UPS_REALPOWER_NOMINAL env st)))).
Proof.
  intros Hs. unfold save_ups_data.
  set (c1 := if 1 <? _ then _ else ups_data_cache st).
  assert (Hc1 : synced c1).
  { unfold c1. destruct (1 <? _); [|exact Hs].
    destruct (negb _); [|exact Hs]. exact Hs. }
  destruct (Reader.get_ups_data UPS_REALPOWER_NOMINAL (ups_config st) (run env))
    as [cfg1 [sample|msg]]; cbn [fst snd ups_data_cache]; [|exact Hc1].
  pose proof (add_synced utcoffset c1 (now env) sample (now_iso env)) as Ha.
  destruct (add utcoffset c1 (now env) sample (now_iso env)) as [c2 sent].
  cbn [fst] in Ha.
  pose proof (flush_cases utcoffset model_columns (db_faults env) c2
                          (db st) (now env)) as Hf.
  destruct (calculate_and_save_averages _ _ _ _ _ _) as [[ok c3] db1].
  cbn [fst snd ups_data_cache] in *. unfold synced in *.
  destruct Hf as [[_ [_ [Hd [Hdf _]]]]|[_ [_ [_ [Hd [Hdf _]]]]]].
  - rewrite Hd, Hdf. exact Ha.
  - rewrite Hd, Hdf. reflexivity.
Qed.

(** X11.  The frame of the cache is that of its buffer for the initial cache
    and after every polling step.  In every cache that the polling thread
    reaches from the initial one, the frame is missing exactly when the
    buffer is empty, and the averages of an empty buffer are [None]. *)
Theorem frame_follows_buffer :
  forall (envs : list environment) (st : state),
    synced (initial_cache CACHE_SECONDS) /\
    (synced (ups_data_cache st) ->
     synced (ups_data_cache
               (polling_thread utcoffset model_columns CACHE_SECONDS
                               UPS_REALPOWER_NOMINAL envs st))) /\
    (ups_data_cache st = initial_cache CACHE_SECONDS ->
     let c := ups_data_cache
                (polling_thread utcoffset model_columns CACHE_SECONDS
                                UPS_REALPOWER_NOMINAL envs st) in
     (data c = [] <-> df c = None) /\
     (data c = [] -> calculate_averages c = None)).
Proof.
  intros envs st.
  assert (H0 : synced (initial_cache CACHE_SECONDS)) by reflexivity.
  assert (H : forall st0,
             synced (ups_data_cache st0) ->
             synced (ups_data_cache
                       (polling_thread utcoffset model_columns CACHE_SECONDS
                                       UPS_REALPOWER_NOMINAL envs st0))).
  { induction envs as [|env envs IH]; intros st0 Hs; [exact Hs|].
    simpl. apply IH, poll_synced, Hs. }
  split; [exact H0|]. split; [apply H|].
  intros E c.
  assert (Hs : synced c) by (apply H; rewrite E; exact H0).
  unfold synced, frame_of in Hs. split.
  - rewrite Hs. destruct (data c); split; congruence.
  - intros Hd. unfold calculate_averages. rewrite Hs, Hd. reflexivity.
Qed.

(** X12.  After [add] the save time is set: to the minute after the sample
    when there was none, unchanged otherwise.  A full buffer is due at
    once, whatever the time; a buffer that is not full is due only when
    the save time is reached. *)
Theorem full_buffer_is_due :
  forall (c : UPSDataCache) (ts now : timestamp) (d : dict value)
         (iso : string),
    let c' := fst (add utcoffset c ts d iso) in
    (exists t, next_save_time c' = Some t /\
               (next_save_time c = None -> t = get_next_minute utcoffset ts) /\
               (forall t0, next_save_time c = Some t0 -> t = t0)) /\
    (is_full c' = true -> is_save_time c' now = true) /\
    (is_full c' = false ->
     is_save_time c' now = true ->
     exists t, next_save_time c' = Some t /\ t <= now).
Proof.
  intros c ts now d iso c'.
  assert (Hn : next_save_time c'
               = match next_save_time c with
                 | None => Some (get_next_minute utcoffset ts)
                 | Some t => Some t
                 end).
  { subst c'. unfold add.
    destruct (next_save_time c) as [t0|] eqn:E0;
      match goal with |- context [broadcast_cache_update ?x ?y ?z] =>
        destruct (broadcast_frame x y z) as [_ [_ [_ [E _]]]]; rewrite E end;
      cbn; rewrite ?E0; reflexivity. }
  split; [|split].
  - rewrite Hn. destruct (next_save_time c) as [t0|].
    + exists t0. split; [reflexivity|]. split; [discriminate|].
      intros t1 [= ->]. reflexivity.
    + eexists. split; [reflexivity|]. split; [reflexivity|discriminate].
  - unfold is_full, is_save_time. rewrite Hn. intros ->.
    destruct (next_save_time c); destruct (_ <=? now); reflexivity.
  - unfold is_full, is_save_time. rewrite Hn. intros ->.
    destruct (next_save_time c) as [t0|].
    + destruct (t0 <=? now) eqn:E; [|discriminate].
      intros _. exists t0. split; [reflexivity|apply Z.leb_le, E].
    + destruct (_ <=? now) eqn:E; [|discriminate].
      intros _. eexists. split; [reflexivity|apply Z.leb_le, E].
Qed.

End FlushOutcomes.

Section LastAssignment.
Import Py Text.

Lemma fold_left_flat_map {A B C : Type} (step : A -> B -> A)
      (items : B -> list C) (set : A -> C -> A) (l : list B) (acc : A) :
  (forall a b, step a b = fold_left set (items b) a) ->
  fold_left step l acc = fold_left set (flat_map items l) acc.
Proof.
  intros H. revert acc. induction l as [|b l IH]; intros acc; simpl;
    [reflexivity|].
  rewrite fold_left_app, <- H. apply IH.
Qed.

Lemma parse_lines_items lines :
  Reader.parse_lines lines
  = dict_of_items (flat_map Polls.status_item lines).
Proof.
  unfold Reader.parse_lines, dict_of_items.
  apply (fold_left_flat_map _ Polls.status_item
                            (fun d kv => dict_set (fst kv) (snd kv) d)).
  intros a b. unfold Polls.status_item.
  destruct (split_once ":" b) as [[k v]|]; reflexivity.
Qed.

(** X15.  The dictionary read from the lines of the status command gives to
    a key the value of the last line that carries it.  A line is cut at its
    first colon, the key and the value are stripped, and a line without
    colon gives nothing.  The keys are distinct. *)
Theorem status_lines_last_wins :
  forall (lines : list string) (k : string),
    dict_get k (Reader.parse_lines lines)
    = dict_get k (rev (flat_map Polls.status_item lines)) /\
    (forall key v,
        forall_chars (fun c => negb (Ascii.eqb c ":")) key = true ->
        Polls.status_item (key ++ String ":" v)
        = [(strip key, strip v)]) /\
    (forall line,
        forall_chars (fun c => negb (Ascii.eqb c ":")) line = true ->
        Polls.status_item line = []) /\
    NoDup (dict_keys (Reader.parse_lines lines)).
Proof.
  intros lines k. split; [|split; [|split]].
  - rewrite parse_lines_items. unfold dict_of_items.
    rewrite fold_dict_set_get.
    destruct (dict_get k (rev _)); reflexivity.
  - intros key v H. unfold Polls.status_item.
    rewrite (split_once_app ":" key v H). reflexivity.
  - intros line H. unfold Polls.status_item.
    rewrite (split_once_none ":" line H). reflexivity.
  - apply parse_lines_nodup.
Qed.

Lemma read_lines_items lines acc :
  fold_left Settings.read_line lines acc
  = fold_left (fun d kv => dict_set (fst kv) (snd kv) d)
              (flat_map Settings.assignment lines) acc.
Proof.
  apply (fold_left_flat_map _ Settings.assignment
                            (fun d kv => dict_set (fst kv) (snd kv) d)).
  intros a b. unfold Settings.read_line, Settings.assignment.
  destruct (_ || _); [reflexivity|].
  destruct (split_once "=" (strip b)) as [[k v]|]; reflexivity.
Qed.

(** X28.  After the loop of [load_settings] a key has the value of the last
    line that assigns it, and its default when no line does.
    [load_settings] raises [ValueError] with the required variables that
    have no value, and only when there is one; it raises
    [FileNotFoundError] without file.  A comment line assigns nothing, and
    a comment behind a value is dropped. *)
Theorem settings_file_overrides_defaults :
  forall (lines : list string),
    let read := fold_left Settings.read_line lines
                          Settings.default_settings in
    (forall k,
        dict_get k read
        = match dict_get k (rev (flat_map Settings.assignment lines)) with
          | Some v => Some v
          | None => dict_get k Settings.default_settings
          end) /\
    (forall missing,
        Settings.load_settings (Some lines) = Settings.ValueError missing ->
        missing <> [] /\
        forall var, In var missing <->
                    In var Settings.required_vars /\ dict_get var read = None) /\
    (forall settings,
        Settings.load_settings (Some lines) = Settings.Read settings ->
        settings = read /\
        forall var, In var Settings.required_vars ->
                    dict_get var settings <> None) /\
    Settings.load_settings None = Settings.FileNotFoundError /\
    Settings.assignment "# CACHE_SECONDS = 30" = [] /\
    Settings.assignment "CACHE_SECONDS = 30  # seconds"
    = [("CACHE_SECONDS", Settings.SInt 30)].
Proof.
  intros lines read.
  assert (Hm : forall var,
             In var (Settings.missing_vars read) <->
             In var Settings.required_vars /\ dict_get var read = None).
  { intros var. unfold Settings.missing_vars. rewrite filter_In.
    unfold dict_mem. destruct (dict_get var read); simpl;
      split; intros [H1 H2]; split; congruence. }
  split; [|split; [|split; [|split; [reflexivity|split; reflexivity]]]].
  - intros k. subst read. rewrite read_lines_items.
    apply fold_dict_set_get.
  - intros missing. unfold Settings.load_settings. fold read.
    destruct (Settings.missing_vars read) as [|m ms] eqn:E; [discriminate|].
    intros [= <-]. split; [discriminate|]. intros var. apply Hm.
  - intros settings. unfold Settings.load_settings. fold read.
    destruct (Settings.missing_vars read) as [|m ms] eqn:E; [|discriminate].
    intros [= <-]. split; [reflexivity|].
    intros var Hin Hnone.
    destruct (proj2 (Hm var) (conj Hin Hnone)).
Qed.

End LastAssignment.

(** ** Instances *)



Lemma online_after_onbatt_duration_witness :
  exists onbatt online rest,
    snd (Events.store_event_in_database "10.0.0.2" Events.no_fault
           1300000000
           (snd (Events.store_event_in_database "10.0.0.2" Events.no_fault
                                                1000000123 [] "ups1" "ONBATT"))
           "ups1" "ONLINE")
    = rest ++ [onbatt; online] /\
    Events.timestamp_tz_end onbatt = Some 1300000000 /\
    Events.timestamp_tz_begin online = Some 1300000000 /\
    Events.battery_duration false (rest ++ [onbatt; online]) "ups1" "ONLINE"
                            (Events.Aware 1300500000) = "0 min".
Proof.
  destruct (online_after_onbatt_duration "10.0.0.2" 1000000123
              1300000000 1300500000 [] "ups1")
    as [onbatt [online [rest [E [_ [_ [_ [He [_ [_ [Hb [_ [_ [Hd _]]]]]]]]]]]]]].
  - reflexivity.
  - intros e [].
  - reflexivity.
  - exists onbatt, online, rest. rewrite <- E.
    repeat split; assumption.
Defined.

Lemma flush_of_empty_buffer_is_noop_witness :
  Cache.calculate_and_save_averages 0 (fun _ => true)
    (Cache.mkFaults false false) (Cache.init 60) [] 90000000
  = (false, Cache.set_next_hour (Cache.init 60) (Some 3600000000), []).
Proof.
  apply (flush_of_empty_buffer_is_noop 0 (fun _ => true)
           (Cache.mkFaults false false) (Cache.init 60) [] 90000000);
    reflexivity.
Defined.

Lemma dispatch_isolates_channels_witness :
  let w := Events.mkWorld Events.no_fault true true
             [Events.mkSettings "ONBATT" true (Some 1)] None true
             (fun _ => Events.Sent) (fun _ => Events.Sent) Events.Raised in
  fst (fst (Events.process_ups_event "10.0.0.2" w 1000000 1200000 []
                                     "ups1" "ONBATT")) = true /\
  In (Events.EmailSend 1 "0 min" "0 min" Events.Sent)
     (snd (Events.process_ups_event "10.0.0.2" w 1000000 1200000 []
                                    "ups1" "ONBATT")).
Proof.
  intros w.
  destruct (dispatch_isolates_channels "10.0.0.2" w 1000000 1200000 []
              "ups1" "ONBATT") as [_ [_ [_ [_ H]]]].
  destruct (H eq_refl eq_refl eq_refl) as [Hr [_ [_ Hm]]].
  split; [exact Hr|].
  apply (Hm eq_refl 1). left. reflexivity.
Defined.








Lemma placeholder_sample_is_buffered_witness :
  snd (Reader.get_ups_data (Py.VInt 500)
         (Reader.mkConfig (Some "localhost") None (Some "upsc"))
         (Reader.RunRaised "timeout"))
  = Reader.Ok Reader.placeholder.
Proof.
  apply (placeholder_sample_is_buffered 0 (fun _ => true) 60 (Py.VInt 500)
           (Reader.mkConfig (Some "localhost") None (Some "upsc"))
           (Reader.RunRaised "timeout")).
  left. reflexivity.
Defined.

(** ** Instances of the further properties *)

Lemma successful_flush_empties_buffer_witness :
  let c := fst (Cache.add 0 (Cache.init 1) 0 [("ups_load", Py.VFloat 42)]
                          "2024-01-01T00:00:00") in
  let r := Cache.calculate_and_save_averages
             0 (fun _ => true) (Cache.mkFaults false false) c [] 0 in
  fst (fst r) = true /\ Cache.data (snd (fst r)) = [] /\
  Cache.next_save_time (snd (fst r)) = Some 60000000.
Proof.
  intros c r.
  assert (H : fst (fst r) = true) by reflexivity.
  destruct (successful_flush_empties_buffer
              0 (fun _ => true) (Cache.mkFaults false false) c [] 0 H)
    as [H1 [_ [H3 _]]].
  repeat split; assumption.
Defined.

Lemma daily_aggregation_once_per_day_witness :
  fst (Cache.should_aggregate_daily 0 (Cache.init 60) 0) = true /\
  fst (Cache.should_aggregate_daily
         0 (snd (Cache.should_aggregate_daily 0 (Cache.init 60) 0)) 30000000)
  = false.
Proof.
  split; [reflexivity|].
  apply (daily_aggregation_once_per_day 0 (Cache.init 60) 0 30000000);
    reflexivity.
Defined.

Lemma buffer_grows_while_commit_fails_witness :
  let env := fun sec =>
    Cache.mkEnv (sec * Cache.second) "2024-01-01T00:00:00"
                (Cache.ConfigRow 1) Scenario.answer
                (Cache.mkFaults false true) in
  List.length
    (Cache.data
       (Cache.ups_data_cache
          (Cache.polling_thread 0 (fun _ => true) 60 (Py.VInt 500)
                                [env 59; env 60; env 61] Scenario.start)))
  = 3%nat.
Proof.
  intros env.
  destruct (buffer_grows_while_commit_fails
              0 (fun _ => true) 60 (Py.VInt 500)
              [env 59; env 60; env 61] Scenario.start) as [H _].
  - intros e [<-|[<-|[<-|[]]]]; split; reflexivity.
  - exact H.
Defined.

Lemma broadcast_payload_carries_sample_witness :
  exists payload,
    Cache.broadcast_cache_update (Cache.init 60)
                                 [("ups_status", Py.VStr "OL")] "t0"
    = (Cache.set_last_broadcast (Cache.init 60) (Some payload),
       Some payload).
Proof.
  destruct (broadcast_payload_carries_sample
              (Cache.init 60) [("ups_status", Py.VStr "OL")] "t0")
    as [_ [H _]].
  - repeat constructor. simpl. tauto.
  - apply H; [discriminate|reflexivity].
Defined.

Lemma reader_sample_is_buffered_as_read_witness :
  exists sample,
    snd (Reader.get_ups_data (Py.VInt 500) Scenario.configured
                             Scenario.answer) = Reader.Ok sample /\
    Cache.data (fst (Cache.add 0 (Cache.init 60) 0 sample "t0"))
    = [(0, sample)].
Proof.
  eexists. split; [reflexivity|].
  destruct (reader_sample_is_buffered_as_read
              0 (Py.VInt 500) Scenario.configured Scenario.answer _ eq_refl)
    as [_ [_ H]].
  apply (H (Cache.init 60) 0 "t0").
Defined.

Lemma listed_variables_are_in_the_sample_witness :
  Config.get_available_variables
    (fst (Config.configure (Some "localhost") (Some "ups") (Some "upsc")
                           (Some 10)))
    (Reader.Completed 1 ["ups.load: 50"] "Error: Data stale")
  = Config.Variables [("ups.load", "50")].
Proof.
  apply (listed_variables_are_in_the_sample
           (Py.VInt 500)
           (fst (Config.configure (Some "localhost") (Some "ups")
                                  (Some "upsc") (Some 10)))
           1 ["ups.load: 50"] "Error: Data stale").
  reflexivity.
Defined.

Lemma recorded_events_are_whole_second_intervals_witness :
  let db := [Events.mkEvent 1 0 (Some 0) None "ups1" "ONBATT"
                            "UPS ups1 event: ONBATT" "10.0.0.2" false] in
  exists n, 0 <= n /\ 300000000 - 0 = n * Events.second.
Proof.
  intros db.
  destruct (recorded_events_are_whole_second_intervals
              "10.0.0.2" Events.no_fault 300000123 db "ups1" "ONLINE")
    as [_ [_ H]].
  - intros e [<-|[]]. unfold Rows.well_timed. cbn.
    split; [reflexivity|]. split; [reflexivity|discriminate].
  - intros e [<-|[]]. cbn. lia.
  - apply (H (Events.set_end 300000000
                (Events.mkEvent 1 0 (Some 0) None "ups1" "ONBATT"
                                "UPS ups1 event: ONBATT" "10.0.0.2" false))
             300000000); [left; reflexivity|reflexivity].
Defined.
